(** * Freqtrade: the sell decision, price targeting, stake sizing,
      order reconciliation, the pair whitelist and the choice of a pair
      to buy of [freqtrade/analyze.py] and [freqtrade/freqtradebot.py]

    Numbers are rationals ([Q]).  A Python float is a binary64 number: a
    rational [x] with [fl x == x], where [fl] rounds to the nearest
    binary64 number, ties to the even mantissa.  The formulas whose
    rounding the program can tell apart are written with the rounded
    operations [fadd], [fsub], [fmul] and [fdiv]: the product that
    [trunc_num] floors and its quotient, [round], the builtin [sum], the
    stake, the rate of the ROI table, the bid rates of [get_target_bid],
    the sums over the fills of an order.  Three places are written
    exactly: the order's amount less the order's own fee in
    [get_real_amount] and the amount and the stake of a partly filled buy
    order in [handle_timedout_limit_buy], which are handed on as they
    are, and the minutes a trade has been open, which are compared with
    the whole minutes of the ROI table.
    Infinities, NaN and overflow are not modelled.  Comparisons are the
    boolean tests of [QArith].  Datetimes are POSIX seconds.  A Python
    exception is a value of [exn]; code that mutates an object or talks to
    a collaborator runs in a state-and-exception monad, so whatever was
    written before a [raise] stays written. *)

From Stdlib Require Import ZArith QArith Qround Qabs Qpower List Ascii String Bool Lia Lqa.
From Stdlib Require Import Permutation Sorted.
Import ListNotations.
Local Open Scope Q_scope.

(* ------------------------------------------------------------------ *)
(** ** Numbers *)

(** Python's [a < b] on numbers. *)
Definition Qltb (a b : Q) : bool := negb (Qle_bool b a).

(** *** Binary64 rounding *)

(** The exponent of the binade of a positive [x]: the [k] with
    [2 ^ k <= x < 2 ^ (k + 1)]. *)
Definition ilog2 (x : Q) : Z :=
  let k := (Z.log2 (Qnum x) - Z.log2 (Zpos (Qden x)))%Z in
  if Qle_bool (2 ^ k) x then k else (k - 1)%Z.

(** The nearest integer, ties to the even one. *)
Definition rne (x : Q) : Z :=
  let n := Qfloor x in
  match Qcompare (x - inject_Z n) (1 # 2) with
  | Lt => n
  | Gt => (n + 1)%Z
  | Eq => if Z.even n then n else (n + 1)%Z
  end.

(** The exponent of the last place of the binary64 numbers around a
    positive [x]: 53 bits of mantissa, subnormal below [2 ^ -1022]. *)
Definition binade (x : Q) : Z := Z.max (ilog2 x - 52) (-1074).

(** Rounding to a multiple of [2 ^ e]. *)
Definition grid (e : Z) (x : Q) : Q := inject_Z (rne (x / 2 ^ e)) * 2 ^ e.

Definition fl_pos (x : Q) : Q :=
  inject_Z (rne (x / 2 ^ binade x)) * 2 ^ binade x.

(** The binary64 number nearest to [x]. *)
Definition fl (x : Q) : Q :=
  match Qcompare x 0 with
  | Gt => fl_pos x
  | Lt => - fl_pos (- x)
  | Eq => 0
  end.

(** Python's [+], [-], [*] and [/] on floats. *)
Definition fadd (x y : Q) : Q := fl (x + y).
Definition fsub (x y : Q) : Q := fl (x - y).
Definition fmul (x y : Q) : Q := fl (x * y).
Definition fdiv (x y : Q) : Q := fl (x / y).

Arguments fl : simpl never.
Arguments fadd : simpl never.
Arguments fsub : simpl never.
Arguments fmul : simpl never.
Arguments fdiv : simpl never.

(** *** Cutting and rounding decimals *)

(** [math.floor(f * 10 ** n) / 10 ** n] of [Analyze.trunc_num].  For
    [n >= 0] the power is an int: the product converts it to a float,
    and the quotient of the two ints is rounded once.  For [n < 0] the
    power is a float already. *)
Definition trunc_num (f : Q) (n : Z) : Q :=
  let scaled := inject_Z (Qfloor (fmul f (fl (10 ^ n)))) in
  if (0 <=? n)%Z then fl (scaled / 10 ^ n) else fdiv scaled (fl (10 ^ n)).

(** The builtin [round(x, n)] on a float: the nearest multiple of
    [10 ** -n] of the exact value, ties to the even one, as a float. *)
Definition py_round (x : Q) (n : Z) : Q :=
  fl (inject_Z (rne (x * 10 ^ n)) / 10 ^ n).

(** The builtin [sum] over a list of floats: from the left, starting
    at 0 (CPython before 3.12, which does not compensate). *)
Definition py_sum (l : list Q) : Q := fold_left fadd l 0.

Arguments trunc_num : simpl never.
Arguments py_round : simpl never.

(* ------------------------------------------------------------------ *)
(** ** Exceptions and the monad *)

Inductive exn : Type :=
| ValueError
| KeyError
| IndexError
| TypeError
| AttributeError
| ZeroDivisionError
| OperationalException
| DependencyException.

Definition M (S A : Type) : Type := S -> (exn + A) * S.

Definition ret {S A : Type} (a : A) : M S A := fun s => (inr a, s).

Definition raise {S A : Type} (e : exn) : M S A := fun s => (inl e, s).

Definition bind {S A B : Type} (m : M S A) (k : A -> M S B) : M S B :=
  fun s =>
    match m s with
    | (inl e, s') => (inl e, s')
    | (inr a, s') => k a s'
    end.

Definition get {S : Type} : M S S := fun s => (inr s, s).

Definition modify {S : Type} (f : S -> S) : M S unit := fun s => (inr tt, f s).

Declare Scope monad_scope.
Delimit Scope monad_scope with monad.
Notation "x <- c1 ;; c2" := (bind c1 (fun x => c2))
  (at level 61, c1 at next level, right associativity) : monad_scope.
Notation "c1 ;;; c2" := (bind c1 (fun _ => c2))
  (at level 61, right associativity) : monad_scope.
Local Open Scope monad_scope.

(** Python list indexing [l[i]]: a negative index counts from the end,
    anything out of range raises [IndexError]. *)
Definition py_index {A : Type} (l : list A) (i : Z) : exn + A :=
  let n := Z.of_nat (List.length l) in
  let j := if (i <? 0)%Z then (i + n)%Z else i in
  if (j <? 0)%Z then inl IndexError
  else match nth_error l (Z.to_nat j) with
       | Some a => inr a
       | None => inl IndexError
       end.

(** [range(a, b)]. *)
Definition py_range (a b : Z) : list Z :=
  map (fun k => (a + Z.of_nat k)%Z) (seq 0 (Z.to_nat (b - a))).

(* ------------------------------------------------------------------ *)
(** ** Data model *)

(** A row of the [Trade] table (freqtrade.persistence), the columns the
    two modules read or write. *)
Record Trade : Type := mkTrade {
  trade_id : Z;
  trade_bot_id : Z;
  trade_exchange : string;
  trade_pair : string;
  trade_is_open : bool;
  trade_fee_open : Q;
  trade_fee_close : Q;
  trade_open_rate : Q;
  trade_close_rate_requested : option Q;
  trade_stake_amount : Q;
  trade_amount : Q;
  trade_open_date : Q;
  trade_stop_loss : option Q;
  trade_initial_stop_loss : option Q;
  trade_open_order_id : option string
}.

Definition set_stop_loss (t : Trade) (v : option Q) : Trade :=
  mkTrade (trade_id t) (trade_bot_id t) (trade_exchange t) (trade_pair t)
    (trade_is_open t) (trade_fee_open t) (trade_fee_close t)
    (trade_open_rate t) (trade_close_rate_requested t)
    (trade_stake_amount t) (trade_amount t) (trade_open_date t)
    v (trade_initial_stop_loss t) (trade_open_order_id t).

Definition set_initial_stop_loss (t : Trade) (v : option Q) : Trade :=
  mkTrade (trade_id t) (trade_bot_id t) (trade_exchange t) (trade_pair t)
    (trade_is_open t) (trade_fee_open t) (trade_fee_close t)
    (trade_open_rate t) (trade_close_rate_requested t)
    (trade_stake_amount t) (trade_amount t) (trade_open_date t)
    (trade_stop_loss t) v (trade_open_order_id t).

Definition set_amount (t : Trade) (v : Q) : Trade :=
  mkTrade (trade_id t) (trade_bot_id t) (trade_exchange t) (trade_pair t)
    (trade_is_open t) (trade_fee_open t) (trade_fee_close t)
    (trade_open_rate t) (trade_close_rate_requested t)
    (trade_stake_amount t) v (trade_open_date t)
    (trade_stop_loss t) (trade_initial_stop_loss t) (trade_open_order_id t).

Definition set_stake_amount (t : Trade) (v : Q) : Trade :=
  mkTrade (trade_id t) (trade_bot_id t) (trade_exchange t) (trade_pair t)
    (trade_is_open t) (trade_fee_open t) (trade_fee_close t)
    (trade_open_rate t) (trade_close_rate_requested t)
    v (trade_amount t) (trade_open_date t)
    (trade_stop_loss t) (trade_initial_stop_loss t) (trade_open_order_id t).

Definition set_open_order_id (t : Trade) (v : option string) : Trade :=
  mkTrade (trade_id t) (trade_bot_id t) (trade_exchange t) (trade_pair t)
    (trade_is_open t) (trade_fee_open t) (trade_fee_close t)
    (trade_open_rate t) (trade_close_rate_requested t)
    (trade_stake_amount t) (trade_amount t) (trade_open_date t)
    (trade_stop_loss t) (trade_initial_stop_loss t) v.

Definition set_close_rate_requested (t : Trade) (v : option Q) : Trade :=
  mkTrade (trade_id t) (trade_bot_id t) (trade_exchange t) (trade_pair t)
    (trade_is_open t) (trade_fee_open t) (trade_fee_close t)
    (trade_open_rate t) v
    (trade_stake_amount t) (trade_amount t) (trade_open_date t)
    (trade_stop_loss t) (trade_initial_stop_loss t) (trade_open_order_id t).

(** The strategy attributes the sell path reads.  [minimal_roi] is a dict
    walked with [.items()], that is in insertion order: a list of
    (duration in minutes, required profit). *)
Record Strategy : Type := mkStrategy {
  stoploss : option Q;
  minimal_roi : list (Z * Q);
  ticker_interval : string
}.

(** [config['trailing_stop']]: the key may be missing, hold a flag, or
    hold a dict with or without a ['positive'] entry ([ts_other] says
    whether the dict has further keys, which only matters for its
    truth value). *)
Inductive trailing_cfg : Type :=
| TsAbsent
| TsFlag (b : bool)
| TsDict (positive : option Q) (ts_other : bool).

(** [config['ask_strategy']]. *)
Record AskStrategy : Type := mkAskStrategy {
  ask_use_book_order : bool;
  ask_book_order_min : option Z;
  ask_book_order_max : option Z
}.

(** [config['bid_strategy']]. *)
Record BidStrategy : Type := mkBidStrategy {
  ask_last_balance : option Q;
  bid_use_book_order : option bool;
  bid_book_order_top : option Z;
  percent_from_top : option Q
}.

(** The configuration dict.  A flag read with [.get(key, False)] is a
    [bool] (a missing key reads [false]). *)
Record Config : Type := mkConfig {
  cfg_bot_id : option Z;
  cfg_stake_amount : Q;
  cfg_max_open_trades : Z;
  cfg_high_risk_trading : bool;
  cfg_trailing_stop : trailing_cfg;
  cfg_sell_profit_only : bool;
  cfg_use_sell_signal : bool;
  cfg_sell_fullfilled_at_roi : bool;
  cfg_ask_strategy : option AskStrategy;
  cfg_bid_strategy : BidStrategy
}.

(** Truth value of [config['trailing_stop']] behind the test
    ['trailing_stop' in self.config and self.config['trailing_stop']]. *)
Definition trailing_enabled (c : Config) : bool :=
  match cfg_trailing_stop c with
  | TsAbsent => false
  | TsFlag b => b
  | TsDict p other => match p with Some _ => true | None => other end
  end.

(* ------------------------------------------------------------------ *)
(** ** analyze.py: the sell decision *)

(** The loop that closes [Analyze.min_roi_reached]. *)
Fixpoint roi_walk (roi : list (Z * Q)) (time_diff current_profit : Q) : bool :=
  match roi with
  | [] => false
  | (duration, threshold) :: rest =>
      if Qle_bool time_diff (inject_Z duration) then false
      else if Qltb threshold current_profit then true
      else roi_walk rest time_diff current_profit
  end.

(** The ROI decision in the words of the specification: the outcome is
    fixed by the first entry that is decisive. *)
Inductive roi_decision (time_diff current_profit : Q) : list (Z * Q) -> bool -> Prop :=
| roi_exhausted :
    roi_decision time_diff current_profit [] false
| roi_not_yet : forall duration threshold rest,
    time_diff <= inject_Z duration ->
    roi_decision time_diff current_profit ((duration, threshold) :: rest) false
| roi_sell : forall duration threshold rest,
    ~ time_diff <= inject_Z duration ->
    threshold < current_profit ->
    roi_decision time_diff current_profit ((duration, threshold) :: rest) true
| roi_next : forall duration threshold rest b,
    ~ time_diff <= inject_Z duration ->
    ~ threshold < current_profit ->
    roi_decision time_diff current_profit rest b ->
    roi_decision time_diff current_profit ((duration, threshold) :: rest) b.

Section Analyze.

(** [Trade.calc_profit_percent(rate)] and [Trade.calc_profit(rate=None)]
    of freqtrade.persistence, which is not part of the sources at hand:
    the profit as a fraction of the stake, and in stake currency. *)
Variable calc_profit_percent : Trade -> Q -> Q.
Variable calc_profit : Trade -> option Q -> Q.

(** The price a stop-loss percentage yields at a reference rate; the
    formula lives in freqtrade.persistence. *)
Variable stop_loss_price : Q -> option Q -> Q.

Variable config : Config.
Variable strategy : Strategy.

(** Modelled from the spec: [Trade.adjust_stop_loss] of
    freqtrade.persistence is missing.  The first call sets the stop-loss
    (and the initial stop-loss); later calls accept the new value only
    if it is higher than the stored one. *)
Definition adjust_stop_loss (current_price : Q) (pct : option Q) : M Trade unit :=
  modify (fun trade =>
    let new_loss := stop_loss_price current_price pct in
    match trade_stop_loss trade with
    | None => set_initial_stop_loss (set_stop_loss trade (Some new_loss)) (Some new_loss)
    | Some cur => if Qltb cur new_loss then set_stop_loss trade (Some new_loss) else trade
    end).

(** The percentage the trailing stop uses this tick. *)
Definition stop_loss_value (current_profit : Q) : option Q :=
  match cfg_trailing_stop config with
  | TsDict (Some p) _ => if Qltb 0 current_profit then Some p else stoploss strategy
  | _ => stoploss strategy
  end.

Definition min_roi_reached (current_rate current_time : Q) : M Trade bool :=
  trade <- get ;;
  let current_profit := calc_profit_percent trade current_rate in
  match trade_stop_loss trade with
  | None => adjust_stop_loss (trade_open_rate trade) (stoploss strategy)
  | Some _ => ret tt
  end ;;;
  trade <- get ;;
  hit <- match stoploss strategy with
         | None => ret false
         | Some _ =>
             match trade_stop_loss trade with
             | None => raise TypeError
             | Some sl => ret (Qle_bool current_rate sl)
             end
         end ;;
  if hit : bool then ret true
  else
    (if trailing_enabled config
     then adjust_stop_loss current_rate (stop_loss_value current_profit)
     else ret tt) ;;;
    trade <- get ;;
    let time_diff := (current_time - trade_open_date trade) / 60 in
    ret (roi_walk (minimal_roi strategy) time_diff current_profit).

Definition should_sell (rate date : Q) (buy sell : bool) : M Trade bool :=
  reached <- min_roi_reached rate date ;;
  if reached : bool then ret true
  else
    trade <- get ;;
    if cfg_sell_profit_only config && Qle_bool (calc_profit trade (Some rate)) 0
    then ret false
    else if sell && negb buy && cfg_use_sell_signal config then ret true
    else ret false.

End Analyze.

(* ------------------------------------------------------------------ *)
(** ** freqtradebot.py: collaborators and the bot's state *)

(** [exchange.get_ticker(pair)]. *)
Record Ticker : Type := mkTicker {
  ask : Q;
  bid : Q;
  last : Q
}.

(** [exchange.get_order_book(pair, depth)]: levels are [price, size],
    best first. *)
Record OrderBook : Type := mkOrderBook {
  bids : list (Q * Q);
  asks : list (Q * Q)
}.

(** What a dict holds under a key: nothing (the key is missing), [None],
    or a value of the expected type. *)
Inductive entry (A : Type) : Type :=
| Absent
| IsNone
| Has (a : A).

Arguments Absent {A}.
Arguments IsNone {A}.
Arguments Has {A} a.

(** A ['fee'] dict. *)
Record Fee : Type := mkFee {
  fee_currency : entry string;
  fee_cost : entry Q
}.

(** The order dict of [exchange.get_order]; [order_fee] is [None] when
    the key is missing or holds [None], which [get_real_amount] treats
    alike. *)
Record Order : Type := mkOrder {
  order_status : string;
  order_side : string;
  order_amount : Q;
  order_remaining : Q;
  order_fee : option Fee
}.

(** A fill of [exchange.get_trades_for_order]. *)
Record ExecTrade : Type := mkExecTrade {
  exec_amount : Q;
  exec_fee : entry Fee
}.

(** What the bot tells the user through [rpc.send_msg]. *)
Inductive message : Type :=
| MsgSelling (pair : string) (limit : Q)
| MsgTimeoutUnfilledBuy (pair : string)
| MsgTimeoutRemainingBuy (pair : string).

(** Every call that leaves the bot, in the order it is made. *)
Inductive event : Type :=
| EvGetTicker (pair : string)
| EvGetSignal (pair interval : string)
| EvGetFee (pair : string)
| EvGetOrderBook (pair : string) (depth : Z)
| EvGetTradesForOrder (order_id : option string) (pair : string) (since : Q)
| EvSell (pair : string) (rate amount : Q)
| EvCancelOrder (order_id : option string) (pair : string)
| EvSendMsg (m : message)
| EvFlush.

(** The rows of the Trade table as the session holds them, the calls
    made so far, and how often the clock was read. *)
Record World : Type := mkWorld {
  session : list Trade;
  events : list event;
  clock : nat
}.

Definition emit (e : event) : M World unit :=
  modify (fun w => mkWorld (session w) (events w ++ [e]) (clock w)).

Definition lift_exn {S A : Type} (r : exn + A) : M S A :=
  match r with
  | inl e => raise e
  | inr a => ret a
  end.

(** The session hands out one object per row: a write to the object is
    a write to the row with its id. *)
Definition replace_row (t : Trade) (rows : list Trade) : list Trade :=
  map (fun r => if (trade_id r =? trade_id t)%Z then t else r) rows.

Definition delete_row (t : Trade) (rows : list Trade) : list Trade :=
  filter (fun r => negb (trade_id r =? trade_id t)%Z) rows.

Definition lookup_row (i : Z) (rows : list Trade) : option Trade :=
  find (fun r => (trade_id r =? i)%Z) rows.

Definition save (t : Trade) : M World unit :=
  modify (fun w => mkWorld (replace_row t (session w)) (events w) (clock w)).

(** Run code that mutates the trade object and keep its writes, also
    when it raises. *)
Definition on_trade {A : Type} (t : Trade) (m : M Trade A) : M World (A * Trade) :=
  fun w =>
    match m t with
    | (inl e, t') => (inl e, mkWorld (replace_row t' (session w)) (events w) (clock w))
    | (inr a, t') => (inr (a, t'), mkWorld (replace_row t' (session w)) (events w) (clock w))
    end.

(** [Trade.query.filter(Trade.bot_id == self.config.get('bot_id', 0))]. *)
Definition bot_rows (c : Config) (rows : list Trade) : list Trade :=
  let b := match cfg_bot_id c with Some b => b | None => 0%Z end in
  filter (fun r => (trade_bot_id r =? b)%Z) rows.

(** [.order_by(Trade.id)]. *)
Fixpoint insert_by_id (t : Trade) (rows : list Trade) : list Trade :=
  match rows with
  | [] => [t]
  | r :: rest =>
      if (trade_id t <=? trade_id r)%Z then t :: r :: rest
      else r :: insert_by_id t rest
  end.

Definition order_by_id (rows : list Trade) : list Trade :=
  fold_right insert_by_id [] rows.


Section Bot.

Variable calc_profit_percent : Trade -> Q -> Q.
Variable calc_profit : Trade -> option Q -> Q.
Variable stop_loss_price : Q -> option Q -> Q.

Variable config : Config.
Variable strategy : Strategy.

(** What the exchange and the signal source answer, and the wall clock
    at its n-th reading. *)
Variable get_ticker : string -> Ticker.
Variable get_order_book : string -> Z -> OrderBook.
Variable get_fee : string -> Q.
Variable get_trades_for_order : option string -> string -> Q -> list ExecTrade.
Variable exchange_sell : string -> Q -> Q -> string.
Variable get_signal : string -> string -> bool * bool.
Variable utcnow_at : nat -> Q.

(** [numpy.mean] on a list that is not empty. *)
Variable numpy_mean : list Q -> Q.

(** [datetime.utcnow()]. *)
Definition utcnow : M World Q :=
  fun w => (inr (utcnow_at (clock w)), mkWorld (session w) (events w) (S (clock w))).

(* ---------------------------------------------------------------- *)
(** *** Price targeting *)

Definition get_target_bid (pair : string) : M World Q :=
  emit (EvGetTicker pair) ;;;
  let ticker := get_ticker pair in
  ticker_rate <-
    (if Qltb (ask ticker) (last ticker) then ret (ask ticker)
     else match ask_last_balance (cfg_bid_strategy config) with
          | None => raise KeyError
          | Some balance =>
              ret (fadd (ask ticker) (fmul balance (fsub (last ticker) (ask ticker))))
          end) ;;
  let used_rate := ticker_rate in
  used_rate <-
    match bid_use_book_order (cfg_bid_strategy config) with
    | Some true =>
        let orderBook_top :=
          match bid_book_order_top (cfg_bid_strategy config) with
          | Some n => n
          | None => 1%Z
          end in
        emit (EvGetOrderBook pair orderBook_top) ;;;
        let orderBook := get_order_book pair orderBook_top in
        level <- lift_exn (py_index (bids orderBook) (orderBook_top - 1)) ;;
        let orderBook_rate := fst level in
        let orderBook_rate := fadd orderBook_rate (fl (1 # 100000000)) in
        let used_rate :=
          if Qltb ticker_rate orderBook_rate then ticker_rate else used_rate in
        let used_rate := orderBook_rate in
        ret used_rate
    | _ =>
        let used_rate := ticker_rate in
        ret used_rate
    end ;;
  let pft :=
    match percent_from_top (cfg_bid_strategy config) with
    | Some p => p
    | None => 0
    end in
  if Qltb 0 pft
  then ret (trunc_num (fsub used_rate (fmul used_rate pft)) 8)
  else ret used_rate.

(** The rate the comment in [get_target_bid] asks for: the ticker rate
    when it is lower than the order-book rate. *)
Definition conservative_bid (ticker_rate orderBook_rate : Q) : Q :=
  if Qltb ticker_rate orderBook_rate then ticker_rate else orderBook_rate.

(** [Analyze.get_roi_rate]. *)
Fixpoint roi_rate_walk (trade : Trade) (roi : list (Z * Q)) (time_diff sell_rate : Q)
  : M World Q :=
  match roi with
  | [] => ret sell_rate
  | (duration, threshold) :: rest =>
      if Qltb (inject_Z duration) time_diff
      then
        emit (EvGetFee (trade_pair trade)) ;;;
        ret (trunc_num
               (fmul (fmul (trade_open_rate trade) (fadd 1 threshold))
                     (fadd 1 (fmul (fl (21 # 10)) (get_fee (trade_pair trade))))) 8)
      else roi_rate_walk trade rest time_diff sell_rate
  end.

Definition get_roi_rate (trade : Trade) (sell_rate : Q) : M World Q :=
  current_time <- utcnow ;;
  let time_diff := (current_time - trade_open_date trade) / 60 in
  roi_rate_walk trade (minimal_roi strategy) time_diff sell_rate.

(* ---------------------------------------------------------------- *)
(** *** Stake sizing *)

(** [numpy.mean] of a list of floats: no value ([nan]) on an empty
    list, else what [numpy_mean], numpy's summation and division, makes
    of the list. *)
Definition mean (l : list Q) : option Q :=
  match l with
  | [] => None
  | _ => Some (numpy_mean l)
  end.

Definition get_trade_profits_fees : M World (Q * option Q) :=
  w <- get ;;
  let trades := order_by_id (bot_rows config (session w)) in
  let closed := filter (fun t => negb (trade_is_open t)) trades in
  let profit_closed_coin := map (fun t => calc_profit t None) closed in
  let closed_fees := map trade_fee_open closed in
  ret (py_round (py_sum profit_closed_coin) 8, mean closed_fees).

Definition get_high_stake_amount (stake_amount : Q) : M World Q :=
  w <- get ;;
  let current_trades :=
    Z.of_nat (List.length (filter trade_is_open (bot_rows config (session w)))) in
  let trades_left := (cfg_max_open_trades config - current_trades)%Z in
  if (0 <? trades_left)%Z
  then
    let initial_balance :=
      fmul (cfg_stake_amount config) (inject_Z (cfg_max_open_trades config)) in
    pf <- get_trade_profits_fees ;;
    let total_trade_profits := fst pf in
    if Qltb 0 total_trade_profits
    then
      if Qeq_bool initial_balance 0 then raise ZeroDivisionError
      else
        let total_profit_percent :=
          fsub (fdiv (fadd initial_balance total_trade_profits) initial_balance) 1 in
        match snd pf with
        | None => raise ValueError
        | Some trade_fees =>
            let total_profit_percent := fsub total_profit_percent (fmul trade_fees 2) in
            let stake_net := fmul stake_amount (fadd 1 (trunc_num total_profit_percent 2)) in
            let new_stake := trunc_num stake_net 8 in
            ret new_stake
        end
    else ret stake_amount
  else ret stake_amount.

(** The stake [create_trade] settles on before it looks for a pair. *)
Definition create_trade_stake : M World Q :=
  let stake_amount := cfg_stake_amount config in
  if cfg_high_risk_trading config
  then get_high_stake_amount stake_amount
  else ret stake_amount.

(* ---------------------------------------------------------------- *)
(** *** Fee reconciliation *)

(** [fee.keys() >= {'currency', 'cost'}], then
    [trade.pair.startswith(fee['currency'])], then the read of
    [fee['cost']] as a number: the cost to take off, if the fee is
    complete and in a currency the pair's name starts with.
    [startswith] raises TypeError on [None], and so does the arithmetic
    that takes the cost. *)
Definition base_fee_cost (pair : string) (fee : Fee) : exn + option Q :=
  match fee_currency fee, fee_cost fee with
  | Absent, _ => inr None
  | _, Absent => inr None
  | IsNone, _ => inl TypeError
  | Has currency, cost =>
      if String.prefix currency pair
      then match cost with
           | Has c => inr (Some c)
           | _ => inl TypeError
           end
      else inr None
  end.

(** ['fee' in order and order['fee'] and ...]: a missing fee and [None]
    are passed over. *)
Definition order_fee_cost (pair : string) (fee : option Fee) : exn + option Q :=
  match fee with
  | Some fee => base_fee_cost pair fee
  | None => inr None
  end.

(** The loop over the fills: summed amount and summed base-currency fee.
    ["fee" in exectrade and exectrade['fee'].keys() ...] has no truth
    test: a fill whose fee is [None] raises AttributeError. *)
Fixpoint sum_fills (pair : string) (trades : list ExecTrade) (amount fee_abs : Q)
  : exn + Q * Q :=
  match trades with
  | [] => inr (amount, fee_abs)
  | exectrade :: rest =>
      let amount := fadd amount (exec_amount exectrade) in
      match exec_fee exectrade with
      | Absent => sum_fills pair rest amount fee_abs
      | IsNone => inl AttributeError
      | Has fee =>
          match base_fee_cost pair fee with
          | inl e => inl e
          | inr (Some cost) => sum_fills pair rest amount (fadd fee_abs cost)
          | inr None => sum_fills pair rest amount fee_abs
          end
      end
  end.

Definition get_real_amount (trade : Trade) (order : Order) : M World Q :=
  let order_amount := order_amount order in
  if Qeq_bool (trade_fee_open trade) 0 || String.eqb (order_status order) "open"
  then ret order_amount
  else
    from_order <- lift_exn (order_fee_cost (trade_pair trade) (order_fee order)) ;;
    match from_order with
    | Some cost =>
        let new_amount := order_amount - cost in
        ret new_amount
    | None =>
        emit (EvGetTradesForOrder (trade_open_order_id trade) (trade_pair trade)
                (trade_open_date trade)) ;;;
        let trades :=
          get_trades_for_order (trade_open_order_id trade) (trade_pair trade)
            (trade_open_date trade) in
        match trades with
        | [] => ret order_amount
        | _ =>
            af <- lift_exn (sum_fills (trade_pair trade) trades 0 0) ;;
            let amount := fst af in
            let fee_abs := snd af in
            if negb (Qeq_bool amount order_amount)
            then raise OperationalException
            else
              let real_amount := fsub amount fee_abs in
              ret real_amount
        end
    end.

(* ---------------------------------------------------------------- *)
(** *** The sell path *)

Definition execute_sell (trade : Trade) (limit : Q) : M World Trade :=
  emit (EvSell (trade_pair trade) limit (trade_amount trade)) ;;;
  let order_id := exchange_sell (trade_pair trade) limit (trade_amount trade) in
  let trade := set_open_order_id trade (Some order_id) in
  let trade := set_close_rate_requested trade (Some limit) in
  save trade ;;;
  emit (EvGetTicker (trade_pair trade)) ;;;
  emit (EvSendMsg (MsgSelling (trade_pair trade) limit)) ;;;
  emit EvFlush ;;;
  ret trade.

(** [check_sell] hands back the trade object as it has left it. *)
Definition check_sell (trade : Trade) (sell_rate : Q) (buy sell : bool)
  : M World (bool * Trade) :=
  now <- utcnow ;;
  r <- on_trade trade
         (should_sell calc_profit_percent calc_profit stop_loss_price
            config strategy sell_rate now buy sell) ;;
  if fst r : bool
  then
    trade' <- execute_sell (snd r) sell_rate ;;
    ret (true, trade')
  else ret (false, snd r).

(** The loop over [range(orderBook_min, orderBook_max + 1)]. *)
Fixpoint scan_asks (book_asks : list (Q * Q)) (buy sell : bool)
    (levels : list Z) (sell_rate : Q) (trade : Trade) : M World bool :=
  match levels with
  | [] => ret false
  | i :: rest =>
      level <- lift_exn (py_index book_asks (i - 1)) ;;
      let orderBook_rate := fst level in
      let sell_rate := if Qltb sell_rate orderBook_rate then orderBook_rate else sell_rate in
      r <- check_sell trade sell_rate buy sell ;;
      if fst r : bool then ret true
      else scan_asks book_asks buy sell rest sell_rate (snd r)
  end.


(** What [handle_trade] does before it looks at the order book: the
    ticker's bid, the signals, and the ROI rate if it is asked for. *)
Definition sell_prelude (trade : Trade) : M World (Q * (bool * bool)) :=
  emit (EvGetTicker (trade_pair trade)) ;;;
  let sell_rate := bid (get_ticker (trade_pair trade)) in
  signals <-
    (if cfg_use_sell_signal config
     then
       emit (EvGetSignal (trade_pair trade) (ticker_interval strategy)) ;;;
       ret (get_signal (trade_pair trade) (ticker_interval strategy))
     else ret (false, false)) ;;
  sell_rate <-
    (if cfg_sell_fullfilled_at_roi config
     then get_roi_rate trade sell_rate
     else ret sell_rate) ;;
  ret (sell_rate, signals).

Definition book_order_min (a : AskStrategy) : Z :=
  match ask_book_order_min a with Some n => n | None => 1%Z end.

Definition book_order_max (a : AskStrategy) : Z :=
  match ask_book_order_max a with Some n => n | None => 1%Z end.

Definition handle_trade (trade : Trade) : M World bool :=
  if negb (trade_is_open trade) then raise ValueError
  else
    p <- sell_prelude trade ;;
    let sell_rate := fst p in
    let buy := fst (snd p) in
    let sell := snd (snd p) in
    match cfg_ask_strategy config with
    | Some a =>
        if ask_use_book_order a
        then
          let orderBook_min := book_order_min a in
          let orderBook_max := book_order_max a in
          emit (EvGetOrderBook (trade_pair trade) orderBook_max) ;;;
          let orderBook := get_order_book (trade_pair trade) orderBook_max in
          scan_asks (asks orderBook) buy sell
            (py_range orderBook_min (orderBook_max + 1)) sell_rate trade
        else
          r <- check_sell trade sell_rate buy sell ;;
          ret (fst r)
    | None =>
        r <- check_sell trade sell_rate buy sell ;;
        ret (fst r)
    end.

(* ---------------------------------------------------------------- *)
(** *** Timed-out buy orders *)

Definition handle_timedout_limit_buy (trade : Trade) (order : Order) : M World bool :=
  emit (EvCancelOrder (trade_open_order_id trade) (trade_pair trade)) ;;;
  if Qeq_bool (order_remaining order) (order_amount order)
  then
    modify (fun w => mkWorld (delete_row trade (session w)) (events w) (clock w)) ;;;
    emit EvFlush ;;;
    emit (EvSendMsg (MsgTimeoutUnfilledBuy (trade_pair trade))) ;;;
    ret true
  else
    let trade := set_amount trade (order_amount order - order_remaining order) in
    let trade := set_stake_amount trade (trade_amount trade * trade_open_rate trade) in
    let trade := set_open_order_id trade None in
    save trade ;;;
    emit (EvSendMsg (MsgTimeoutRemainingBuy (trade_pair trade))) ;;;
    ret false.

End Bot.

(* ------------------------------------------------------------------ *)
(** ** Stand-ins for freqtrade.persistence, used to run the code on
       concrete trades *)

(** Modelled from the spec: [Trade.calc_profit_percent] is missing; the
    profit fraction is (current_rate - open_rate) / open_rate, here
    without the fee adjustment. *)
Definition spec_profit_percent (t : Trade) (rate : Q) : Q :=
  (rate - trade_open_rate t) / trade_open_rate t.

(** Modelled from the spec: [Trade.calc_profit] is missing; the absolute
    profit of the position at a rate (the requested close rate when none
    is given). *)
Definition spec_profit (t : Trade) (rate : option Q) : Q :=
  let r := match rate with
           | Some r => r
           | None => match trade_close_rate_requested t with
                     | Some r => r
                     | None => trade_open_rate t
                     end
           end in
  trade_amount t * (r - trade_open_rate t).

(** Modelled from the spec: the price formula of [Trade.adjust_stop_loss]
    is missing; the stop-loss percentage applied to the reference rate. *)
Definition spec_stop_loss_price (rate : Q) (pct : option Q) : Q :=
  match pct with
  | Some p => rate * (1 - Qabs p)
  | None => rate
  end.

(** The first currency of a pair written BASE/QUOTE. *)
Fixpoint pair_base (pair : string) : string :=
  match pair with
  | EmptyString => EmptyString
  | String c rest =>
      if Ascii.eqb c "/"%char then EmptyString else String c (pair_base rest)
  end.

(** Successive evaluations of the sell decision on one trade object:
    each tick brings a rate, a time and the two signals. *)
Fixpoint run_ticks (calc_profit_percent : Trade -> Q -> Q)
    (calc_profit : Trade -> option Q -> Q)
    (stop_loss_price : Q -> option Q -> Q)
    (config : Config) (strategy : Strategy)
    (ticks : list (Q * Q * (bool * bool))) (trade : Trade) : Trade :=
  match ticks with
  | [] => trade
  | (rate, now, (buy, sell)) :: rest =>
      run_ticks calc_profit_percent calc_profit stop_loss_price config strategy rest
        (snd (should_sell calc_profit_percent calc_profit stop_loss_price
                config strategy rate now buy sell trade))
  end.

(** Sample data. *)
Definition sample_trade : Trade :=
  mkTrade 1 0 "binance" "ETH/BTC" true (1 # 400) (1 # 400)
    100 None 1000 10 0 (Some 90) (Some 90) None.

Definition sample_roi : list (Z * Q) :=
  [(0%Z, 10 # 100); (30%Z, 5 # 100); (60%Z, 2 # 100)].

Definition sample_strategy : Strategy :=
  mkStrategy (Some (- (10 # 100))) sample_roi "5m".

Definition sample_bid_strategy : BidStrategy :=
  mkBidStrategy (Some 1) None None None.

Definition sample_config : Config :=
  mkConfig None 1000 3 false TsAbsent false false false None sample_bid_strategy.

(** A bid half way between the ask and the last price. *)
Definition half_balance_config : Config :=
  mkConfig None 1000 3 false TsAbsent false false false None
    (mkBidStrategy (Some (1 # 2)) None None None).

(** [trailing_stop] as a dict with a 'positive' percentage of 1 %. *)
Definition positive_trailing_config : Config :=
  mkConfig None 1000 3 false (TsDict (Some (1 # 100)) false) false false false None
    sample_bid_strategy.

Definition empty_world : World := mkWorld [] [] 0.

(** Order-book pricing on the bid side, at the top level of the book. *)
Definition book_bid_strategy : BidStrategy :=
  mkBidStrategy (Some 1) (Some true) (Some 1%Z) None.

Definition book_bid_config : Config :=
  mkConfig None 1000 3 false TsAbsent false false false None book_bid_strategy.

(** A market whose last trade (90) lies below the best bid (99). *)
Definition falling_ticker (pair : string) : Ticker := mkTicker 100 99 90.

Definition sample_book (pair : string) (depth : Z) : OrderBook :=
  mkOrderBook [(99, 5)] [(100, 1); (101, 1)].

(** The fee costs among the fills that are charged in the base currency
    of the pair. *)
Definition base_fees (pair : string) (fills : list ExecTrade) : list Q :=
  flat_map (fun e => match exec_fee e with
                     | Has (mkFee (Has currency) (Has cost)) =>
                         if String.eqb currency (pair_base pair) then [cost] else []
                     | _ => []
                     end) fills.

(** A fee that holds [None] under 'currency' or 'cost'. *)
Definition holds_none (fee : Fee) : Prop :=
  fee_currency fee = IsNone \/ fee_cost fee = IsNone.

(** A fill as an exchange reports it: the fee, if there is one, is a
    dict that holds no [None], and a fee currency the pair's name starts
    with is the pair's base currency. *)
Definition plain_fill (pair : string) (e : ExecTrade) : bool :=
  match exec_fee e with
  | Absent => true
  | IsNone => false
  | Has fee =>
      match fee_currency fee, fee_cost fee with
      | IsNone, _ => false
      | _, IsNone => false
      | Has currency, _ =>
          negb (String.prefix currency pair) || String.eqb currency (pair_base pair)
      | Absent, _ => true
      end
  end.

(** The fallback of the fee reconciliation read literally: an error when
    there are fills and their amounts do not add up to the order's
    amount, and the summed amount minus the base-currency fees in every
    other case. *)
Definition fallback_as_stated (pair : string) (fills : list ExecTrade)
    (nominal : Q) : exn + Q :=
  let total := py_sum (map exec_amount fills) in
  match fills with
  | [] => inr (fsub total (py_sum (base_fees pair fills)))
  | _ =>
      if Qeq_bool total nominal
      then inr (fsub total (py_sum (base_fees pair fills)))
      else inl OperationalException
  end.

(** A closed buy order for 10 units, with and without fee data. *)
Definition order_with_fee : Order :=
  mkOrder "closed" "buy" 10 0 (Some (mkFee (Has "ETH"%string) (Has (1 # 100)))).

Definition order_without_fee : Order := mkOrder "closed" "buy" 10 0 None.

Definition no_fills (order_id : option string) (pair : string) (since : Q)
  : list ExecTrade := [].

Definition short_fills (order_id : option string) (pair : string) (since : Q)
  : list ExecTrade := [mkExecTrade 4 Absent].

Definition two_fills (order_id : option string) (pair : string) (since : Q)
  : list ExecTrade :=
  [mkExecTrade 4 (Has (mkFee (Has "ETH"%string) (Has (fl (4 # 1000)))));
   mkExecTrade 6 (Has (mkFee (Has "BNB"%string) (Has (1 # 2))))].

(** An order for 0.3 filled in two parts, 0.1 and 0.2. *)
Definition tenths_order : Order := mkOrder "closed" "buy" (fl (3 # 10)) 0 None.

Definition tenths_fills (order_id : option string) (pair : string) (since : Q)
  : list ExecTrade := [mkExecTrade (fl (1 # 10)) Absent; mkExecTrade (fl (2 # 10)) Absent].

(** A fill whose fee is [None], and one charged in a currency that is
    only the beginning of the pair's base currency. *)
Definition none_fee_fills (order_id : option string) (pair : string) (since : Q)
  : list ExecTrade := [mkExecTrade 10 IsNone].

Definition odd_currency_fills (order_id : option string) (pair : string) (since : Q)
  : list ExecTrade := [mkExecTrade 10 (Has (mkFee (Has "ET"%string) (Has (1 # 2))))].

(** A trade whose opening fee was already taken off ([fee_open] is 0). *)
Definition fee_applied_trade : Trade :=
  mkTrade 2 0 "binance" "ETH/BTC" true 0 (1 # 400)
    100 None 1000 10 0 None None (Some "order-2"%string).

Definition pending_trade : Trade :=
  mkTrade 3 0 "binance" "ETH/BTC" true (1 # 400) (1 # 400)
    100 None 1000 10 0 None None (Some "order-3"%string).

(** The scaled stake read literally: the stake times one plus the
    fee-adjusted profit percentage, cut to eight decimals. *)
Definition scaled_stake_as_stated (stake_amount initial_balance profit fees : Q) : Q :=
  let percent :=
    fsub (fsub (fdiv (fadd initial_balance profit) initial_balance) 1) (fmul fees 2) in
  trunc_num (fmul stake_amount (fadd 1 percent)) 8.

(** Stand-in for [numpy.mean]: the sum from the left over the length,
    which is what numpy computes for fewer than eight floats. *)
Definition left_mean (l : list Q) : Q :=
  fdiv (py_sum l) (inject_Z (Z.of_nat (List.length l))).



Definition pending_world : World := mkWorld [sample_trade; pending_trade] [] 0.

(** A trade closed at 130 after opening at 100, and a table holding it
    next to an open trade. *)
Definition closed_trade : Trade :=
  mkTrade 4 0 "binance" "LTC/BTC" false (1 # 400) (1 # 400)
    100 (Some 130) 1000 10 0 (Some 90) (Some 90) None.

Definition history_world : World := mkWorld [sample_trade; closed_trade] [] 0.

(** Trades closed at 115 after opening at 100 without an opening fee:
    25 units make 375, an eighth of an initial balance of 3000, and 30
    units make 450. *)
Definition eighth_trade : Trade :=
  mkTrade 5 0 "binance" "LTC/BTC" false 0 0
    100 (Some 115) 2500 25 0 (Some 90) (Some 90) None.

Definition eighth_world : World := mkWorld [sample_trade; eighth_trade] [] 0.

Definition fifteen_percent_trade : Trade :=
  mkTrade 6 0 "binance" "LTC/BTC" false 0 0
    100 (Some 115) 3000 30 0 (Some 90) (Some 90) None.

Definition fifteen_percent_world : World :=
  mkWorld [sample_trade; fifteen_percent_trade] [] 0.

(** Order-book-aware exits over the first two ask levels, without and
    with the ROI rate as starting point. *)
Definition book_exit_config : Config :=
  mkConfig None 1000 3 false TsAbsent false false false
    (Some (mkAskStrategy true (Some 1%Z) (Some 2%Z))) sample_bid_strategy.


Definition half_percent_strategy : Strategy :=
  mkStrategy (Some (- (10 # 100))) [(0%Z, 5 # 1000)] "5m".

Definition five_percent_strategy : Strategy :=
  mkStrategy (Some (- (10 # 100))) [(0%Z, 5 # 100)] "5m".

Definition flat_fee (pair : string) : Q := 1 # 1000.

(** The floats that 0.005 and 0.001 denote, as threshold and as fee. *)
Definition float_roi_strategy : Strategy :=
  mkStrategy (Some (- (10 # 100))) [(0%Z, fl (5 # 1000))] "5m".

Definition float_fee (pair : string) : Q := fl (1 # 1000).

Definition sell_order_id (pair : string) (rate amount : Q) : string := "sell-1".

Definition no_signal (pair interval : string) : bool * bool := (false, false).

Definition after_45_minutes (reading : nat) : Q := 2700.

Definition open_world : World := mkWorld [sample_trade] [] 0.

(** A strategy that defines no stoploss. *)
Definition no_stoploss_strategy : Strategy := mkStrategy None sample_roi "5m".

(** Two states of a trade that differ at most in the stop-loss columns. *)
Definition same_position (t t' : Trade) : Prop :=
  trade_id t' = trade_id t
  /\ trade_bot_id t' = trade_bot_id t
  /\ trade_exchange t' = trade_exchange t
  /\ trade_pair t' = trade_pair t
  /\ trade_is_open t' = trade_is_open t
  /\ trade_fee_open t' = trade_fee_open t
  /\ trade_fee_close t' = trade_fee_close t
  /\ trade_open_rate t' = trade_open_rate t
  /\ trade_close_rate_requested t' = trade_close_rate_requested t
  /\ trade_stake_amount t' = trade_stake_amount t
  /\ trade_amount t' = trade_amount t
  /\ trade_open_date t' = trade_open_date t
  /\ trade_open_order_id t' = trade_open_order_id t.

(** The calls that only ask the exchange or the signal source something. *)
Definition is_query (e : event) : bool :=
  match e with
  | EvGetTicker _ | EvGetSignal _ _ | EvGetFee _ | EvGetOrderBook _ _
  | EvGetTradesForOrder _ _ _ => true
  | EvSell _ _ _ | EvCancelOrder _ _ | EvSendMsg _ | EvFlush => false
  end.

(** What [execute_sell] leaves behind in the call log. *)
Definition sale_events (t : Trade) (rate : Q) : list event :=
  [EvSell (trade_pair t) rate (trade_amount t);
   EvGetTicker (trade_pair t);
   EvSendMsg (MsgSelling (trade_pair t) rate);
   EvFlush].

(** An order book with a single ask level. *)
Definition thin_book (pair : string) (depth : Z) : OrderBook :=
  mkOrderBook [(99, 5)] [(100, 1)].

(* ------------------------------------------------------------------ *)
(** ** The pair whitelist *)

(** A market dict of [exchange.get_markets], the keys the bot reads. *)
Record Market : Type := mkMarket {
  market_symbol : string;
  market_quote : string;
  market_active : bool
}.

(** [x in l] on a list or a set of strings. *)
Definition py_in (x : string) (l : list string) : bool :=
  existsb (String.eqb x) l.

(** [l.count(x)]. *)
Definition py_count (x : string) (l : list string) : nat :=
  List.length (filter (String.eqb x) l).

(** What [list.remove(x)] leaves: the list without its first item equal
    to [x]; [None] when there is none (Python raises ValueError). *)
Fixpoint py_remove (x : string) (l : list string) : option (list string) :=
  match l with
  | [] => None
  | y :: rest =>
      if String.eqb y x then Some rest
      else match py_remove x rest with
           | Some rest' => Some (y :: rest')
           | None => None
           end
  end.

(** [l.remove(x)] on the list object the state holds. *)
Definition list_remove (x : string) : M (list string) unit :=
  fun l =>
    match py_remove x l with
    | Some l' => (inr tt, l')
    | None => (inl ValueError, l)
    end.

(** [s.add(x)] on a set kept as a list without repeats. *)
Definition set_add (x : string) (s : list string) : list string :=
  if py_in x s then s else x :: s.

(** [l1] is [l2] with some items left out, the others in their order. *)
Inductive kept_in_order : list string -> list string -> Prop :=
| kept_nil : kept_in_order [] []
| kept_skip x l1 l2 : kept_in_order l1 l2 -> kept_in_order l1 (x :: l2)
| kept_keep x l1 l2 : kept_in_order l1 l2 -> kept_in_order (x :: l1) (x :: l2).

(** How many markets of [ms] carry the symbol [p] and are not active. *)
Definition inactive_in (p : string) (ms : list Market) : nat :=
  List.length (filter (fun m => String.eqb (market_symbol m) p
                                && negb (market_active m)) ms).

Section Whitelist.

(** [config['stake_currency']], [config['exchange'].get('pair_blacklist', [])]
    and the answer of [exchange.get_markets()]. *)
Variable stake_currency : string.
Variable pair_blacklist : list string.
Variable get_markets : list Market.

(** The loop of [_refresh_whitelist] over the markets.  The state is the
    list object that both [whitelist] and [sanitized_whitelist] name, so
    a removal shows in the membership test of the next round. *)
Fixpoint refresh_loop (markets : list Market) (known_pairs : list string)
  : M (list string) (list string) :=
  match markets with
  | [] => ret known_pairs
  | market :: rest =>
      let pair := market_symbol market in
      whitelist <- get ;;
      if negb (py_in pair whitelist) || py_in pair pair_blacklist
      then refresh_loop rest known_pairs
      else
        let known_pairs := set_add pair known_pairs in
        (if negb (market_active market) then list_remove pair else ret tt) ;;;
        refresh_loop rest known_pairs
  end.

(** [FreqtradeBot._refresh_whitelist]; run on the list passed in, it
    returns [final_list] and leaves the list as the caller sees it
    afterwards. *)
Definition _refresh_whitelist : M (list string) (list string) :=
  let markets :=
    filter (fun m => String.eqb (market_quote m) stake_currency) get_markets in
  known_pairs <- refresh_loop markets [] ;;
  sanitized_whitelist <- get ;;
  ret (filter (fun x => py_in x known_pairs) sanitized_whitelist).

(** The markets of a pair quoted in the stake currency, and those of
    them that are not active. *)
Definition stake_markets (pair : string) : list Market :=
  filter (fun m => String.eqb (market_quote m) stake_currency
                   && String.eqb (market_symbol m) pair) get_markets.

Definition inactive_markets (pair : string) : list Market :=
  filter (fun m => negb (market_active m)) (stake_markets pair).

Definition has_stake_market (pair : string) : bool :=
  match stake_markets pair with [] => false | _ => true end.

(** For a whitelist without repeats: the pairs that come back, and the
    pairs that stay in the list passed in. *)
Definition tradable (pair : string) : bool :=
  negb (py_in pair pair_blacklist) && has_stake_market pair
  && (List.length (inactive_markets pair) =? 0)%nat.

Definition retained (pair : string) : bool :=
  py_in pair pair_blacklist || (List.length (inactive_markets pair) =? 0)%nat.

End Whitelist.

Definition sample_markets : list Market :=
  [ mkMarket "ETH/BTC" "BTC" true;
    mkMarket "LTC/BTC" "BTC" false;
    mkMarket "XRP/BTC" "BTC" true;
    mkMarket "ETH/USDT" "USDT" true ].

Definition sample_whitelist : list string :=
  ["LTC/BTC"; "ETH/BTC"; "XRP/BTC"; "DOGE/BTC"]%string.

(** A ticker of [exchange.get_tickers()], the keys the bot reads. *)
Record TickerInfo : Type := mkTickerInfo {
  tick_symbol : string;
  tick_quoteVolume : Q
}.

(** [s.split(sep)] for a one-character separator. *)
Fixpoint py_split (sep : ascii) (s : string) : list string :=
  match s with
  | EmptyString => [EmptyString]
  | String c rest =>
      if Ascii.eqb c sep then EmptyString :: py_split sep rest
      else match py_split sep rest with
           | w :: ws => String c w :: ws
           | [] => [String c EmptyString]
           end
  end.

(** [c in s]. *)
Fixpoint has_char (c : ascii) (s : string) : bool :=
  match s with
  | EmptyString => false
  | String d rest => Ascii.eqb d c || has_char c rest
  end.

(** [len(k.split('/')) == 2 and k.split('/')[1] == base_currency]. *)
Definition quoted_in (base_currency k : string) : bool :=
  (List.length (py_split "/" k) =? 2)%nat
  && match nth_error (py_split "/" k) 1 with
     | Some quote => String.eqb quote base_currency
     | None => false
     end.

(** [sorted(l, reverse=True, key=key)]: descending by key, items of
    equal key in the order they had. *)
Fixpoint insert_reverse (key : TickerInfo -> Q) (t : TickerInfo) (l : list TickerInfo)
  : list TickerInfo :=
  match l with
  | [] => [t]
  | u :: rest =>
      if Qltb (key t) (key u) then u :: insert_reverse key t rest
      else t :: u :: rest
  end.

Definition py_sorted_reverse (key : TickerInfo -> Q) (l : list TickerInfo)
  : list TickerInfo :=
  fold_right (insert_reverse key) [] l.

Section GenWhitelist.

(** [exchange.exchange_has('fetchTickers')] and the items of the dict
    [exchange.get_tickers()] returns, in its order. *)
Variable exchange_has_fetchTickers : bool.
Variable get_tickers : list (string * TickerInfo).

(** [FreqtradeBot._gen_pair_whitelist], the function its cache
    decorator calls when it holds no list; [key] reads [t[key]]. *)
Definition _gen_pair_whitelist (base_currency : string) (key : TickerInfo -> Q)
  : exn + list string :=
  if negb exchange_has_fetchTickers then inl OperationalException
  else
    let tickers :=
      map snd (filter (fun kv => quoted_in base_currency (fst kv)) get_tickers) in
    let sorted_tickers := py_sorted_reverse key tickers in
    let pairs := map tick_symbol sorted_tickers in
    inr pairs.

End GenWhitelist.

Definition sample_tickers : list (string * TickerInfo) :=
  [ ("ETH/BTC"%string, mkTickerInfo "ETH/BTC" 120);
    ("ETHBTC"%string, mkTickerInfo "ETHBTC" 900);
    ("LTC/BTC"%string, mkTickerInfo "LTC/BTC" 300);
    ("BTC/USDT"%string, mkTickerInfo "BTC/USDT" 5000);
    ("XRP/BTC"%string, mkTickerInfo "XRP/BTC" 300) ].

(* ------------------------------------------------------------------ *)
(** ** A round over one open trade *)

Definition set_fee_open (t : Trade) (v : Q) : Trade :=
  mkTrade (trade_id t) (trade_bot_id t) (trade_exchange t) (trade_pair t)
    (trade_is_open t) v (trade_fee_close t)
    (trade_open_rate t) (trade_close_rate_requested t)
    (trade_stake_amount t) (trade_amount t) (trade_open_date t)
    (trade_stop_loss t) (trade_initial_stop_loss t) (trade_open_order_id t).

(** [order['amount'] = v]. *)
Definition set_order_amount (o : Order) (v : Q) : Order :=
  mkOrder (order_status o) (order_side o) v (order_remaining o) (order_fee o).

Definition exn_eqb (a b : exn) : bool :=
  match a, b with
  | ValueError, ValueError
  | KeyError, KeyError
  | IndexError, IndexError
  | TypeError, TypeError
  | AttributeError, AttributeError
  | ZeroDivisionError, ZeroDivisionError
  | OperationalException, OperationalException
  | DependencyException, DependencyException => true
  | _, _ => false
  end.

(** [try: m  except E: h]; the writes [m] made before it raised stay. *)
Definition try_except {S A : Type} (m : M S A) (E : exn) (h : M S A) : M S A :=
  fun s =>
    match m s with
    | (inl e, s') => if exn_eqb e E then h s' else (inl e, s')
    | (inr a, s') => (inr a, s')
    end.

(** [if trade.open_order_id:] - neither [None] nor the empty string. *)
Definition py_truthy (o : option string) : bool :=
  match o with
  | Some s => negb (String.eqb s "")
  | None => false
  end.

Definition is_none {A : Type} (o : option A) : bool :=
  match o with
  | None => true
  | Some _ => false
  end.

Section Round.

Variable calc_profit_percent : Trade -> Q -> Q.
Variable calc_profit : Trade -> option Q -> Q.
Variable stop_loss_price : Q -> option Q -> Q.
Variable config : Config.
Variable strategy : Strategy.
Variable get_ticker : string -> Ticker.
Variable get_order_book : string -> Z -> OrderBook.
Variable get_fee : string -> Q.
Variable get_trades_for_order : option string -> string -> Q -> list ExecTrade.
Variable exchange_sell : string -> Q -> Q -> string.
Variable get_signal : string -> string -> bool * bool.
Variable utcnow_at : nat -> Q.

(** [exchange.get_order], read without an entry in the log, and
    [Trade.update] of freqtrade.persistence, which is not among the
    files: any function of the row and the order. *)
Variable get_order : option string -> string -> Order.
Variable trade_update : Trade -> Order -> Trade.

Definition process_maybe_execute_sell (trade : Trade) : M World bool :=
  try_except
    (trade <-
       (if py_truthy (trade_open_order_id trade)
        then
          let order := get_order (trade_open_order_id trade) (trade_pair trade) in
          tord <-
            try_except
              (new_amount <- get_real_amount get_trades_for_order trade order ;;
               if negb (Qeq_bool (order_amount order) new_amount)
               then
                 let order := set_order_amount order new_amount in
                 let trade := set_fee_open trade 0 in
                 save trade ;;;
                 ret (trade, order)
               else ret (trade, order))
              OperationalException
              (ret (trade, order)) ;;
          let trade := trade_update (fst tord) (snd tord) in
          save trade ;;;
          ret trade
        else ret trade) ;;
     if trade_is_open trade && is_none (trade_open_order_id trade)
     then
       handle_trade calc_profit_percent calc_profit stop_loss_price config strategy
         get_ticker get_order_book get_fee exchange_sell get_signal utcnow_at trade
     else ret false)
    DependencyException
    (ret false).

(** The trade the round goes on with once the order, if there is one,
    is booked: updated from the order as it came, or from the order with
    the real amount and with the opening fee set to zero. *)
Definition booked (trade t1 : Trade) : Prop :=
  if py_truthy (trade_open_order_id trade)
  then
    let order := get_order (trade_open_order_id trade) (trade_pair trade) in
    t1 = trade_update trade order
    \/ exists a,
         ~ order_amount order == a
         /\ t1 = trade_update (set_fee_open trade 0) (set_order_amount order a)
  else t1 = trade.

End Round.

Definition closed_buy_order (order_id : option string) (pair : string) : Order :=
  order_with_fee.

Definition bare_buy_order (order_id : option string) (pair : string) : Order :=
  order_without_fee.

(** Stand-in for [Trade.update]: a closed buy order settles the amount
    and clears the order id. *)
Definition settle_update (t : Trade) (o : Order) : Trade :=
  if String.eqb (order_status o) "closed"
  then set_open_order_id (set_amount t (order_amount o)) None
  else t.

(* ------------------------------------------------------------------ *)
(** ** Looking for a pair to buy *)

(** [config.get('experimental', {})], the keys [create_trade] reads with
    their defaults filled in. *)
Record Experimental : Type := mkExperimental {
  check_depth_of_market : bool;
  dom_bids_asks_delta : Q;
  buy_price_below_24h_h_l : bool
}.

Definition set_buy_price_below_24h_h_l (x : Experimental) (b : bool) : Experimental :=
  mkExperimental (check_depth_of_market x) (dom_bids_asks_delta x) b.

(** The loop of [create_trade] over the open trades: each takes its
    pair out of the copied whitelist, once, if it is there. *)
Fixpoint drop_open_pairs (trades : list Trade) (whitelist : list string) : list string :=
  match trades with
  | [] => whitelist
  | trade :: rest =>
      if py_in (trade_pair trade) whitelist
      then match py_remove (trade_pair trade) whitelist with
           | Some whitelist' => drop_open_pairs rest whitelist'
           | None => drop_open_pairs rest whitelist
           end
      else drop_open_pairs rest whitelist
  end.

Section Buy.

Variable config : Config.
Variable strategy : Strategy.
Variable experimental : Experimental.

(** [config['stake_currency']], [config['exchange']['pair_whitelist']]
    and [exchange.get_balance], read without an entry in the log. *)
Variable stake_currency : string.
Variable pair_whitelist : list string.
Variable get_balance : string -> Q.

Variable get_signal : string -> string -> bool * bool.
Variable get_order_book : string -> Z -> OrderBook.

(** [(orderBook_bids / orderBook_asks) >= dom_bids_asks_delta] on the
    column sums of [order_book_to_dataframe]: pandas arithmetic, kept as
    any function of the book and the delta that answers or raises. *)
Variable depth_test : OrderBook -> Q -> exn + bool.

(** The loop of [create_trade] over the whitelist; [None] is its [else]
    branch, where [create_trade] returns False.  With
    [buy_price_below_24h_h_l] the ticker is fetched and its ask is
    compared with the mean of its high and low, and both outcomes of the
    comparison go on to the same [pair = _pair; break]. *)
Fixpoint pick_pair (interval : string) (whitelist : list string)
  : M World (option string) :=
  match whitelist with
  | [] => ret None
  | _pair :: rest =>
      emit (EvGetSignal _pair interval) ;;;
      let buy := fst (get_signal _pair interval) in
      let sell := snd (get_signal _pair interval) in
      if buy && negb sell
      then
        if check_depth_of_market experimental
           && Qltb 0 (dom_bids_asks_delta experimental)
        then
          emit (EvGetOrderBook _pair 1000) ;;;
          let orderBook := get_order_book _pair 1000 in
          enough <- lift_exn (depth_test orderBook (dom_bids_asks_delta experimental)) ;;
          if (enough : bool)
          then
            (if buy_price_below_24h_h_l experimental
             then emit (EvGetTicker _pair)
             else ret tt) ;;;
            ret (Some _pair)
          else pick_pair interval rest
        else ret (Some _pair)
      else pick_pair interval rest
  end.

(** [create_trade] from the copy of the whitelist to the end of the
    loop over it: the pair to buy, if any, for the stake settled on. *)
Definition create_trade_pair (stake_amount : Q) : M World (option string) :=
  let interval := ticker_interval strategy in
  let whitelist := pair_whitelist in
  let current_balance := get_balance stake_currency in
  if Qltb current_balance stake_amount then raise DependencyException
  else
    w <- get ;;
    let whitelist :=
      drop_open_pairs (filter trade_is_open (bot_rows config (session w))) whitelist in
    match whitelist with
    | [] => raise DependencyException
    | _ => pick_pair interval whitelist
    end.

(** A pair the loop stops at: a buy signal without a sell signal and,
    if the depth of market is checked, a book that passes. *)
Definition eligible (interval pair : string) : Prop :=
  get_signal pair interval = (true, false)
  /\ (check_depth_of_market experimental
      && Qltb 0 (dom_bids_asks_delta experimental) = true ->
      depth_test (get_order_book pair 1000) (dom_bids_asks_delta experimental)
      = inr true).

(** A pair the loop passes over. *)
Definition passed_over (interval pair : string) : Prop :=
  fst (get_signal pair interval) && negb (snd (get_signal pair interval)) = false
  \/ (check_depth_of_market experimental
      && Qltb 0 (dom_bids_asks_delta experimental) = true
      /\ depth_test (get_order_book pair 1000) (dom_bids_asks_delta experimental)
         = inr false).

End Buy.

Definition two_buy_signals (pair interval : string) : bool * bool :=
  if String.eqb pair "ETH/BTC" then (true, false)
  else if String.eqb pair "XRP/BTC" then (true, false)
  else (false, false).

Definition rich_balance (currency : string) : Q := 5000.

Definition deep_enough (book : OrderBook) (delta : Q) : exn + bool := inr true.

Definition depth_checks : Experimental := mkExperimental true (11 # 10) false.

(* ------------------------------------------------------------------ *)
(** ** The whitelist of a round *)

(** The list objects that outlive a call of [_process]: the one entry
    of the cache around [_gen_pair_whitelist] (a [TTLCache] of size 1,
    keyed by the base currency), whose list is handed out as it is and
    not as a copy, and [config['exchange']['pair_whitelist']]. *)
Record Pairs : Type := mkPairs {
  cache_slot : option (string * list string);
  config_whitelist : list string
}.

(** [l[:n]]. *)
Definition py_slice_to {A : Type} (l : list A) (n : Z) : list A :=
  if (n <? 0)%Z then firstn (Z.to_nat (Z.of_nat (List.length l) + n)) l
  else firstn (Z.to_nat n) l.

(** Run code on the list the cache handed out, and on the list the
    configuration holds. *)
Definition on_cached_list {A : Type} (m : M (list string) A) : M Pairs A :=
  fun s =>
    match cache_slot s with
    | Some (k, l) =>
        (fst (m l), mkPairs (Some (k, snd (m l))) (config_whitelist s))
    | None => (inl KeyError, s)
    end.

Definition on_config_list {A : Type} (m : M (list string) A) : M Pairs A :=
  fun s => (fst (m (config_whitelist s)), mkPairs (cache_slot s) (snd (m (config_whitelist s)))).

Section RoundWhitelist.

Variable stake_currency : string.
Variable pair_blacklist : list string.

(** What one call meets: whether the cache entry is older than its
    1800 seconds, and the answers of the exchange. *)
Variable expired : bool.
Variable exchange_has_fetchTickers : bool.
Variable get_tickers : list (string * TickerInfo).
Variable get_markets : list Market.

(** [_gen_pair_whitelist] behind [@cached(TTLCache(maxsize=1, ttl=1800))]:
    an entry that is there and not expired is the answer; otherwise the
    function runs and what it returns is stored, nothing when it
    raises.  Afterwards the list handed out is the one in the slot. *)
Definition cached_gen_pair_whitelist (base_currency : string) : M Pairs unit :=
  s <- get ;;
  let fill : M Pairs unit :=
    pairs <- lift_exn (_gen_pair_whitelist exchange_has_fetchTickers get_tickers
                         base_currency tick_quoteVolume) ;;
    modify (fun s => mkPairs (Some (base_currency, pairs)) (config_whitelist s)) in
  match cache_slot s with
  | Some (k, _) =>
      if negb expired && String.eqb k base_currency then ret tt else fill
  | None => fill
  end.

(** The first statements of [_process]: the whitelist of the round. *)
Definition process_whitelist (nb_assets : Z) : M Pairs unit :=
  sanitized_list <-
    (if negb (nb_assets =? 0)%Z
     then
       cached_gen_pair_whitelist stake_currency ;;;
       on_cached_list (_refresh_whitelist stake_currency pair_blacklist get_markets)
     else
       on_config_list (_refresh_whitelist stake_currency pair_blacklist get_markets)) ;;
  let final_list :=
    if negb (nb_assets =? 0)%Z then py_slice_to sanitized_list nb_assets
    else sanitized_list in
  modify (fun s => mkPairs (cache_slot s) final_list).

End RoundWhitelist.

Definition fresh_pairs : Pairs := mkPairs None [].

Definition active_markets : list Market :=
  [ mkMarket "ETH/BTC" "BTC" true;
    mkMarket "LTC/BTC" "BTC" true;
    mkMarket "XRP/BTC" "BTC" true ].

(* ------------------------------------------------------------------ *)
(** ** Properties *)

(** *** Binary64 rounding *)

Lemma pow2_pos (k : Z) : 0 < 2 ^ k.
Proof. apply Qpower_0_lt. reflexivity. Qed.

Lemma pow2_add (a b : Z) : 2 ^ (a + b) == 2 ^ a * 2 ^ b.
Proof. apply Qpower_plus. discriminate. Qed.

Lemma pow2_le (a b : Z) : (a <= b)%Z -> 2 ^ a <= 2 ^ b.
Proof. intro H. apply Qpower_le_compat_l; [exact H | discriminate]. Qed.

Lemma pow2_lt_inv (a b : Z) : 2 ^ a < 2 ^ b -> (a < b)%Z.
Proof. intro H. apply (Qpower_lt_compat_l_inv 2); [exact H | reflexivity]. Qed.

Lemma pow2_Z (n : Z) : (0 <= n)%Z -> 2 ^ n == inject_Z (2 ^ n).
Proof. intro H. symmetry. apply (Zpower_Qpower 2 n H). Qed.

(** *** Rounding to the nearest integer *)

Lemma rne_bounds (x : Q) : (Qfloor x <= rne x <= Qfloor x + 1)%Z.
Proof.
  unfold rne. destruct (Qcompare _ _); [destruct (Z.even _)| |]; lia.
Qed.

Lemma rne_Z (n : Z) : rne (inject_Z n) = n.
Proof.
  unfold rne. rewrite Qfloor_Z.
  destruct (Qcompare_spec (inject_Z n - inject_Z n) (1 # 2)) as [H|H|H];
    [exfalso; lra | reflexivity | exfalso; lra].
Qed.

Lemma rne_mono (x y : Q) : x <= y -> (rne x <= rne y)%Z.
Proof.
  intro Hxy. assert (Hf := Qfloor_resp_le x y Hxy).
  destruct (Z.eq_dec (Qfloor x) (Qfloor y)) as [E|N].
  - unfold rne. rewrite <- E.
    destruct (Qcompare_spec (x - inject_Z (Qfloor x)) (1 # 2)) as [Hx|Hx|Hx];
      destruct (Qcompare_spec (y - inject_Z (Qfloor x)) (1 # 2)) as [Hy|Hy|Hy];
      try destruct (Z.even (Qfloor x)); try lia; exfalso; lra.
  - assert (H1 := rne_bounds x). assert (H2 := rne_bounds y). lia.
Qed.

Lemma rne_comp (x y : Q) : x == y -> rne x = rne y.
Proof.
  intro H. apply Z.le_antisymm; apply rne_mono; rewrite H; apply Qle_refl.
Qed.

Lemma rne_le_Z (x : Q) (n : Z) : x <= inject_Z n -> (rne x <= n)%Z.
Proof. intro H. rewrite <- (rne_Z n). now apply rne_mono. Qed.

Lemma rne_ge_Z (x : Q) (n : Z) : inject_Z n <= x -> (n <= rne x)%Z.
Proof. intro H. rewrite <- (rne_Z n). now apply rne_mono. Qed.

(** *** The binade of a positive number *)

Lemma ilog2_spec (x : Q) :
  0 < x -> 2 ^ ilog2 x <= x /\ x < 2 ^ (ilog2 x + 1).
Proof.
  intro Hx. destruct x as [p q]. unfold ilog2. cbn [Qnum Qden].
  assert (Hp : (0 < p)%Z).
  { unfold Qlt in Hx. cbn in Hx. lia. }
  set (lp := Z.log2 p). set (lq := Z.log2 (Zpos q)).
  destruct (Z.log2_spec p Hp) as [Hp1 Hp2]. fold lp in Hp1, Hp2.
  destruct (Z.log2_spec (Zpos q) (Pos2Z.is_pos q)) as [Hq1 Hq2]. fold lq in Hq1, Hq2.
  assert (Hlp : (0 <= lp)%Z) by apply Z.log2_nonneg.
  assert (Hlq : (0 <= lq)%Z) by apply Z.log2_nonneg.
  assert (Hx' : p # q == inject_Z p / inject_Z (Zpos q)) by apply Qmake_Qdiv.
  assert (Hqpos : 0 < inject_Z (Zpos q)) by reflexivity.
  (* bounds as rationals *)
  assert (P1 : 2 ^ lp <= inject_Z p).
  { rewrite (pow2_Z lp Hlp). now rewrite <- Zle_Qle. }
  assert (P2 : inject_Z p < 2 ^ (lp + 1)).
  { rewrite (pow2_Z (lp + 1)) by lia. now rewrite <- Zlt_Qlt. }
  assert (Q1 : 2 ^ lq <= inject_Z (Zpos q)).
  { rewrite (pow2_Z lq Hlq). now rewrite <- Zle_Qle. }
  assert (Q2 : inject_Z (Zpos q) < 2 ^ (lq + 1)).
  { rewrite (pow2_Z (lq + 1)) by lia. now rewrite <- Zlt_Qlt. }
  assert (Hmul : (p # q) * inject_Z (Zpos q) == inject_Z p).
  { rewrite Hx'. field. intro H. rewrite H in Hqpos. discriminate. }
  assert (Up : p # q < 2 ^ (lp - lq + 1)).
  { apply Qnot_le_lt. intro Hge.
    assert (E : 2 ^ (lp + 1) == 2 ^ (lp - lq + 1) * 2 ^ lq).
    { rewrite <- pow2_add. f_equiv. lia. }
    assert (H1 : 2 ^ (lp - lq + 1) * 2 ^ lq <= (p # q) * inject_Z (Zpos q)).
    { apply Qle_trans with ((p # q) * 2 ^ lq).
      - apply Qmult_le_compat_r; [exact Hge | apply Qlt_le_weak, pow2_pos].
      - rewrite !(Qmult_comm (p # q)). apply Qmult_le_compat_r; [exact Q1|].
        apply Qlt_le_weak. exact Hx. }
    rewrite Hmul, <- E in H1. apply (Qlt_not_le _ _ P2 H1). }
  assert (Lo : 2 ^ (lp - lq - 1) <= p # q).
  { apply Qnot_lt_le. intro Hlt.
    assert (E : 2 ^ lp == 2 ^ (lp - lq - 1) * 2 ^ (lq + 1)).
    { rewrite <- pow2_add. f_equiv. lia. }
    assert (H1 : (p # q) * inject_Z (Zpos q) < 2 ^ (lp - lq - 1) * 2 ^ (lq + 1)).
    { apply Qle_lt_trans with ((p # q) * 2 ^ (lq + 1)).
      - rewrite !(Qmult_comm (p # q)). apply Qmult_le_compat_r.
        + apply Qlt_le_weak. exact Q2.
        + apply Qlt_le_weak. exact Hx.
      - apply Qmult_lt_compat_r; [apply pow2_pos | exact Hlt]. }
    rewrite Hmul, <- E in H1. apply (Qlt_not_le _ _ H1 P1). }
  destruct (Qle_bool (2 ^ (lp - lq)) (p # q)) eqn:Et.
  - apply Qle_bool_iff in Et. split; [exact Et | exact Up].
  - split; [exact Lo|]. replace (lp - lq - 1 + 1)%Z with (lp - lq)%Z by lia.
    apply Qnot_le_lt. intro H. apply Qle_bool_iff in H. congruence.
Qed.

Lemma ilog2_unique (x : Q) (k : Z) :
  2 ^ k <= x -> x < 2 ^ (k + 1) -> ilog2 x = k.
Proof.
  intros H1 H2.
  assert (Hx : 0 < x) by (apply Qlt_le_trans with (2 ^ k); [apply pow2_pos | exact H1]).
  destruct (ilog2_spec x Hx) as [L U].
  assert (A : (k < ilog2 x + 1)%Z)
    by (apply pow2_lt_inv; apply Qle_lt_trans with x; assumption).
  assert (B : (ilog2 x < k + 1)%Z)
    by (apply pow2_lt_inv; apply Qle_lt_trans with x; assumption).
  lia.
Qed.

Lemma ilog2_mono (x y : Q) : 0 < x -> x <= y -> (ilog2 x <= ilog2 y)%Z.
Proof.
  intros Hx Hxy.
  assert (Hy : 0 < y) by (apply Qlt_le_trans with x; assumption).
  destruct (ilog2_spec x Hx) as [L _]. destruct (ilog2_spec y Hy) as [_ U].
  assert (A : (ilog2 x < ilog2 y + 1)%Z).
  { apply pow2_lt_inv. apply Qle_lt_trans with x; [exact L|].
    apply Qle_lt_trans with y; assumption. }
  lia.
Qed.

(** *** Rounding to a grid *)

Lemma fl_pos_grid (x : Q) : fl_pos x = grid (binade x) x.
Proof. reflexivity. Qed.

Lemma grid_mono (e : Z) (x y : Q) : x <= y -> grid e x <= grid e y.
Proof.
  intro H. unfold grid. apply Qmult_le_compat_r; [|apply Qlt_le_weak, pow2_pos].
  rewrite <- Zle_Qle. apply rne_mono. unfold Qdiv.
  apply Qmult_le_compat_r; [exact H|].
  apply Qlt_le_weak, Qinv_lt_0_compat, pow2_pos.
Qed.

Lemma grid_fix (e : Z) (x : Q) (m : Z) : x == inject_Z m * 2 ^ e -> grid e x == x.
Proof.
  intro H. unfold grid.
  assert (E : x / 2 ^ e == inject_Z m).
  { rewrite H. field. intro H0. assert (P := pow2_pos e). rewrite H0 in P. discriminate. }
  rewrite (rne_comp _ _ E), rne_Z. symmetry. exact H.
Qed.

Lemma grid_pow (e k : Z) : (e <= k)%Z -> grid e (2 ^ k) == 2 ^ k.
Proof.
  intro H. apply (grid_fix e _ (2 ^ (k - e))).
  rewrite <- (pow2_Z (k - e)) by lia. rewrite <- pow2_add. f_equiv. lia.
Qed.

Lemma grid_le_pow (e k : Z) (x : Q) : (e <= k)%Z -> x <= 2 ^ k -> grid e x <= 2 ^ k.
Proof. intros He H. rewrite <- (grid_pow e k He). now apply grid_mono. Qed.

Lemma grid_ge_pow (e k : Z) (x : Q) : (e <= k)%Z -> 2 ^ k <= x -> 2 ^ k <= grid e x.
Proof. intros He H. rewrite <- (grid_pow e k He). now apply grid_mono. Qed.

Lemma grid_nonneg (e : Z) (x : Q) : 0 <= x -> 0 <= grid e x.
Proof.
  intro H. assert (E : grid e 0 == 0) by (apply (grid_fix e 0 0); ring).
  rewrite <- E. now apply grid_mono.
Qed.

Lemma grid_comp (e : Z) (x y : Q) : x == y -> grid e x == grid e y.
Proof.
  intro H. apply Qle_antisym; apply grid_mono; rewrite H; apply Qle_refl.
Qed.

(** *** Rounding to binary64 *)

Lemma binade_mono (x y : Q) : 0 < x -> x <= y -> (binade x <= binade y)%Z.
Proof. intros Hx Hxy. unfold binade. assert (H := ilog2_mono x y Hx Hxy). lia. Qed.

Lemma ilog2_comp (x y : Q) : 0 < x -> x == y -> ilog2 x = ilog2 y.
Proof.
  intros Hx E. destruct (ilog2_spec x Hx) as [L U].
  symmetry. apply ilog2_unique; rewrite <- E; assumption.
Qed.

Lemma fl_pos_comp (x y : Q) : 0 < x -> x == y -> fl_pos x == fl_pos y.
Proof.
  intros Hx E. rewrite !fl_pos_grid. unfold binade.
  rewrite (ilog2_comp x y Hx E). now apply grid_comp.
Qed.

Lemma fl_pos_nonneg (x : Q) : 0 < x -> 0 <= fl_pos x.
Proof. intro H. rewrite fl_pos_grid. apply grid_nonneg. now apply Qlt_le_weak. Qed.

Lemma fl_pos_mono (x y : Q) : 0 < x -> x <= y -> fl_pos x <= fl_pos y.
Proof.
  intros Hx Hxy. rewrite !fl_pos_grid.
  assert (Hy : 0 < y) by (apply Qlt_le_trans with x; assumption).
  assert (Hb := binade_mono x y Hx Hxy).
  destruct (Z.eq_dec (binade x) (binade y)) as [E|N].
  - rewrite E. now apply grid_mono.
  - assert (Hlt : (binade x < binade y)%Z) by lia.
    destruct (ilog2_spec x Hx) as [_ Ux]. destruct (ilog2_spec y Hy) as [Ly _].
    unfold binade in Hlt.
    assert (Ey : binade y = (ilog2 y - 52)%Z) by (unfold binade; lia).
    assert (Hk : (ilog2 x + 1 <= ilog2 y)%Z) by lia.
    apply Qle_trans with (2 ^ ilog2 y).
    + apply grid_le_pow; [unfold binade; lia|].
      apply Qle_trans with (2 ^ (ilog2 x + 1)); [now apply Qlt_le_weak | now apply pow2_le].
    + apply grid_ge_pow; [lia | exact Ly].
Qed.

Lemma fl_pos_fix (y : Q) (m : Z) :
  y == inject_Z m * 2 ^ binade y -> fl_pos y == y.
Proof. intro H. rewrite fl_pos_grid. now apply (grid_fix _ _ m). Qed.

Lemma fl_pos_idem (x : Q) : 0 < x -> 0 < fl_pos x -> fl_pos (fl_pos x) == fl_pos x.
Proof.
  intros Hx Hy. destruct (ilog2_spec x Hx) as [Lx Ux].
  set (kx := ilog2 x) in *. set (e := binade x).
  assert (He : e = Z.max (kx - 52) (-1074)) by reflexivity.
  assert (Hgy : fl_pos x == inject_Z (rne (x / 2 ^ e)) * 2 ^ e) by reflexivity.
  destruct (Z_le_gt_dec (-1074) (kx - 52)) as [Hn|Hs].
  - (* normal *)
    assert (Ee : e = (kx - 52)%Z) by lia.
    assert (L : 2 ^ kx <= fl_pos x).
    { rewrite fl_pos_grid. apply grid_ge_pow; [fold e; lia | exact Lx]. }
    assert (U : fl_pos x <= 2 ^ (kx + 1)).
    { rewrite fl_pos_grid. apply grid_le_pow; [fold e; lia | now apply Qlt_le_weak]. }
    destruct (Qlt_le_dec (fl_pos x) (2 ^ (kx + 1))) as [Hlt|Hge].
    + assert (Ek : ilog2 (fl_pos x) = kx) by (apply ilog2_unique; assumption).
      apply (fl_pos_fix _ (rne (x / 2 ^ e))).
      unfold binade. rewrite Ek. fold kx in He. rewrite <- He. exact Hgy.
    + assert (Eq1 : fl_pos x == 2 ^ (kx + 1)) by (apply Qle_antisym; assumption).
      assert (Ek : ilog2 (fl_pos x) = (kx + 1)%Z).
      { apply ilog2_unique; rewrite Eq1; [apply Qle_refl|].
        apply Qpower_lt_compat_l; [lia | reflexivity]. }
      apply (fl_pos_fix _ (2 ^ 52)).
      unfold binade. rewrite Ek.
      replace (Z.max (kx + 1 - 52) (-1074)) with (kx + 1 - 52)%Z by lia.
      rewrite Eq1. rewrite <- (pow2_Z 52) by lia. rewrite <- pow2_add. f_equiv. lia.
  - (* subnormal *)
    assert (Ee : e = (-1074)%Z) by lia.
    assert (U : fl_pos x <= 2 ^ (e + 52)).
    { rewrite fl_pos_grid. fold e. apply grid_le_pow; [lia|].
      apply Qle_trans with (2 ^ (kx + 1)); [now apply Qlt_le_weak|].
      apply pow2_le. lia. }
    destruct (ilog2_spec (fl_pos x) Hy) as [Ly Uy].
    assert (Hky : (ilog2 (fl_pos x) <= e + 52)%Z).
    { assert (A : (ilog2 (fl_pos x) < e + 52 + 1)%Z).
      { apply pow2_lt_inv. apply Qle_lt_trans with (fl_pos x); [exact Ly|].
        apply Qle_lt_trans with (2 ^ (e + 52)); [exact U|].
        apply Qpower_lt_compat_l; [lia | reflexivity]. }
      lia. }
    apply (fl_pos_fix _ (rne (x / 2 ^ e))).
    unfold binade.
    replace (Z.max (ilog2 (fl_pos x) - 52) (-1074)) with e by lia.
    exact Hgy.
Qed.

Lemma fl_0 : fl 0 = 0.
Proof. reflexivity. Qed.

Lemma fl_nonneg (x : Q) : 0 <= x -> 0 <= fl x.
Proof.
  intro H. unfold fl. destruct (Qcompare_spec x 0) as [E|L|G].
  - apply Qle_refl.
  - exfalso. apply (Qlt_not_le _ _ L H).
  - now apply fl_pos_nonneg.
Qed.

Lemma fl_nonpos (x : Q) : x <= 0 -> fl x <= 0.
Proof.
  intro H. unfold fl. destruct (Qcompare_spec x 0) as [E|L|G].
  - apply Qle_refl.
  - assert (P : 0 <= fl_pos (- x)) by (apply fl_pos_nonneg; lra). lra.
  - exfalso. apply (Qlt_not_le _ _ G H).
Qed.

Lemma fl_mono (x y : Q) : x <= y -> fl x <= fl y.
Proof.
  intro H. destruct (Qlt_le_dec 0 x) as [Px|Nx].
  - assert (Py : 0 < y) by (apply Qlt_le_trans with x; assumption).
    unfold fl. destruct (Qcompare_spec x 0) as [E|L|G]; try (exfalso; lra).
    destruct (Qcompare_spec y 0) as [E'|L'|G']; try (exfalso; lra).
    now apply fl_pos_mono.
  - destruct (Qlt_le_dec y 0) as [Ny|Py].
    + unfold fl. destruct (Qcompare_spec x 0) as [E|L|G]; try (exfalso; lra).
      destruct (Qcompare_spec y 0) as [E'|L'|G']; try (exfalso; lra).
      assert (M : fl_pos (- y) <= fl_pos (- x)) by (apply fl_pos_mono; lra). lra.
    + apply Qle_trans with 0; [now apply fl_nonpos | now apply fl_nonneg].
Qed.

Lemma fl_comp (x y : Q) : x == y -> fl x == fl y.
Proof. intro H. apply Qle_antisym; apply fl_mono; rewrite H; apply Qle_refl. Qed.

Lemma fl_of_pos (x : Q) : 0 < x -> fl x = fl_pos x.
Proof.
  intro H. unfold fl. destruct (Qcompare_spec x 0) as [E|L|G];
    [exfalso; lra | exfalso; lra | reflexivity].
Qed.

Lemma fl_of_neg (x : Q) : x < 0 -> fl x = - fl_pos (- x).
Proof.
  intro H. unfold fl. destruct (Qcompare_spec x 0) as [E|L|G];
    [exfalso; lra | reflexivity | exfalso; lra].
Qed.

Lemma fl_of_zero (x : Q) : x == 0 -> fl x = 0.
Proof.
  intro H. unfold fl. destruct (Qcompare_spec x 0) as [E|L|G];
    [reflexivity | exfalso; lra | exfalso; lra].
Qed.

Lemma fl_idem (x : Q) : fl (fl x) == fl x.
Proof.
  destruct (Q_dec x 0) as [[L|G]|E].
  - assert (Hx : 0 < - x) by lra.
    assert (P := fl_pos_nonneg (- x) Hx).
    rewrite (fl_of_neg x L).
    destruct (Qlt_le_dec 0 (fl_pos (- x))) as [Hp|Hz].
    + rewrite (fl_of_neg (- fl_pos (- x))) by lra.
      assert (C : fl_pos (- - fl_pos (- x)) == fl_pos (fl_pos (- x))).
      { apply fl_pos_comp; [lra | apply Qopp_involutive]. }
      rewrite C, (fl_pos_idem (- x) Hx Hp). reflexivity.
    + assert (Z0 : - fl_pos (- x) == 0) by lra.
      rewrite (fl_of_zero _ Z0). symmetry. exact Z0.
  - rewrite (fl_of_pos x G).
    destruct (Qlt_le_dec 0 (fl_pos x)) as [Hp|Hz].
    + rewrite (fl_of_pos _ Hp). now apply fl_pos_idem.
    + assert (P := fl_pos_nonneg x G).
      assert (Z0 : fl_pos x == 0) by lra.
      rewrite (fl_of_zero _ Z0). symmetry. exact Z0.
  - rewrite (fl_of_zero x E). reflexivity.
Qed.

(** *** Comparisons *)

Lemma Qltb_lt (a b : Q) : Qltb a b = true <-> a < b.
Proof.
  unfold Qltb. rewrite negb_true_iff.
  split; intro H.
  - apply Qnot_le_lt. intro L. apply Qle_bool_iff in L. congruence.
  - destruct (Qle_bool b a) eqn:E; [|reflexivity].
    apply Qle_bool_iff in E. exfalso. apply (Qlt_not_le _ _ H E).
Qed.

Lemma Qltb_ge (a b : Q) : Qltb a b = false <-> b <= a.
Proof.
  unfold Qltb. rewrite negb_false_iff. apply Qle_bool_iff.
Qed.

Lemma Qle_bool_false (a b : Q) : Qle_bool a b = false <-> ~ a <= b.
Proof.
  split; intro H.
  - intro L. apply Qle_bool_iff in L. congruence.
  - destruct (Qle_bool a b) eqn:E; [|reflexivity].
    apply Qle_bool_iff in E. contradiction.
Qed.

(** *** The ROI walk *)

Lemma roi_walk_decision (roi : list (Z * Q)) (td p : Q) :
  roi_decision td p roi (roi_walk roi td p).
Proof.
  induction roi as [|[duration threshold] rest IH]; simpl.
  - constructor.
  - destruct (Qle_bool td (inject_Z duration)) eqn:Hd.
    + apply roi_not_yet. now apply Qle_bool_iff.
    + apply Qle_bool_false in Hd.
      destruct (Qltb threshold p) eqn:Hp.
      * apply roi_sell; [assumption | now apply Qltb_lt].
      * apply roi_next; try assumption.
        apply Qltb_ge in Hp. intro L. apply (Qlt_not_le _ _ L Hp).
Qed.

Lemma roi_decision_walk (roi : list (Z * Q)) (td p : Q) (b : bool) :
  roi_decision td p roi b -> roi_walk roi td p = b.
Proof.
  induction 1 as [| d th rest Hd | d th rest Hd Hp | d th rest b Hd Hp _ IH]; simpl.
  - reflexivity.
  - apply Qle_bool_iff in Hd. now rewrite Hd.
  - apply Qle_bool_false in Hd. rewrite Hd.
    apply Qltb_lt in Hp. now rewrite Hp.
  - apply Qle_bool_false in Hd. rewrite Hd.
    destruct (Qltb th p) eqn:E; [|exact IH].
    apply Qltb_lt in E. contradiction.
Qed.

(** *** The stop-loss inside [min_roi_reached] *)

Section SellDecision.

Variable cpp : Trade -> Q -> Q.
Variable cp : Trade -> option Q -> Q.
Variable slp : Q -> option Q -> Q.
Variable cfg : Config.
Variable strat : Strategy.

Lemma adjust_stop_loss_open_date (price : Q) (pct : option Q) (t : Trade) :
  trade_open_date (snd (adjust_stop_loss slp price pct t)) = trade_open_date t.
Proof.
  unfold adjust_stop_loss, modify; simpl.
  destruct (trade_stop_loss t) as [cur|]; [|reflexivity].
  destruct (Qltb cur (slp price pct)); reflexivity.
Qed.

Lemma adjust_stop_loss_set (price : Q) (pct : option Q) (t : Trade) (old : Q) :
  trade_stop_loss t = Some old ->
  trade_stop_loss (snd (adjust_stop_loss slp price pct t)) =
    Some (if Qltb old (slp price pct) then slp price pct else old).
Proof.
  intro H. unfold adjust_stop_loss, modify; simpl. rewrite H.
  destruct (Qltb old (slp price pct)); simpl; congruence.
Qed.

(** With a stop-loss already stored, one evaluation is: the hit test,
    then the ratchet, then the ROI walk. *)
Lemma min_roi_reached_stored (rate now : Q) (t : Trade) (sl : Q) :
  trade_stop_loss t = Some sl ->
  min_roi_reached cpp slp cfg strat rate now t =
    if match stoploss strat with
       | None => false
       | Some _ => Qle_bool rate sl
       end
    then (inr true, t)
    else (inr (roi_walk (minimal_roi strat)
                 ((now - trade_open_date t) / 60) (cpp t rate)),
          if trailing_enabled cfg
          then snd (adjust_stop_loss slp rate (stop_loss_value cfg strat (cpp t rate)) t)
          else t).
Proof.
  intro H. destruct t; simpl in H; subst.
  unfold min_roi_reached, adjust_stop_loss, modify, bind, get, ret; simpl.
  destruct (stoploss strat) as [s|]; simpl.
  - destruct (Qle_bool rate sl); [reflexivity|].
    destruct (trailing_enabled cfg); simpl; [|reflexivity].
    destruct (Qltb sl _); reflexivity.
  - destruct (trailing_enabled cfg); simpl; [|reflexivity].
    destruct (Qltb sl _); reflexivity.
Qed.

(** On the first evaluation the stop-loss is set from the open rate
    before anything else is looked at. *)
Lemma min_roi_reached_first (rate now : Q) (t : Trade) :
  trade_stop_loss t = None ->
  let new_loss := slp (trade_open_rate t) (stoploss strat) in
  let t0 := set_initial_stop_loss (set_stop_loss t (Some new_loss)) (Some new_loss) in
  min_roi_reached cpp slp cfg strat rate now t =
    if match stoploss strat with
       | None => false
       | Some _ => Qle_bool rate new_loss
       end
    then (inr true, t0)
    else (inr (roi_walk (minimal_roi strat)
                 ((now - trade_open_date t) / 60) (cpp t rate)),
          if trailing_enabled cfg
          then snd (adjust_stop_loss slp rate (stop_loss_value cfg strat (cpp t rate)) t0)
          else t0).
Proof.
  intros H new_loss t0. subst t0 new_loss.
  destruct t; simpl in H; subst.
  unfold min_roi_reached, adjust_stop_loss, modify, bind, get, ret; simpl.
  set (new_loss := slp _ (stoploss strat)).
  destruct (stoploss strat) as [s|]; simpl.
  - destruct (Qle_bool rate new_loss); [reflexivity|].
    destruct (trailing_enabled cfg); simpl; [|reflexivity].
    destruct (Qltb new_loss _); reflexivity.
  - destruct (trailing_enabled cfg); simpl; [|reflexivity].
    destruct (Qltb new_loss _); reflexivity.
Qed.

Lemma should_sell_trade (rate now : Q) (buy sell : bool) (t : Trade) :
  snd (should_sell cpp cp slp cfg strat rate now buy sell t) =
  snd (min_roi_reached cpp slp cfg strat rate now t).
Proof.
  unfold should_sell, bind, get, ret.
  destruct (min_roi_reached cpp slp cfg strat rate now t) as [[e|[|]] t']; simpl;
    try reflexivity.
  destruct (cfg_sell_profit_only cfg && _); simpl; [reflexivity|].
  destruct (sell && negb buy && cfg_use_sell_signal cfg); reflexivity.
Qed.

Lemma should_sell_reached (rate now : Q) (buy sell : bool) (t : Trade) :
  fst (min_roi_reached cpp slp cfg strat rate now t) = inr true ->
  fst (should_sell cpp cp slp cfg strat rate now buy sell t) = inr true.
Proof.
  unfold should_sell, bind.
  destruct (min_roi_reached cpp slp cfg strat rate now t) as [[e|[|]] t']; simpl;
    intro H; try discriminate; reflexivity.
Qed.

End SellDecision.

(** C1: the ROI sell decision walks the minimal-ROI table in its defined
    order; the first entry whose duration has not yet passed (elapsed
    minutes <= duration) ends the walk with "no sell", an entry whose
    duration has passed and whose threshold the profit strictly exceeds
    ends it with "sell", and an exhausted table means "no sell".  As long
    as the stop-loss is not hit this walk is the answer of
    [min_roi_reached].  With the table 0: 0.10, 30: 0.05, 60: 0.02, 45
    minutes elapsed and a profit of 0.06 the answer is "sell". *)
Theorem C1_roi_walk_first_decisive_entry :
  (forall roi td p b, roi_walk roi td p = b <-> roi_decision td p roi b)
  /\ (forall cpp slp cfg strat rate now t sl,
        trade_stop_loss t = Some sl ->
        stoploss strat = None \/ sl < rate ->
        fst (min_roi_reached cpp slp cfg strat rate now t) =
        inr (roi_walk (minimal_roi strat)
               ((now - trade_open_date t) / 60) (cpp t rate)))
  /\ roi_walk sample_roi 45 (6 # 100) = true
  /\ fst (min_roi_reached spec_profit_percent spec_stop_loss_price
            sample_config sample_strategy 106 2700 sample_trade) = inr true.
Proof.
  split; [|split; [|split]].
  - intros roi td p b. split.
    + intros <-. apply roi_walk_decision.
    + apply roi_decision_walk.
  - intros cpp slp cfg strat rate now t sl Hsl Hno.
    rewrite (min_roi_reached_stored cpp slp cfg strat rate now t sl Hsl).
    destruct (stoploss strat) as [s|]; [|reflexivity].
    destruct Hno as [Hno|Hno]; [discriminate|].
    apply Qltb_lt in Hno. unfold Qltb in Hno. apply negb_true_iff in Hno.
    rewrite Hno. reflexivity.
  - reflexivity.
  - reflexivity.
Qed.

(** C2: once a trade's stop-loss is set, an evaluation of the sell path
    never lowers it, and neither does any run of evaluations.  An
    evaluation leaves it as it is or replaces it by the candidate taken at
    the current rate, and replaces it only when the trailing stop is on
    and the candidate is strictly higher; with the trailing stop on and
    the stop-loss not hit the stored value becomes the higher of the two.
    The candidate is taken with the 'positive' percentage when
    [trailing_stop] is a dict that has one and the profit at the current
    rate is above zero, and with the strategy's flat stoploss in every
    other case. *)
Theorem C2_stop_loss_never_lowered
    (cpp : Trade -> Q -> Q) (cp : Trade -> option Q -> Q)
    (slp : Q -> option Q -> Q) (cfg : Config) (strat : Strategy)
    (t : Trade) (old : Q) :
  trade_stop_loss t = Some old ->
  (forall rate now,
      exists new,
        trade_stop_loss (snd (min_roi_reached cpp slp cfg strat rate now t)) = Some new
        /\ old <= new
        /\ (new = old
            \/ (trailing_enabled cfg = true
                /\ new = slp rate (stop_loss_value cfg strat (cpp t rate))
                /\ old < new)))
  /\ (forall rate now,
         trailing_enabled cfg = true ->
         fst (min_roi_reached cpp slp cfg strat rate now t) <> inr true ->
         trade_stop_loss (snd (min_roi_reached cpp slp cfg strat rate now t)) =
         Some (if Qltb old (slp rate (stop_loss_value cfg strat (cpp t rate)))
               then slp rate (stop_loss_value cfg strat (cpp t rate))
               else old))
  /\ (forall rate now p other,
         cfg_trailing_stop cfg = TsDict (Some p) other ->
         0 < cpp t rate ->
         stoploss strat = None \/ old < rate ->
         trade_stop_loss (snd (min_roi_reached cpp slp cfg strat rate now t)) =
         Some (if Qltb old (slp rate (Some p)) then slp rate (Some p) else old))
  /\ (forall rate now,
         trailing_enabled cfg = true ->
         cpp t rate <= 0
         \/ (forall p other, cfg_trailing_stop cfg <> TsDict (Some p) other) ->
         stoploss strat = None \/ old < rate ->
         trade_stop_loss (snd (min_roi_reached cpp slp cfg strat rate now t)) =
         Some (if Qltb old (slp rate (stoploss strat))
               then slp rate (stoploss strat)
               else old))
  /\ (forall ticks,
         exists final,
           trade_stop_loss (run_ticks cpp cp slp cfg strat ticks t) = Some final
           /\ old <= final).
Proof.
  intro Hold.
  assert (Hstep : forall u o rate now,
             trade_stop_loss u = Some o ->
             exists new,
               trade_stop_loss (snd (min_roi_reached cpp slp cfg strat rate now u)) = Some new
               /\ o <= new
               /\ (new = o
                   \/ (trailing_enabled cfg = true
                       /\ new = slp rate (stop_loss_value cfg strat (cpp u rate))
                       /\ o < new))).
  { intros u o rate now Hu.
    rewrite (min_roi_reached_stored cpp slp cfg strat rate now u o Hu).
    destruct (match stoploss strat with None => false | Some _ => Qle_bool rate o end);
      cbn [fst snd].
    - exists o. split; [assumption|]. split; [apply Qle_refl | now left].
    - destruct (trailing_enabled cfg) eqn:Ht.
      + rewrite (adjust_stop_loss_set slp rate _ u o Hu).
        destruct (Qltb o (slp rate (stop_loss_value cfg strat (cpp u rate)))) eqn:E.
        * apply Qltb_lt in E. eexists. split; [reflexivity|].
          split; [now apply Qlt_le_weak|]. right. repeat split; assumption.
        * exists o. split; [reflexivity|]. split; [apply Qle_refl | now left].
      + exists o. split; [assumption|]. split; [apply Qle_refl | now left]. }
  assert (Hpass : forall rate now,
             trailing_enabled cfg = true ->
             stoploss strat = None \/ old < rate ->
             trade_stop_loss (snd (min_roi_reached cpp slp cfg strat rate now t)) =
             Some (if Qltb old (slp rate (stop_loss_value cfg strat (cpp t rate)))
                   then slp rate (stop_loss_value cfg strat (cpp t rate))
                   else old)).
  { intros rate now Ht Hno.
    rewrite (min_roi_reached_stored cpp slp cfg strat rate now t old Hold).
    assert (Hhit : match stoploss strat with
                   | None => false
                   | Some _ => Qle_bool rate old
                   end = false).
    { destruct (stoploss strat) as [s|]; [|reflexivity].
      destruct Hno as [Hno|Hno]; [discriminate|].
      apply Qle_bool_false. now apply Qlt_not_le. }
    rewrite Hhit, Ht. cbn [snd]. now apply adjust_stop_loss_set. }
  split; [|split; [|split; [|split]]].
  - intros rate now. now apply Hstep.
  - intros rate now Ht Hno. revert Hno.
    rewrite (min_roi_reached_stored cpp slp cfg strat rate now t old Hold).
    destruct (match stoploss strat with None => false | Some _ => Qle_bool rate old end);
      cbn [fst snd].
    + intro Hno. now elim Hno.
    + intros _. rewrite Ht. now apply adjust_stop_loss_set.
  - intros rate now p other Hcfg Hpos Hno.
    assert (Ht : trailing_enabled cfg = true)
      by (unfold trailing_enabled; now rewrite Hcfg).
    rewrite (Hpass rate now Ht Hno). unfold stop_loss_value. rewrite Hcfg.
    apply Qltb_lt in Hpos. now rewrite Hpos.
  - intros rate now Ht Hflat Hno.
    rewrite (Hpass rate now Ht Hno).
    assert (Hv : stop_loss_value cfg strat (cpp t rate) = stoploss strat).
    { unfold stop_loss_value.
      destruct (cfg_trailing_stop cfg) as [|b|[p|] other] eqn:Hcfg; try reflexivity.
      destruct Hflat as [Hle|Hnot].
      - apply Qltb_ge in Hle. now rewrite Hle.
      - now elim (Hnot p other). }
    now rewrite Hv.
  - intro ticks. clear Hpass. revert t old Hold.
    induction ticks as [|[[rate now] [buy sell]] rest IH]; intros t old Hold; simpl.
    + exists old. split; [assumption | apply Qle_refl].
    + rewrite should_sell_trade.
      destruct (Hstep t old rate now Hold) as [new [Hnew [Hle _]]].
      destruct (IH _ new Hnew) as [final [Hfinal Hle']].
      exists final. split; [assumption|]. now apply Qle_trans with new.
Qed.

Lemma C2_stop_loss_never_lowered_witness :
  trade_stop_loss sample_trade = Some 90
  /\ trade_stop_loss
       (snd (min_roi_reached spec_profit_percent spec_stop_loss_price
               positive_trailing_config sample_strategy 105 60 sample_trade))
     = Some (if Qltb 90 (spec_stop_loss_price 105 (Some (1 # 100)))
             then spec_stop_loss_price 105 (Some (1 # 100))
             else 90)
  /\ spec_stop_loss_price 105 (Some (1 # 100)) == 10395 # 100
  /\ spec_stop_loss_price 105 (stoploss sample_strategy) == 945 # 10
  /\ exists final,
       trade_stop_loss
         (run_ticks spec_profit_percent spec_profit spec_stop_loss_price
            positive_trailing_config sample_strategy
            [(105, 60, (false, false)); (104, 120, (false, false))]
            sample_trade) = Some final
       /\ 90 <= final.
Proof.
  destruct (C2_stop_loss_never_lowered spec_profit_percent spec_profit
              spec_stop_loss_price positive_trailing_config sample_strategy
              sample_trade 90 eq_refl)
    as [_ [_ [Hpositive [_ Hticks]]]].
  split; [reflexivity|].
  split.
  { apply (Hpositive 105 60 (1 # 100) false); [reflexivity | reflexivity |].
    right. reflexivity. }
  split; [reflexivity|]. split; [reflexivity|].
  apply Hticks.
Defined.

(** C3, as amended: when the strategy defines a stoploss and the current
    rate is at or below the trade's stop-loss price (the stored one, or on
    the first evaluation the one just set from the open rate), the sell
    decision is "sell" whatever the buy and sell signals and whatever
    sell_profit_only and use_sell_signal say; the stop-loss price itself
    is left at that value. *)
Theorem C3_stoploss_hit_sells
    (cpp : Trade -> Q -> Q) (cp : Trade -> option Q -> Q)
    (slp : Q -> option Q -> Q) (cfg : Config) (strat : Strategy)
    (rate now : Q) (buy sell : bool) (t : Trade) (s : Q) :
  stoploss strat = Some s ->
  rate <= match trade_stop_loss t with
          | Some sl => sl
          | None => slp (trade_open_rate t) (stoploss strat)
          end ->
  fst (should_sell cpp cp slp cfg strat rate now buy sell t) = inr true
  /\ trade_stop_loss (snd (should_sell cpp cp slp cfg strat rate now buy sell t)) =
     Some match trade_stop_loss t with
          | Some sl => sl
          | None => slp (trade_open_rate t) (stoploss strat)
          end.
Proof.
  intros Hs Hle. rewrite should_sell_trade.
  destruct (trade_stop_loss t) as [sl|] eqn:Hsl.
  - assert (E := min_roi_reached_stored cpp slp cfg strat rate now t sl Hsl).
    rewrite Hs in E. apply Qle_bool_iff in Hle. rewrite Hle in E.
    split.
    + apply should_sell_reached. now rewrite E.
    + now rewrite E.
  - assert (E := min_roi_reached_first cpp slp cfg strat rate now t Hsl).
    cbv zeta in E. rewrite Hs in E. rewrite Hs in Hle.
    apply Qle_bool_iff in Hle. rewrite Hle in E.
    split.
    + apply should_sell_reached. now rewrite E.
    + rewrite E. now rewrite Hs.
Qed.

Lemma C3_stoploss_hit_sells_witness :
  fst (should_sell spec_profit_percent spec_profit spec_stop_loss_price
         (mkConfig None 1000 3 false TsAbsent true true false None sample_bid_strategy)
         sample_strategy 80 2700 true false sample_trade) = inr true
  /\ trade_stop_loss
       (snd (should_sell spec_profit_percent spec_profit spec_stop_loss_price
               (mkConfig None 1000 3 false TsAbsent true true false None
                  sample_bid_strategy)
               sample_strategy 80 2700 true false sample_trade)) = Some 90.
Proof.
  apply (C3_stoploss_hit_sells spec_profit_percent spec_profit spec_stop_loss_price
           (mkConfig None 1000 3 false TsAbsent true true false None sample_bid_strategy)
           sample_strategy 80 2700 true false sample_trade (- (10 # 100)) eq_refl).
  simpl. lra.
Defined.

(** C3 as stated fails: the hit test is guarded by
    [self.strategy.stoploss is not None].  With a strategy that defines no
    stoploss, a trade whose stored stop-loss is 90 is not sold at rate 80
    (no ROI entry applies either: the profit is negative). *)
Lemma C3_counterexample :
  trade_stop_loss sample_trade = Some 90
  /\ 80 <= 90
  /\ fst (should_sell spec_profit_percent spec_profit spec_stop_loss_price
            sample_config no_stoploss_strategy 80 2700 false false sample_trade)
     = inr false.
Proof.
  split; [reflexivity|]. split; [lra|]. reflexivity.
Qed.

(** *** Price targeting *)

(** C4 (what the code does instead): with order-book pricing on, the bid
    rate is the order-book price at the configured depth plus 0.00000001
    whatever the ticker says; the ticker rate is computed and compared but
    the result of the comparison is overwritten. *)
Theorem C4_get_target_bid_takes_book_rate
    (cfg : Config) (get_ticker : string -> Ticker)
    (get_order_book : string -> Z -> OrderBook) (pair : string) (w : World)
    (balance : Q) (level : Q * Q) :
  bid_use_book_order (cfg_bid_strategy cfg) = Some true ->
  ask_last_balance (cfg_bid_strategy cfg) = Some balance ->
  percent_from_top (cfg_bid_strategy cfg) = None ->
  (let top := match bid_book_order_top (cfg_bid_strategy cfg) with
              | Some n => n
              | None => 1%Z
              end in
   py_index (bids (get_order_book pair top)) (top - 1) = inr level) ->
  fst (get_target_bid cfg get_ticker get_order_book pair w) =
  inr (fadd (fst level) (fl (1 # 100000000))).
Proof.
  intros Hbook Hbal Hpct Hlevel. cbv zeta in Hlevel.
  unfold get_target_bid, bind, emit, modify, ret, raise; simpl.
  rewrite Hbook, Hbal, Hpct; simpl.
  destruct (Qltb (ask (get_ticker pair)) (last (get_ticker pair))); simpl;
    rewrite Hlevel; reflexivity.
Qed.

Lemma C4_get_target_bid_takes_book_rate_witness :
  conservative_bid 90 (fadd 99 (fl (1 # 100000000))) = 90
  /\ fst (get_target_bid book_bid_config falling_ticker sample_book "ETH/BTC" empty_world)
     = inr (fadd 99 (fl (1 # 100000000))).
Proof.
  split; [vm_compute; reflexivity|].
  apply (C4_get_target_bid_takes_book_rate book_bid_config falling_ticker sample_book
           "ETH/BTC" empty_world 1 (99, 5)); reflexivity.
Defined.

(** *** Fee reconciliation *)

Lemma pair_base_prefix (pair : string) : String.prefix (pair_base pair) pair = true.
Proof.
  induction pair as [|c rest IH]; simpl.
  - reflexivity.
  - destruct (Ascii.eqb c "/"); simpl.
    + reflexivity.
    + destruct (ascii_dec c c) as [_|N]; [exact IH | now elim N].
Qed.

Lemma pair_base_not_prefix (pair currency : string) :
  String.prefix currency pair = false ->
  String.eqb currency (pair_base pair) = false.
Proof.
  intro H. destruct (String.eqb currency (pair_base pair)) eqn:E; [|reflexivity].
  apply String.eqb_eq in E. subst currency.
  rewrite pair_base_prefix in H. discriminate.
Qed.

(** Over fills as an exchange reports them the loop does not raise, and
    sums the amounts and the base-currency fees from the left. *)
Lemma sum_fills_plain (pair : string) (fills : list ExecTrade) (a f : Q) :
  forallb (plain_fill pair) fills = true ->
  sum_fills pair fills a f =
  inr (fold_left fadd (map exec_amount fills) a,
       fold_left fadd (base_fees pair fills) f).
Proof.
  revert a f. induction fills as [|e rest IH]; intros a f Hplain.
  - reflexivity.
  - cbn [forallb] in Hplain. apply andb_true_iff in Hplain.
    destruct Hplain as [He Hrest].
    cbn [sum_fills map fold_left]. unfold base_fees. cbn [flat_map].
    fold (base_fees pair rest).
    unfold plain_fill in He. unfold base_fee_cost.
    destruct (exec_fee e) as [| |[currency cost]]; [| discriminate |].
    + cbn [app]. now apply IH.
    + cbn [fee_currency fee_cost] in *.
      destruct currency as [| |currency]; destruct cost as [| |c];
        try discriminate; try (cbn [app]; now apply IH).
      destruct (String.prefix currency pair) eqn:Hp.
      * cbn [negb orb] in He. rewrite He. cbn [app fold_left]. now apply IH.
      * rewrite (pair_base_not_prefix pair currency Hp). cbn [app]. now apply IH.
Qed.



(** C6, as amended: for a trade whose [fee_open] is not zero and an
    order that is not open and carries no usable fee (none, an incomplete
    one, or one in a currency the pair's name does not start with), the
    fills are fetched by the trade's open order id, pair and open date.
    Without fills the order's amount is returned as it is.  With fills as
    an exchange reports them (no fee, or a fee dict that holds no [None]
    and whose currency, if the pair's name starts with it, is the pair's
    base currency) whose amounts, added as floats from the left, do not
    give the order's amount, an OperationalException is raised; otherwise
    the result is that sum minus the sum of the fee costs of the fills
    charged in the pair's base currency. *)
Theorem C6_real_amount_from_fills
    (get_trades_for_order : option string -> string -> Q -> list ExecTrade)
    (trade : Trade) (order : Order) (w : World) :
  ~ trade_fee_open trade == 0 ->
  order_status order <> "open"%string ->
  order_fee_cost (trade_pair trade) (order_fee order) = inr None ->
  let fills := get_trades_for_order (trade_open_order_id trade) (trade_pair trade)
                 (trade_open_date trade) in
  forallb (plain_fill (trade_pair trade)) fills = true ->
  let total := py_sum (map exec_amount fills) in
  get_real_amount get_trades_for_order trade order w =
  (match fills with
   | [] => inr (order_amount order)
   | _ => if Qeq_bool total (order_amount order)
          then inr (fsub total (py_sum (base_fees (trade_pair trade) fills)))
          else inl OperationalException
   end,
   mkWorld (session w)
     (events w ++ [EvGetTradesForOrder (trade_open_order_id trade) (trade_pair trade)
                     (trade_open_date trade)])
     (clock w)).
Proof.
  intros Hfee Hstatus Hnone fills Hplain total.
  unfold get_real_amount.
  destruct (Qeq_bool (trade_fee_open trade) 0) eqn:E.
  { apply Qeq_bool_iff in E. contradiction. }
  apply String.eqb_neq in Hstatus. rewrite Hstatus. cbn [orb].
  rewrite Hnone. unfold bind, emit, modify, lift_exn, ret, raise. cbv beta iota.
  fold fills.
  destruct fills as [|e rest] eqn:Hf; [reflexivity|].
  rewrite (sum_fills_plain _ _ 0 0 Hplain). cbv beta iota. cbn [fst snd].
  subst total. unfold py_sum.
  destruct (Qeq_bool (fold_left fadd (map exec_amount (e :: rest)) 0) (order_amount order));
    reflexivity.
Qed.

Lemma C6_real_amount_from_fills_witness :
  fst (get_real_amount two_fills pending_trade order_without_fee empty_world) =
  inr (fsub (fadd (fadd 0 4) 6) (fadd 0 (fl (4 # 1000))))
  /\ fsub (fadd (fadd 0 4) 6) (fadd 0 (fl (4 # 1000)))
     == 5627247734399435 # 562949953421312
  /\ fst (get_real_amount tenths_fills pending_trade tenths_order empty_world) =
     inl OperationalException
  /\ fst (get_real_amount short_fills pending_trade order_without_fee empty_world) =
     inl OperationalException.
Proof.
  split; [|split; [|split]].
  - assert (H := C6_real_amount_from_fills two_fills pending_trade order_without_fee
                   empty_world).
    cbv zeta in H. rewrite H.
    + vm_compute. reflexivity.
    + simpl. intro E. discriminate E.
    + discriminate.
    + reflexivity.
    + reflexivity.
  - vm_compute. reflexivity.
  - assert (H := C6_real_amount_from_fills tenths_fills pending_trade tenths_order
                   empty_world).
    cbv zeta in H. rewrite H.
    + vm_compute. reflexivity.
    + simpl. intro E. discriminate E.
    + discriminate.
    + reflexivity.
    + reflexivity.
  - vm_compute. reflexivity.
Defined.

(** C6 as stated fails on explicit branches of the code.  A trade with a
    non-zero [fee_open] and a closed order of 10 without fee data, for
    which the exchange reports no fills, gets the order's amount back, not
    a summed amount of 0; and a trade whose [fee_open] is 0 gets the
    order's amount back even when the fills only add up to 4, where the
    statement asks for an error.  It also fails on fills the code does
    not expect: a fill whose fee is [None] ends the call in an
    AttributeError, and the cost of a fee in 'ET' is taken off an ETH/BTC
    trade. *)
Lemma C6_counterexample :
  (fst (get_real_amount no_fills pending_trade order_without_fee empty_world) = inr 10
   /\ fallback_as_stated "ETH/BTC" [] 10 = inr 0
   /\ ~ 10 == 0)
  /\ (fst (get_real_amount short_fills fee_applied_trade order_without_fee empty_world)
      = inr 10
      /\ fallback_as_stated "ETH/BTC" [mkExecTrade 4 Absent] 10 = inl OperationalException)
  /\ (fst (get_real_amount none_fee_fills pending_trade order_without_fee empty_world)
      = inl AttributeError
      /\ fallback_as_stated "ETH/BTC" [mkExecTrade 10 IsNone] 10 = inr (fl 10))
  /\ (fst (get_real_amount odd_currency_fills pending_trade order_without_fee empty_world)
      = inr (fsub (fadd 0 10) (fadd 0 (1 # 2)))
      /\ fallback_as_stated "ETH/BTC"
           [mkExecTrade 10 (Has (mkFee (Has "ET"%string) (Has (1 # 2))))] 10
         = inr (fsub (fadd 0 10) 0)
      /\ ~ fsub (fadd 0 10) (fadd 0 (1 # 2)) == fsub (fadd 0 10) 0).
Proof.
  repeat split; try (vm_compute; reflexivity).
  - intro H. discriminate H.
  - vm_compute. intro H. discriminate H.
Qed.

(** *** Timed-out buy orders *)


Lemma lookup_row_replace (t : Trade) (rows : list Trade) :
  lookup_row (trade_id t) rows <> None ->
  lookup_row (trade_id t) (replace_row t rows) = Some t.
Proof.
  unfold lookup_row, replace_row.
  induction rows as [|r rest IH]; simpl; intro H; [now elim H|].
  destruct (trade_id r =? trade_id t)%Z eqn:E; simpl.
  - now rewrite Z.eqb_refl.
  - rewrite E. now apply IH.
Qed.



(** *** Stake sizing *)

Lemma pow10_pos (n : Z) : 0 < 10 ^ n.
Proof. apply Qpower_0_lt. reflexivity. Qed.

Lemma py_round_nonpos (x : Q) (n : Z) : x <= 0 -> py_round x n <= 0.
Proof.
  intro Hx. unfold py_round.
  assert (Hc := pow10_pos n).
  assert (Hy : x * 10 ^ n <= 0).
  { apply Qle_trans with (0 * 10 ^ n).
    - apply Qmult_le_compat_r; [assumption | now apply Qlt_le_weak].
    - rewrite Qmult_0_l. apply Qle_refl. }
  assert (Hk : (rne (x * 10 ^ n) <= 0)%Z) by (now apply rne_le_Z).
  apply fl_nonpos. apply Qle_shift_div_r; [assumption|].
  rewrite Qmult_0_l. rewrite Zle_Qle in Hk. exact Hk.
Qed.

(** C9, as amended: the high-risk stake sizing gives the stake back
    unchanged when the summed profit of the bot's closed trades is not
    strictly positive or the bot already has [max_open_trades] open
    trades.  A result other than the stake itself is returned only with a
    strictly positive closed-trade profit and a free slot, and is then the
    stake times one plus the profit percentage cut to two decimals (the
    percentage being the rounded profit over the initial balance, less
    twice the mean opening fee), the product cut to eight decimals, all in
    float arithmetic; and that result is returned whenever the rounded
    profit is positive, a slot is free and the initial balance is not
    zero.  [create_trade] passes the configured stake. *)
Theorem C9_high_stake_amount
    (cp : Trade -> option Q -> Q) (cfg : Config) (numpy_mean : list Q -> Q)
    (stake : Q) (w : World) :
  let rows := bot_rows cfg (session w) in
  let open_count := Z.of_nat (List.length (filter trade_is_open rows)) in
  let closed := filter (fun t => negb (trade_is_open t)) (order_by_id rows) in
  let profit := py_sum (map (fun t => cp t None) closed) in
  let initial := fmul (cfg_stake_amount cfg) (inject_Z (cfg_max_open_trades cfg)) in
  let scaled fees :=
    let percent :=
      fsub (fsub (fdiv (fadd initial (py_round profit 8)) initial) 1) (fmul fees 2) in
    trunc_num (fmul stake (fadd 1 (trunc_num percent 2))) 8 in
  (profit <= 0 \/ (cfg_max_open_trades cfg <= open_count)%Z ->
     get_high_stake_amount cp cfg numpy_mean stake w = (inr stake, w))
  /\ (forall v,
         fst (get_high_stake_amount cp cfg numpy_mean stake w) = inr v ->
         v = stake
         \/ (0 < profit /\ (open_count < cfg_max_open_trades cfg)%Z
             /\ exists fees,
                  mean numpy_mean (map trade_fee_open closed) = Some fees
                  /\ v = scaled fees))
  /\ (0 < py_round profit 8 ->
      (open_count < cfg_max_open_trades cfg)%Z ->
      ~ initial == 0 ->
      exists fees,
        mean numpy_mean (map trade_fee_open closed) = Some fees
        /\ get_high_stake_amount cp cfg numpy_mean stake w = (inr (scaled fees), w))
  /\ (cfg_high_risk_trading cfg = true ->
      create_trade_stake cp cfg numpy_mean w =
      get_high_stake_amount cp cfg numpy_mean (cfg_stake_amount cfg) w).
Proof.
  intros rows open_count closed profit initial scaled.
  assert (Hrun : get_high_stake_amount cp cfg numpy_mean stake w =
                 if (0 <? cfg_max_open_trades cfg - open_count)%Z
                 then if Qltb 0 (py_round profit 8)
                      then if Qeq_bool initial 0 then (inl ZeroDivisionError, w)
                           else match mean numpy_mean (map trade_fee_open closed) with
                                | None => (inl ValueError, w)
                                | Some fees => (inr (scaled fees), w)
                                end
                      else (inr stake, w)
                 else (inr stake, w)).
  { cbv beta iota zeta
        delta [get_high_stake_amount get_trade_profits_fees bind get ret raise fst snd].
    fold rows. fold open_count.
    destruct (0 <? cfg_max_open_trades cfg - open_count)%Z; [|reflexivity].
    cbv beta. fold rows. fold closed. fold profit. fold initial.
    destruct (Qltb 0 (py_round profit 8)); [|reflexivity].
    destruct (Qeq_bool initial 0); [reflexivity|].
    destruct (mean numpy_mean (map trade_fee_open closed)); reflexivity. }
  assert (Hmean : 0 < py_round profit 8 ->
                  exists fees, mean numpy_mean (map trade_fee_open closed) = Some fees).
  { intro Hpos. subst profit. destruct closed as [|c0 rest].
    - exfalso. revert Hpos. apply Qle_not_lt. apply py_round_nonpos. apply Qle_refl.
    - simpl. eexists. reflexivity. }
  split; [|split; [|split]].
  - intros [Hp|Hfull]; rewrite Hrun.
    + destruct (0 <? cfg_max_open_trades cfg - open_count)%Z; [|reflexivity].
      apply (py_round_nonpos _ 8) in Hp. apply Qltb_ge in Hp. now rewrite Hp.
    + assert (E : (0 <? cfg_max_open_trades cfg - open_count)%Z = false)
        by (apply Z.ltb_ge; lia).
      now rewrite E.
  - intros v. rewrite Hrun.
    destruct (0 <? cfg_max_open_trades cfg - open_count)%Z eqn:Eslot;
      [|simpl; intro H; left; congruence].
    destruct (Qltb 0 (py_round profit 8)) eqn:Epos;
      [|simpl; intro H; left; congruence].
    destruct (Qeq_bool initial 0); [simpl; discriminate|].
    destruct (mean numpy_mean (map trade_fee_open closed)) as [fees|];
      [|simpl; discriminate].
    simpl. intro H. right.
    apply Qltb_lt in Epos. apply Z.ltb_lt in Eslot.
    split; [|split; [lia|]].
    + apply Qnot_le_lt. intro Hle. apply (py_round_nonpos _ 8) in Hle.
      apply (Qlt_not_le _ _ Epos Hle).
    + exists fees. split; [reflexivity | congruence].
  - intros Hpos Hslot Hinit.
    destruct (Hmean Hpos) as [fees Hfees]. exists fees. split; [assumption|].
    rewrite Hrun.
    assert (E : (0 <? cfg_max_open_trades cfg - open_count)%Z = true)
      by (apply Z.ltb_lt; lia).
    rewrite E. apply Qltb_lt in Hpos. rewrite Hpos.
    destruct (Qeq_bool initial 0) eqn:E0.
    { apply Qeq_bool_iff in E0. contradiction. }
    now rewrite Hfees.
  - intro Hrisk. unfold create_trade_stake. now rewrite Hrisk.
Qed.

Lemma C9_high_stake_amount_witness :
  (exists v,
      get_high_stake_amount spec_profit sample_config left_mean 1000 history_world =
      (inr v, history_world) /\ v == 1090)
  /\ (exists v,
        get_high_stake_amount spec_profit sample_config left_mean 1000
          fifteen_percent_world = (inr v, fifteen_percent_world)
        /\ v == 1140)
  /\ get_high_stake_amount spec_profit sample_config left_mean 1000 pending_world =
     (inr 1000, pending_world).
Proof.
  split.
  - destruct (proj1 (proj2 (proj2 (C9_high_stake_amount spec_profit sample_config
                                     left_mean 1000 history_world))))
      as [fees [Hfees Hrun]].
    + vm_compute. reflexivity.
    + reflexivity.
    + vm_compute. intro H. discriminate H.
    + eexists. split; [exact Hrun|].
      vm_compute in Hfees. injection Hfees as <-. vm_compute. reflexivity.
  - split.
    + destruct (proj1 (proj2 (proj2 (C9_high_stake_amount spec_profit sample_config
                                       left_mean 1000 fifteen_percent_world))))
        as [fees [Hfees Hrun]].
      * vm_compute. reflexivity.
      * reflexivity.
      * vm_compute. intro H. discriminate H.
      * eexists. split; [exact Hrun|].
        vm_compute in Hfees. injection Hfees as <-. vm_compute. reflexivity.
    + apply (proj1 (C9_high_stake_amount spec_profit sample_config left_mean 1000
                      pending_world)).
      left. vm_compute. intro H. discriminate H.
Defined.

(** C9 as stated fails: the percentage is cut to two decimals before the
    stake is scaled.  With a stake of 1000, three slots and one closed
    trade that made 375 without a fee, the percentage is 0.125; the code
    scales by 1.12 and returns 1120, where the stake times one plus the
    percentage, cut to eight decimals, is 1125. *)
Lemma C9_counterexample :
  (exists v,
      get_high_stake_amount spec_profit sample_config left_mean 1000 eighth_world =
      (inr v, eighth_world) /\ v == 1120)
  /\ scaled_stake_as_stated 1000 (fmul 1000 3) 375 0 == 1125
  /\ fsub (fsub (fdiv (fadd (fmul 1000 3) 375) (fmul 1000 3)) 1) (fmul 0 2) == 1 # 8.
Proof.
  split; [|split].
  - eexists. split; [vm_compute; reflexivity|]. vm_compute. reflexivity.
  - vm_compute. reflexivity.
  - vm_compute. reflexivity.
Qed.

(** *** The sell path *)

Section SellPath.

Variable cpp : Trade -> Q -> Q.
Variable cp : Trade -> option Q -> Q.
Variable slp : Q -> option Q -> Q.
Variable cfg : Config.
Variable strat : Strategy.
Variable get_ticker : string -> Ticker.
Variable get_order_book : string -> Z -> OrderBook.
Variable get_fee : string -> Q.
Variable exchange_sell : string -> Q -> Q -> string.
Variable get_signal : string -> string -> bool * bool.
Variable utcnow_at : nat -> Q.







(** C8: [handle_trade] on a trade that is not open raises ValueError at
    once: nothing is asked of the exchange, nothing is sent, no row and
    no clock reading changes.  Whenever a call of [handle_trade] leaves
    any trace, the trade was open. *)
Theorem C8_handle_trade_closed (trade : Trade) (w : World) :
  trade_is_open trade = false ->
  handle_trade cpp cp slp cfg strat get_ticker get_order_book get_fee
    exchange_sell get_signal utcnow_at trade w = (inl ValueError, w).
Proof.
  intro H. unfold handle_trade. rewrite H. reflexivity.
Qed.


End SellPath.

Lemma C8_handle_trade_closed_witness :
  trade_is_open closed_trade = false
  /\ handle_trade spec_profit_percent spec_profit spec_stop_loss_price
       book_exit_config sample_strategy falling_ticker sample_book flat_fee
       sell_order_id no_signal after_45_minutes closed_trade history_world
     = (inl ValueError, history_world).
Proof.
  split; [reflexivity|].
  apply (C8_handle_trade_closed spec_profit_percent spec_profit spec_stop_loss_price
           book_exit_config sample_strategy falling_ticker sample_book flat_fee
           sell_order_id no_signal after_45_minutes closed_trade history_world).
  reflexivity.
Defined.



(* ------------------------------------------------------------------ *)
(** ** Further properties *)

(** *** The ROI rate *)

Section RoiRate.

Variable strat : Strategy.
Variable get_fee : string -> Q.
Variable utcnow_at : nat -> Q.

Lemma roi_rate_walk_none (trade : Trade) (roi : list (Z * Q)) (td sell_rate : Q)
    (w : World) :
  (forall d th, In (d, th) roi -> td <= inject_Z d) ->
  roi_rate_walk get_fee trade roi td sell_rate w = (inr sell_rate, w).
Proof.
  induction roi as [|[d th] rest IH]; intro Hall; simpl; [reflexivity|].
  assert (Hd : Qltb (inject_Z d) td = false)
    by (apply Qltb_ge, (Hall d th); now left).
  rewrite Hd. apply IH. intros d' th' Hin. apply (Hall d' th'). now right.
Qed.

Lemma roi_rate_walk_first (trade : Trade) (pre post : list (Z * Q)) (d : Z) (th : Q)
    (td sell_rate : Q) (w : World) :
  (forall d' th', In (d', th') pre -> td <= inject_Z d') ->
  inject_Z d < td ->
  roi_rate_walk get_fee trade (pre ++ (d, th) :: post) td sell_rate w =
  (inr (trunc_num
          (fmul (fmul (trade_open_rate trade) (fadd 1 th))
                (fadd 1 (fmul (fl (21 # 10)) (get_fee (trade_pair trade))))) 8),
   mkWorld (session w) (events w ++ [EvGetFee (trade_pair trade)]) (clock w)).
Proof.
  intros Hpre Hd. induction pre as [|[d' th'] rest IH]; simpl.
  - apply Qltb_lt in Hd. rewrite Hd. reflexivity.
  - assert (Hd' : Qltb (inject_Z d') td = false)
      by (apply Qltb_ge, (Hpre d' th'); now left).
    rewrite Hd'. apply IH. intros a b Hin. apply (Hpre a b). now right.
Qed.

(** X3: [get_roi_rate] reads the clock once.  If no entry of the
    minimal-ROI table has a duration strictly below the minutes elapsed,
    it gives the sell rate back and asks nothing of the exchange.
    Otherwise it takes the first such entry in the table's order, asks
    for the fee once, and returns open_rate * (1 + threshold) *
    (1 + 2.1 * fee), multiplied and added as floats, cut to eight
    decimals. *)
Theorem X3_get_roi_rate_first_elapsed (trade : Trade) (sell_rate : Q) (w : World) :
  let td := (utcnow_at (clock w) - trade_open_date trade) / 60 in
  ((forall d th, In (d, th) (minimal_roi strat) -> td <= inject_Z d) ->
   get_roi_rate strat get_fee utcnow_at trade sell_rate w =
   (inr sell_rate, mkWorld (session w) (events w) (S (clock w))))
  /\ (forall pre d th post,
         minimal_roi strat = (pre ++ (d, th) :: post)%list ->
         (forall d' th', In (d', th') pre -> td <= inject_Z d') ->
         inject_Z d < td ->
         get_roi_rate strat get_fee utcnow_at trade sell_rate w =
         (inr (trunc_num
                 (fmul (fmul (trade_open_rate trade) (fadd 1 th))
                       (fadd 1 (fmul (fl (21 # 10)) (get_fee (trade_pair trade))))) 8),
          mkWorld (session w) (events w ++ [EvGetFee (trade_pair trade)]) (S (clock w)))).
Proof.
  intro td. split.
  - intro Hall. unfold get_roi_rate, bind, utcnow. cbv beta iota.
    fold td. now rewrite roi_rate_walk_none.
  - intros pre d th post Hroi Hpre Hd.
    unfold get_roi_rate, bind, utcnow. cbv beta iota. fold td.
    rewrite Hroi. now rewrite roi_rate_walk_first.
Qed.

End RoiRate.

(** An open rate of 100, a threshold of 0.005 and a fee of 0.001: the
    product is 100.71105 in exact arithmetic and just below it in floats,
    so that the rate is 100.71104999. *)
Lemma X3_get_roi_rate_first_elapsed_witness :
  get_roi_rate float_roi_strategy float_fee after_45_minutes sample_trade 99 open_world =
  (inr (trunc_num
          (fmul (fmul 100 (fadd 1 (fl (5 # 1000))))
                (fadd 1 (fmul (fl (21 # 10)) (fl (1 # 1000))))) 8),
   mkWorld [sample_trade] [EvGetFee "ETH/BTC"] 1)
  /\ trunc_num
       (fmul (fmul 100 (fadd 1 (fl (5 # 1000))))
             (fadd 1 (fmul (fl (21 # 10)) (fl (1 # 1000))))) 8
     == fl (10071104999 # 100000000).
Proof.
  split; [|vm_compute; reflexivity].
  apply (proj2 (X3_get_roi_rate_first_elapsed float_roi_strategy float_fee
                  after_45_minutes sample_trade 99 open_world)
           [] 0%Z (fl (5 # 1000)) []).
  - reflexivity.
  - intros d' th' H. now elim H.
  - reflexivity.
Defined.

(** *** The bid rate *)

Section TargetBid.

Variable cfg : Config.
Variable get_ticker : string -> Ticker.
Variable get_order_book : string -> Z -> OrderBook.

(** X4: without order-book pricing and without discount only the
    ticker is asked for, and the bid rate is the ask when the ask is
    below the last price, and ask + balance * (last - ask), added and
    multiplied as floats, otherwise.  With an ask_last_balance that is
    not negative that rate never exceeds the ask, and with a balance of
    0 it is the ask. *)
Theorem X4_ticker_bid_at_most_ask (pair : string) (w : World) (balance : Q) :
  bid_use_book_order (cfg_bid_strategy cfg) <> Some true ->
  percent_from_top (cfg_bid_strategy cfg) = None ->
  ask_last_balance (cfg_bid_strategy cfg) = Some balance ->
  0 <= balance ->
  fl (ask (get_ticker pair)) == ask (get_ticker pair) ->
  exists r,
    get_target_bid cfg get_ticker get_order_book pair w =
    (inr r, mkWorld (session w) (events w ++ [EvGetTicker pair]) (clock w))
    /\ r <= ask (get_ticker pair)
    /\ (ask (get_ticker pair) < last (get_ticker pair) -> r = ask (get_ticker pair))
    /\ (last (get_ticker pair) <= ask (get_ticker pair) ->
        r = fadd (ask (get_ticker pair))
              (fmul balance (fsub (last (get_ticker pair)) (ask (get_ticker pair)))))
    /\ (balance == 0 -> r == ask (get_ticker pair)).
Proof.
  intros Hbook Hpct Hbal Hb0 Hfloat.
  unfold get_target_bid, bind, emit, modify, ret, raise. cbv beta iota.
  rewrite Hpct, Hbal.
  assert (H0 : Qltb 0 0 = false) by reflexivity. rewrite H0.
  set (a := ask (get_ticker pair)) in *. set (l := last (get_ticker pair)).
  destruct (Qltb a l) eqn:E.
  - exists a. apply Qltb_lt in E.
    split; [destruct (bid_use_book_order (cfg_bid_strategy cfg)) as [[|]|];
            [now elim Hbook | reflexivity | reflexivity]|].
    split; [apply Qle_refl|]. split; [reflexivity|].
    split; [|intros _; reflexivity].
    intro H. exfalso. apply (Qlt_not_le _ _ E H).
  - exists (fadd a (fmul balance (fsub l a))). apply Qltb_ge in E.
    split; [destruct (bid_use_book_order (cfg_bid_strategy cfg)) as [[|]|];
            [now elim Hbook | reflexivity | reflexivity]|].
    assert (Hd : fsub l a <= 0) by (apply fl_nonpos; lra).
    assert (Hm : fmul balance (fsub l a) <= 0).
    { apply fl_nonpos.
      setoid_replace (balance * fsub l a) with (- (balance * - fsub l a)) by ring.
      assert (Hn : 0 <= balance * - fsub l a)
        by (apply Qmult_le_0_compat; [assumption | lra]).
      lra. }
    split; [|split; [|split]].
    + apply Qle_trans with (fl a); [apply fl_mono; lra|].
      apply Qle_lteq. right. exact Hfloat.
    + intro H. exfalso. apply (Qlt_not_le _ _ H E).
    + intros _. reflexivity.
    + intro Hz. apply Qeq_trans with (fl a); [|exact Hfloat].
      assert (Hp : fmul balance (fsub l a) == 0).
      { apply Qeq_trans with (fl 0); [|now rewrite fl_0].
        apply fl_comp. rewrite Hz. ring. }
      apply fl_comp. rewrite Hp. ring.
Qed.

(** X5: [get_target_bid] fails with KeyError when the ask is not below
    the last price and ask_last_balance is not configured, also when
    order-book pricing would not use the ticker rate; and with IndexError
    when order-book pricing is on and the book has fewer bid levels than
    book_order_top. *)
Theorem X5_get_target_bid_errors (pair : string) (w : World) :
  (last (get_ticker pair) <= ask (get_ticker pair) ->
   ask_last_balance (cfg_bid_strategy cfg) = None ->
   fst (get_target_bid cfg get_ticker get_order_book pair w) = inl KeyError)
  /\ (forall top,
         bid_use_book_order (cfg_bid_strategy cfg) = Some true ->
         bid_book_order_top (cfg_bid_strategy cfg) = Some top ->
         (1 <= top)%Z ->
         (Z.of_nat (List.length (bids (get_order_book pair top))) < top)%Z ->
         (ask (get_ticker pair) < last (get_ticker pair)
          \/ ask_last_balance (cfg_bid_strategy cfg) <> None) ->
         fst (get_target_bid cfg get_ticker get_order_book pair w) = inl IndexError).
Proof.
  split.
  - intros Hle Hbal.
    unfold get_target_bid, bind, emit, modify, ret, raise. cbv beta iota.
    apply Qltb_ge in Hle. now rewrite Hle, Hbal.
  - intros top Hbook Htop H1 Hshort Hrate.
    assert (Hidx : py_index (bids (get_order_book pair top)) (top - 1) = inl IndexError).
    { unfold py_index.
      assert (E1 : (top - 1 <? 0)%Z = false) by (apply Z.ltb_ge; lia).
      rewrite E1, E1.
      destruct (nth_error _ _) eqn:En; [|reflexivity].
      exfalso. assert (Hn : nth_error (bids (get_order_book pair top))
                              (Z.to_nat (top - 1)) <> None) by congruence.
      apply nth_error_Some in Hn. lia. }
    unfold get_target_bid, bind, emit, modify, ret, raise, lift_exn. cbv beta iota.
    rewrite Hbook, Htop.
    destruct (Qltb (ask (get_ticker pair)) (last (get_ticker pair))) eqn:E.
    + cbv beta iota. now rewrite Hidx.
    + destruct Hrate as [Hlt|Hbal].
      * apply Qltb_lt in Hlt. congruence.
      * destruct (ask_last_balance (cfg_bid_strategy cfg)); [|now elim Hbal].
        cbv beta iota. now rewrite Hidx.
Qed.

End TargetBid.

Lemma X4_ticker_bid_at_most_ask_witness :
  exists r,
    get_target_bid half_balance_config falling_ticker sample_book "ETH/BTC" empty_world =
    (inr r, mkWorld [] [EvGetTicker "ETH/BTC"] 0)
    /\ r <= 100
    /\ (100 < 90 -> r = 100)
    /\ (90 <= 100 -> r = fadd 100 (fmul (1 # 2) (fsub 90 100)))
    /\ (1 # 2 == 0 -> r == 100).
Proof.
  apply (X4_ticker_bid_at_most_ask half_balance_config falling_ticker sample_book
           "ETH/BTC" empty_world (1 # 2)).
  - discriminate.
  - reflexivity.
  - reflexivity.
  - apply Qle_bool_iff. reflexivity.
  - vm_compute. reflexivity.
Defined.

Lemma X5_get_target_bid_errors_witness :
  fst (get_target_bid
         (mkConfig None 1000 3 false TsAbsent false false false None
            (mkBidStrategy None (Some true) (Some 1%Z) None))
         falling_ticker sample_book "ETH/BTC" empty_world) = inl KeyError
  /\ fst (get_target_bid
            (mkConfig None 1000 3 false TsAbsent false false false None
               (mkBidStrategy (Some 1) (Some true) (Some 2%Z) None))
            falling_ticker sample_book "ETH/BTC" empty_world) = inl IndexError.
Proof.
  split.
  - apply (proj1 (X5_get_target_bid_errors _ falling_ticker sample_book "ETH/BTC"
                    empty_world)).
    + apply Qle_bool_iff. reflexivity.
    + reflexivity.
  - apply (proj2 (X5_get_target_bid_errors _ falling_ticker sample_book "ETH/BTC"
                    empty_world) 2%Z).
    + reflexivity.
    + reflexivity.
    + lia.
    + simpl. lia.
    + right. discriminate.
Defined.

(** *** More on fee reconciliation *)

Lemma base_fee_cost_some (pair : string) (fee : Fee) (cost : Q) :
  base_fee_cost pair fee = inr (Some cost) ->
  exists currency, fee = mkFee (Has currency) (Has cost).
Proof.
  unfold base_fee_cost.
  destruct fee as [[| |currency] [| |c]]; cbn [fee_currency fee_cost];
    try discriminate.
  - destruct (String.prefix currency pair); discriminate.
  - destruct (String.prefix currency pair); [|discriminate].
    intro H. injection H as ->. now exists currency.
Qed.

(** [base_fee_cost] raises nothing but TypeError, and only on a fee that
    holds [None]. *)
Lemma base_fee_cost_error (pair : string) (fee : Fee) (e : exn) :
  base_fee_cost pair fee = inl e ->
  e = TypeError /\ (fee_currency fee = IsNone \/ fee_cost fee = IsNone).
Proof.
  unfold base_fee_cost.
  destruct fee as [[| |currency] [| |c]]; cbn [fee_currency fee_cost];
    try discriminate;
    try (intro H; injection H as <-; split; [reflexivity | now left]).
  - destruct (String.prefix currency pair); [|discriminate].
    intro H. injection H as <-. split; [reflexivity | now right].
  - destruct (String.prefix currency pair); discriminate.
Qed.

Lemma sum_fills_error (pair : string) (fills : list ExecTrade) (a f : Q) (e : exn) :
  sum_fills pair fills a f = inl e ->
  (e = AttributeError /\ exists x, In x fills /\ exec_fee x = IsNone)
  \/ (e = TypeError
      /\ exists x fee, In x fills /\ exec_fee x = Has fee /\ holds_none fee).
Proof.
  revert a f. induction fills as [|x rest IH]; intros a f; cbn [sum_fills].
  - discriminate.
  - assert (Hrest : forall a' f',
               sum_fills pair rest a' f' = inl e ->
               (e = AttributeError /\ exists y, In y (x :: rest) /\ exec_fee y = IsNone)
               \/ (e = TypeError
                   /\ exists y fee,
                        In y (x :: rest) /\ exec_fee y = Has fee /\ holds_none fee)).
    { intros a' f' H. destruct (IH a' f' H) as [[He [y [Hin Hy]]]|[He [y [fee [Hin Hy]]]]].
      - left. split; [exact He|]. exists y. split; [now right | exact Hy].
      - right. split; [exact He|]. exists y, fee. split; [now right | exact Hy]. }
    destruct (exec_fee x) as [| |fee] eqn:Hx.
    + apply Hrest.
    + intro H. injection H as <-. left. split; [reflexivity|].
      exists x. split; [now left | exact Hx].
    + destruct (base_fee_cost pair fee) as [e'|[cost|]] eqn:Hc.
      * intro H. injection H as <-.
        destruct (base_fee_cost_error _ _ _ Hc) as [-> Hnone].
        right. split; [reflexivity|]. exists x, fee.
        split; [now left|]. split; [exact Hx | exact Hnone].
      * apply Hrest.
      * apply Hrest.
Qed.

(** What the loop over the fills hands on: a float for the amount, and
    a fee that is not negative when no cost is. *)
Lemma sum_fills_sums (pair : string) (fills : list ExecTrade) (a f amount fee_abs : Q) :
  (forall x currency c,
      In x fills -> exec_fee x = Has (mkFee (Has currency) (Has c)) -> 0 <= c) ->
  sum_fills pair fills a f = inr (amount, fee_abs) ->
  (fl a == a -> fl amount == amount) /\ (0 <= f -> 0 <= fee_abs).
Proof.
  revert a f. induction fills as [|x rest IH]; intros a f Hpos; cbn [sum_fills].
  - intro H. injection H as <- <-. split; trivial.
  - assert (Hpos' : forall y currency c,
               In y rest -> exec_fee y = Has (mkFee (Has currency) (Has c)) -> 0 <= c).
    { intros y currency c Hin. apply Hpos. now right. }
    assert (Ha : fl (fadd a (exec_amount x)) == fadd a (exec_amount x))
      by apply fl_idem.
    destruct (exec_fee x) as [| |fee] eqn:Hx.
    + intro H. destruct (IH _ _ Hpos' H) as [H1 H2]. split; [intros _; now apply H1 | exact H2].
    + discriminate.
    + destruct (base_fee_cost pair fee) as [e'|[cost|]] eqn:Hc.
      * discriminate.
      * intro H. destruct (IH _ _ Hpos' H) as [H1 H2].
        split; [intros _; now apply H1|].
        intro Hf. apply H2. apply fl_nonneg.
        destruct (base_fee_cost_some _ _ _ Hc) as [currency Hfee].
        assert (Hcost : 0 <= cost).
        { apply (Hpos x currency cost); [now left | now rewrite Hx, Hfee]. }
        lra.
      * intro H. destruct (IH _ _ Hpos' H) as [H1 H2].
        split; [intros _; now apply H1 | exact H2].
Qed.

(** X7: when no fee cost is negative, the real amount never exceeds the
    order's amount. *)
Theorem X7_real_amount_at_most_order_amount
    (get_trades_for_order : option string -> string -> Q -> list ExecTrade)
    (trade : Trade) (order : Order) (w : World) (a : Q) :
  (forall currency c,
      order_fee order = Some (mkFee (Has currency) (Has c)) -> 0 <= c) ->
  (forall e currency c,
      In e (get_trades_for_order (trade_open_order_id trade) (trade_pair trade)
              (trade_open_date trade)) ->
      exec_fee e = Has (mkFee (Has currency) (Has c)) -> 0 <= c) ->
  fst (get_real_amount get_trades_for_order trade order w) = inr a ->
  a <= order_amount order.
Proof.
  intros Hofee Hfills. unfold get_real_amount.
  destruct (Qeq_bool (trade_fee_open trade) 0 || (order_status order =? "open")%string).
  { simpl. intro H. injection H as <-. apply Qle_refl. }
  unfold bind, lift_exn, order_fee_cost.
  destruct (order_fee order) as [fee|] eqn:Hof.
  - destruct (base_fee_cost (trade_pair trade) fee) as [e|[cost|]] eqn:Ec.
    + simpl. discriminate.
    + simpl. intro H. injection H as <-.
      destruct (base_fee_cost_some _ _ _ Ec) as [currency Hfee].
      assert (Hc : 0 <= cost) by (apply (Hofee currency cost); now rewrite Hfee).
      lra.
    + revert Hfills. generalize (get_trades_for_order (trade_open_order_id trade)
                                   (trade_pair trade) (trade_open_date trade)).
      intros fills Hfills. unfold ret, raise, emit, modify. cbv beta iota.
      destruct fills as [|x rest].
      { simpl. intro H. injection H as <-. apply Qle_refl. }
      destruct (sum_fills (trade_pair trade) (x :: rest) 0 0) as [e|[amount fee_abs]] eqn:Es.
      { simpl. discriminate. }
      destruct (sum_fills_sums _ _ _ _ _ _ Hfills Es) as [Hfl Hfee].
      cbn [fst snd].
      destruct (Qeq_bool amount (order_amount order)) eqn:Eq; simpl; [|discriminate].
      intro H. injection H as <-. apply Qeq_bool_iff in Eq.
      apply Qle_trans with (fl amount).
      * apply fl_mono. assert (H0 := Hfee (Qle_refl 0)). lra.
      * apply Qle_lteq. right. apply Qeq_trans with amount; [|exact Eq].
        apply Hfl. now rewrite fl_0.
  - revert Hfills. generalize (get_trades_for_order (trade_open_order_id trade)
                                 (trade_pair trade) (trade_open_date trade)).
    intros fills Hfills. unfold ret, raise, emit, modify. cbv beta iota.
    destruct fills as [|x rest].
    { simpl. intro H. injection H as <-. apply Qle_refl. }
    destruct (sum_fills (trade_pair trade) (x :: rest) 0 0) as [e|[amount fee_abs]] eqn:Es.
    { simpl. discriminate. }
    destruct (sum_fills_sums _ _ _ _ _ _ Hfills Es) as [Hfl Hfee].
    cbn [fst snd].
    destruct (Qeq_bool amount (order_amount order)) eqn:Eq; simpl; [|discriminate].
    intro H. injection H as <-. apply Qeq_bool_iff in Eq.
    apply Qle_trans with (fl amount).
    + apply fl_mono. assert (H0 := Hfee (Qle_refl 0)). lra.
    + apply Qle_lteq. right. apply Qeq_trans with amount; [|exact Eq].
      apply Hfl. now rewrite fl_0.
Qed.

Lemma X7_real_amount_at_most_order_amount_witness :
  fsub (fadd (fadd 0 4) 6) (fadd 0 (fl (4 # 1000))) <= 10.
Proof.
  apply (X7_real_amount_at_most_order_amount two_fills pending_trade order_without_fee
           empty_world (fsub (fadd (fadd 0 4) 6) (fadd 0 (fl (4 # 1000))))).
  - discriminate.
  - intros e currency c [<-|[<-|[]]] H; injection H as _ <-;
      apply Qle_bool_iff; vm_compute; reflexivity.
  - vm_compute. reflexivity.
Defined.

(** Everything [get_real_amount] can end in: it changes no row and reads
    no clock, asks for the fills at most once, and raises
    OperationalException only over fills that are there, AttributeError
    only over a fill whose fee is [None], and TypeError only over a fee,
    of the order or of a fill, that holds [None]. *)
Lemma get_real_amount_outcome
    (gtfo : option string -> string -> Q -> list ExecTrade)
    (trade : Trade) (order : Order) (w : World) :
  let fills := gtfo (trade_open_order_id trade) (trade_pair trade)
                 (trade_open_date trade) in
  let asked := [EvGetTradesForOrder (trade_open_order_id trade) (trade_pair trade)
                  (trade_open_date trade)] in
  exists res pre,
    get_real_amount gtfo trade order w
    = (res, mkWorld (session w) (events w ++ pre) (clock w))
    /\ (pre = []
        \/ (pre = asked /\ ~ trade_fee_open trade == 0
            /\ order_status order <> "open"%string))
    /\ (forall e, res = inl e ->
          (e = OperationalException /\ fills <> [] /\ pre = asked)
          \/ (e = AttributeError /\ pre = asked
              /\ exists x, In x fills /\ exec_fee x = IsNone)
          \/ (e = TypeError
              /\ ((pre = [] /\ exists fee, order_fee order = Some fee /\ holds_none fee)
                  \/ (pre = asked
                      /\ exists x fee,
                           In x fills /\ exec_fee x = Has fee /\ holds_none fee)))).
Proof.
  intros fills asked.
  assert (Hw : w = mkWorld (session w) (events w ++ []) (clock w))
    by (destruct w; cbn; now rewrite app_nil_r).
  unfold get_real_amount.
  destruct (Qeq_bool (trade_fee_open trade) 0) eqn:E0; cbn [orb].
  { exists (inr (order_amount order)), []. split; [unfold ret; now rewrite <- Hw|].
    split; [now left | discriminate]. }
  destruct (String.eqb (order_status order) "open") eqn:Es.
  { exists (inr (order_amount order)), []. split; [unfold ret; now rewrite <- Hw|].
    split; [now left | discriminate]. }
  assert (Hfee : ~ trade_fee_open trade == 0).
  { intro H. apply Qeq_bool_iff in H. congruence. }
  apply String.eqb_neq in Es.
  assert (Hfallback :
    exists res pre,
      (emit (EvGetTradesForOrder (trade_open_order_id trade) (trade_pair trade)
               (trade_open_date trade)) ;;;
       match fills with
       | [] => ret (order_amount order)
       | _ =>
           af <- lift_exn (sum_fills (trade_pair trade) fills 0 0) ;;
           if negb (Qeq_bool (fst af) (order_amount order))
           then raise OperationalException
           else ret (fsub (fst af) (snd af))
       end) w
      = (res, mkWorld (session w) (events w ++ pre) (clock w))
      /\ pre = asked
      /\ (forall e, res = inl e ->
            (e = OperationalException /\ fills <> [])
            \/ (e = AttributeError /\ exists x, In x fills /\ exec_fee x = IsNone)
            \/ (e = TypeError
                /\ exists x fee, In x fills /\ exec_fee x = Has fee /\ holds_none fee))).
  { unfold bind, emit, modify, lift_exn, ret, raise. cbv beta iota.
    cbn [session events clock].
    destruct fills as [|x rest] eqn:Hf.
    { eexists (inr _), _. split; [reflexivity|]. split; [reflexivity | discriminate]. }
    destruct (sum_fills (trade_pair trade) (x :: rest) 0 0) as [e|af] eqn:Hsum.
    - eexists (inl e), _. split; [reflexivity|]. split; [reflexivity|].
      intros e' He'. injection He' as <-.
      destruct (sum_fills_error _ _ _ _ _ Hsum) as [H|H]; [right; left | right; right];
        exact H.
    - cbv beta iota.
      destruct (negb (Qeq_bool (fst af) (order_amount order))).
      + eexists (inl OperationalException), _. split; [reflexivity|].
        split; [reflexivity|]. intros e He. injection He as <-.
        left. split; [reflexivity | discriminate].
      + eexists (inr _), _. split; [reflexivity|].
        split; [reflexivity | discriminate]. }
  unfold order_fee_cost.
  destruct (order_fee order) as [fee|] eqn:Hof.
  - destruct (base_fee_cost (trade_pair trade) fee) as [e|[cost|]] eqn:Ec.
    + exists (inl e), []. split; [unfold bind, lift_exn, raise; now rewrite <- Hw|].
      split; [now left|]. intros e' He'. injection He' as <-.
      destruct (base_fee_cost_error _ _ _ Ec) as [-> Hnone].
      right. right. split; [reflexivity|]. left. split; [reflexivity|].
      exists fee. split; [reflexivity | exact Hnone].
    + exists (inr (order_amount order - cost)), [].
      split; [unfold bind, lift_exn, ret; now rewrite <- Hw|].
      split; [now left | discriminate].
    + destruct Hfallback as [res [pre [Hrun [Hpre Herr]]]].
      exists res, pre. split; [exact Hrun|].
      split; [right; repeat split; assumption|].
      intros e He. destruct (Herr e He) as [[H1 H2]|[[H1 H2]|[H1 H2]]].
      * left. repeat split; assumption.
      * right. left. repeat split; assumption.
      * right. right. split; [exact H1|]. right. split; assumption.
  - destruct Hfallback as [res [pre [Hrun [Hpre Herr]]]].
    exists res, pre. split; [exact Hrun|].
    split; [right; repeat split; assumption|].
    intros e He. destruct (Herr e He) as [[H1 H2]|[[H1 H2]|[H1 H2]]].
    * left. repeat split; assumption.
    * right. left. repeat split; assumption.
    * right. right. split; [exact H1|]. right. split; assumption.
Qed.

(** X8: [get_real_amount] changes no row and reads no clock; it asks the
    exchange for the fills at most once, and only for a trade with a
    non-zero [fee_open] whose order is not open.  It can end in three
    errors: OperationalException, only after it has asked and got fills;
    AttributeError, only over a fill whose fee is [None]; TypeError, only
    over a fee, of the order or of a fill, that holds [None] under
    'currency' or 'cost'. *)
Theorem X8_real_amount_effects
    (get_trades_for_order : option string -> string -> Q -> list ExecTrade)
    (trade : Trade) (order : Order) (w : World) :
  let fills := get_trades_for_order (trade_open_order_id trade) (trade_pair trade)
                 (trade_open_date trade) in
  (snd (get_real_amount get_trades_for_order trade order w) = w
   \/ (~ trade_fee_open trade == 0
       /\ order_status order <> "open"%string
       /\ snd (get_real_amount get_trades_for_order trade order w) =
          mkWorld (session w)
            (events w ++ [EvGetTradesForOrder (trade_open_order_id trade)
                            (trade_pair trade) (trade_open_date trade)])
            (clock w)))
  /\ (forall e,
         fst (get_real_amount get_trades_for_order trade order w) = inl e ->
         (e = OperationalException /\ fills <> []
          /\ snd (get_real_amount get_trades_for_order trade order w) <> w)
         \/ (e = AttributeError /\ exists x, In x fills /\ exec_fee x = IsNone)
         \/ (e = TypeError
             /\ ((exists fee, order_fee order = Some fee /\ holds_none fee)
                 \/ (exists x fee,
                        In x fills /\ exec_fee x = Has fee /\ holds_none fee)))).
Proof.
  intro fills.
  destruct (get_real_amount_outcome get_trades_for_order trade order w)
    as [res [pre [Hrun [Hpre Herr]]]].
  fold fills in Herr. rewrite Hrun. cbn [fst snd]. split.
  - destruct Hpre as [->|[-> [Hfee Hst]]].
    + left. destruct w; cbn. now rewrite app_nil_r.
    + right. repeat split; assumption.
  - intros e He. destruct (Herr e He) as [[H1 [H2 H3]]|[[H1 [_ H2]]|[H1 H2]]].
    + left. split; [exact H1|]. split; [exact H2|]. subst pre.
      intro Hsame. apply (f_equal events) in Hsame. cbn [events] in Hsame.
      apply (f_equal (@List.length event)) in Hsame.
      rewrite length_app in Hsame. cbn [List.length] in Hsame. lia.
    + right. left. split; assumption.
    + right. right. split; [exact H1|].
      destruct H2 as [[_ H2]|[_ H2]]; [left | right]; exact H2.
Qed.

(** *** What the sell path leaves behind *)

Lemma same_position_refl (t : Trade) : same_position t t.
Proof. unfold same_position. repeat split. Qed.

Lemma same_position_trans (t u v : Trade) :
  same_position t u -> same_position u v -> same_position t v.
Proof.
  unfold same_position. intros H1 H2.
  repeat match goal with H : _ /\ _ |- _ => destruct H end.
  repeat split; congruence.
Qed.

Section SellEffects.

Variable cpp : Trade -> Q -> Q.
Variable cp : Trade -> option Q -> Q.
Variable slp : Q -> option Q -> Q.
Variable cfg : Config.
Variable strat : Strategy.
Variable get_ticker : string -> Ticker.
Variable get_order_book : string -> Z -> OrderBook.
Variable get_fee : string -> Q.
Variable exchange_sell : string -> Q -> Q -> string.
Variable get_signal : string -> string -> bool * bool.
Variable utcnow_at : nat -> Q.

Lemma adjust_stop_loss_same_position (price : Q) (pct : option Q) (t : Trade) :
  same_position t (snd (adjust_stop_loss slp price pct t)).
Proof.
  unfold adjust_stop_loss, modify; simpl.
  destruct (trade_stop_loss t) as [cur|].
  - destruct (Qltb cur (slp price pct)); unfold same_position; repeat split.
  - unfold same_position; repeat split.
Qed.

(** An evaluation of [min_roi_reached] answers, and touches nothing but
    the stop-loss columns. *)
Lemma min_roi_reached_answers (rate now : Q) (t : Trade) :
  exists b t',
    min_roi_reached cpp slp cfg strat rate now t = (inr b, t')
    /\ same_position t t'.
Proof.
  destruct (trade_stop_loss t) as [sl|] eqn:Hsl.
  - rewrite (min_roi_reached_stored cpp slp cfg strat rate now t sl Hsl).
    destruct (match stoploss strat with None => false | Some _ => Qle_bool rate sl end).
    + eexists; eexists. split; [reflexivity | apply same_position_refl].
    + eexists; eexists. split; [reflexivity|].
      destruct (trailing_enabled cfg);
        [apply adjust_stop_loss_same_position | apply same_position_refl].
  - assert (E := min_roi_reached_first cpp slp cfg strat rate now t Hsl).
    cbv zeta in E. rewrite E.
    assert (H0 : same_position t
                   (set_initial_stop_loss
                      (set_stop_loss t (Some (slp (trade_open_rate t) (stoploss strat))))
                      (Some (slp (trade_open_rate t) (stoploss strat)))))
      by (unfold same_position; repeat split).
    destruct (match stoploss strat with None => false | Some _ => Qle_bool rate _ end).
    + eexists; eexists. split; [reflexivity | exact H0].
    + eexists; eexists. split; [reflexivity|].
      destruct (trailing_enabled cfg); [|exact H0].
      eapply same_position_trans; [exact H0 | apply adjust_stop_loss_same_position].
Qed.

Lemma should_sell_answers (rate now : Q) (buy sell : bool) (t : Trade) :
  exists b t',
    should_sell cpp cp slp cfg strat rate now buy sell t = (inr b, t')
    /\ same_position t t'.
Proof.
  destruct (min_roi_reached_answers rate now t) as [b [t' [Hrun Hsame]]].
  unfold should_sell, bind, get, ret. rewrite Hrun.
  destruct b.
  - eexists; eexists. split; [reflexivity | exact Hsame].
  - destruct (cfg_sell_profit_only cfg && _).
    + eexists; eexists. split; [reflexivity | exact Hsame].
    + destruct (sell && negb buy && cfg_use_sell_signal cfg);
        eexists; eexists; (split; [reflexivity | exact Hsame]).
Qed.

(** One [check_sell]: either no sale, and only the stop-loss columns of
    the row and the clock move; or a sale at the given rate for the
    trade's amount, with the order id and the requested rate written to
    the row. *)
Lemma check_sell_outcome (t : Trade) (rate : Q) (buy sell : bool) (w : World) :
  exists t1,
    same_position t t1
    /\ (check_sell cpp cp slp cfg strat exchange_sell utcnow_at t rate buy sell w =
        (inr (false, t1),
         mkWorld (replace_row t1 (session w)) (events w) (S (clock w)))
        \/ check_sell cpp cp slp cfg strat exchange_sell utcnow_at t rate buy sell w =
           (inr (true,
                 set_close_rate_requested
                   (set_open_order_id t1
                      (Some (exchange_sell (trade_pair t) rate (trade_amount t))))
                   (Some rate)),
            mkWorld
              (replace_row
                 (set_close_rate_requested
                    (set_open_order_id t1
                       (Some (exchange_sell (trade_pair t) rate (trade_amount t))))
                    (Some rate))
                 (replace_row t1 (session w)))
              (events w ++ sale_events t rate) (S (clock w)))).
Proof.
  destruct (should_sell_answers rate (utcnow_at (clock w)) buy sell t)
    as [b [t1 [Hrun Hsame]]].
  exists t1. split; [exact Hsame|].
  unfold check_sell, bind, utcnow, on_trade. cbv beta iota. rewrite Hrun.
  cbn [fst snd]. destruct b.
  - right. unfold execute_sell, save, bind, emit, modify, ret. cbv beta iota.
    cbn [session events clock trade_pair trade_amount set_close_rate_requested
         set_open_order_id].
    destruct Hsame as [_ [_ [_ [Hpair [_ [_ [_ [_ [_ [_ [Hamount _]]]]]]]]]]].
    rewrite Hpair, Hamount. unfold sale_events. rewrite <- !app_assoc. reflexivity.
  - left. reflexivity.
Qed.

End SellEffects.

Lemma lookup_row_replace_other (t : Trade) (j : Z) (rows : list Trade) :
  j <> trade_id t ->
  lookup_row j (replace_row t rows) = lookup_row j rows.
Proof.
  intro Hj. unfold lookup_row, replace_row.
  induction rows as [|r rest IH]; simpl; [reflexivity|].
  destruct (trade_id r =? trade_id t)%Z eqn:E; simpl.
  - apply Z.eqb_eq in E.
    assert (E1 : (trade_id t =? j)%Z = false) by (apply Z.eqb_neq; congruence).
    assert (E2 : (trade_id r =? j)%Z = false) by (apply Z.eqb_neq; congruence).
    rewrite E1, E2. exact IH.
  - destruct (trade_id r =? j)%Z; [reflexivity | exact IH].
Qed.

Lemma lookup_row_delete_other (t : Trade) (j : Z) (rows : list Trade) :
  j <> trade_id t ->
  lookup_row j (delete_row t rows) = lookup_row j rows.
Proof.
  intro Hj. unfold lookup_row, delete_row.
  induction rows as [|r rest IH]; simpl; [reflexivity|].
  destruct (trade_id r =? trade_id t)%Z eqn:E; simpl.
  - apply Z.eqb_eq in E.
    assert (E2 : (trade_id r =? j)%Z = false) by (apply Z.eqb_neq; congruence).
    rewrite E2. exact IH.
  - destruct (trade_id r =? j)%Z; [reflexivity | exact IH].
Qed.

Section SellOutcome.

Variable cpp : Trade -> Q -> Q.
Variable cp : Trade -> option Q -> Q.
Variable slp : Q -> option Q -> Q.
Variable cfg : Config.
Variable strat : Strategy.
Variable get_ticker : string -> Ticker.
Variable get_order_book : string -> Z -> OrderBook.
Variable get_fee : string -> Q.
Variable exchange_sell : string -> Q -> Q -> string.
Variable get_signal : string -> string -> bool * bool.
Variable utcnow_at : nat -> Q.
Variable trade : Trade.

Lemma sale_events_same (t : Trade) (rate : Q) :
  same_position trade t -> sale_events t rate = sale_events trade rate.
Proof.
  intros [_ [_ [_ [Hpair [_ [_ [_ [_ [_ [_ [Hamount _]]]]]]]]]]].
  unfold sale_events. now rewrite Hpair, Hamount.
Qed.

Lemma scan_asks_cons (book_asks : list (Q * Q)) (buy sell : bool) (i : Z)
    (rest : list Z) (rate : Q) (t : Trade) (w : World) :
  scan_asks cpp cp slp cfg strat exchange_sell utcnow_at book_asks buy sell
    (i :: rest) rate t w =
  match py_index book_asks (i - 1) with
  | inl e => (inl e, w)
  | inr level =>
      match check_sell cpp cp slp cfg strat exchange_sell utcnow_at t
              (if Qltb rate (fst level) then fst level else rate) buy sell w with
      | (inl e, w') => (inl e, w')
      | (inr r, w') =>
          if fst r then (inr true, w')
          else scan_asks cpp cp slp cfg strat exchange_sell utcnow_at book_asks buy sell
                 rest (if Qltb rate (fst level) then fst level else rate) (snd r) w'
      end
  end.
Proof.
  cbn [scan_asks]. unfold bind, lift_exn.
  destruct (py_index book_asks (i - 1)) as [e|level]; [reflexivity|].
  cbn [ret]. cbv beta iota.
  destruct (check_sell _ _ _ _ _ _ _ _ _ _ _ _) as [[e|r] w']; [reflexivity|].
  destruct (fst r); reflexivity.
Qed.

Lemma py_index_error (A : Type) (l : list A) (i : Z) (e : exn) :
  py_index l i = inl e -> e = IndexError.
Proof.
  unfold py_index. destruct (_ <? 0)%Z; [intro H; now injection H|].
  destruct (nth_error _ _); [discriminate | intro H; now injection H].
Qed.

(** The scan of the ask levels, seen from outside: no sale, and then
    nothing but the stop-loss columns of the trade's row has moved; or
    one sale. *)
Lemma scan_asks_outcome (book_asks : list (Q * Q)) (buy sell : bool) (levels : list Z) :
  forall (rate : Q) (t : Trade) (w : World),
    same_position trade t ->
    exists t' res w',
      scan_asks cpp cp slp cfg strat exchange_sell utcnow_at book_asks buy sell
        levels rate t w = (res, w')
      /\ same_position trade t'
      /\ (forall j, j <> trade_id trade ->
            lookup_row j (session w') = lookup_row j (session w))
      /\ ((exists r0,
              res = inr true
              /\ events w' = (events w ++ sale_events trade r0)%list
              /\ (lookup_row (trade_id trade) (session w) = Some t ->
                  lookup_row (trade_id trade) (session w')
                  = Some (set_close_rate_requested
                            (set_open_order_id t'
                               (Some (exchange_sell (trade_pair trade) r0
                                        (trade_amount trade))))
                            (Some r0))))
          \/ ((res = inr false \/ res = inl IndexError)
              /\ events w' = events w
              /\ (lookup_row (trade_id trade) (session w) = Some t ->
                  lookup_row (trade_id trade) (session w') = Some t'))).
Proof.
  induction levels as [|i rest IH]; intros rate t w Hsame.
  - exists t, (inr false), w. split; [reflexivity|]. split; [exact Hsame|].
    split; [reflexivity|].
    right. split; [now left|]. split; [reflexivity | tauto].
  - rewrite scan_asks_cons.
    destruct (py_index book_asks (i - 1)) as [e|level] eqn:Hidx.
    + apply py_index_error in Hidx. subst e.
      exists t, (inl IndexError), w. split; [reflexivity|]. split; [exact Hsame|].
      split; [reflexivity|].
      right. split; [now right|]. split; [reflexivity | tauto].
    + set (rate1 := if Qltb rate (fst level) then fst level else rate).
      destruct (check_sell_outcome cpp cp slp cfg strat exchange_sell utcnow_at
                  t rate1 buy sell w) as [t1 [Hsame1 [Hrun|Hrun]]];
        rewrite Hrun; cbn [fst snd]; cbv beta iota.
      * (* no sale at this level *)
        assert (Hsame1' : same_position trade t1)
          by (eapply same_position_trans; eassumption).
        destruct (IH rate1 t1
                    (mkWorld (replace_row t1 (session w)) (events w) (S (clock w)))
                    Hsame1') as [t' [res [w' [Hscan [Hst' [Hother Hcases]]]]]].
        assert (Hid1 : trade_id t1 = trade_id trade) by (apply Hsame1').
        exists t', res, w'. split; [exact Hscan|]. split; [exact Hst'|]. split.
        { intros j Hj. rewrite (Hother j Hj). cbn [session].
          apply lookup_row_replace_other. congruence. }
        assert (Hrow : lookup_row (trade_id trade) (session w) = Some t ->
                       lookup_row (trade_id trade) (replace_row t1 (session w)) = Some t1).
        { intro H. rewrite <- Hid1. apply lookup_row_replace. rewrite Hid1. congruence. }
        destruct Hcases as [[r0 [Hres [Hev Hlk]]]|[Hres [Hev Hlk]]].
        -- left. exists r0. split; [exact Hres|]. split; [exact Hev|].
           intro H. apply Hlk, Hrow, H.
        -- right. split; [exact Hres|]. split; [exact Hev|].
           intro H. apply Hlk, Hrow, H.
      * (* sold at this level *)
        assert (Hsame1' : same_position trade t1)
          by (eapply same_position_trans; eassumption).
        assert (Hid1 : trade_id t1 = trade_id trade) by (apply Hsame1').
        assert (Hpair : trade_pair t = trade_pair trade) by (apply Hsame).
        assert (Hamount : trade_amount t = trade_amount trade) by (apply Hsame).
        eexists t1, (inr true), _. split; [reflexivity|].
        split; [exact Hsame1'|]. cbn [session events].
        split.
        { intros j Hj.
          rewrite lookup_row_replace_other by (cbn; congruence).
          apply lookup_row_replace_other. congruence. }
        left. exists rate1. split; [reflexivity|].
        split; [now rewrite (sale_events_same t rate1 Hsame)|].
        intro H. rewrite Hpair, Hamount.
        set (sold := set_close_rate_requested _ _).
        assert (Hids : trade_id sold = trade_id trade) by (subst sold; cbn; exact Hid1).
        rewrite <- Hids. apply lookup_row_replace. rewrite Hids, <- Hid1.
        rewrite lookup_row_replace; [discriminate|]. rewrite Hid1. congruence.
Qed.

Lemma roi_rate_walk_outcome (roi : list (Z * Q)) (td sell_rate : Q) (w : World) :
  exists r evs,
    roi_rate_walk get_fee trade roi td sell_rate w =
    (inr r, mkWorld (session w) (events w ++ evs) (clock w))
    /\ forallb is_query evs = true.
Proof.
  induction roi as [|[d th] rest IH]; simpl.
  - exists sell_rate, []. rewrite app_nil_r. destruct w. split; reflexivity.
  - destruct (Qltb (inject_Z d) td); [|exact IH].
    eexists; exists [EvGetFee (trade_pair trade)]. split; reflexivity.
Qed.

Lemma sell_prelude_outcome (w : World) :
  exists p pre c,
    sell_prelude cfg strat get_ticker get_fee get_signal utcnow_at trade w =
    (inr p, mkWorld (session w) (events w ++ pre) c)
    /\ forallb is_query pre = true.
Proof.
  unfold sell_prelude, get_roi_rate, utcnow, bind, emit, modify, ret. cbv beta iota.
  destruct (cfg_use_sell_signal cfg); destruct (cfg_sell_fullfilled_at_roi cfg);
    cbv beta iota; cbn [session events clock];
    try match goal with
        | |- context [roi_rate_walk get_fee trade ?roi ?td ?sr ?w0] =>
            destruct (roi_rate_walk_outcome roi td sr w0) as [r [evs [Hwalk Hq]]];
            rewrite Hwalk; cbn [session events clock]
        end;
    rewrite <- ?app_assoc; eexists; eexists; eexists;
    (split; [reflexivity|]);
    rewrite ?forallb_app; cbn [forallb is_query andb]; try rewrite Hq; reflexivity.
Qed.

(** Everything [handle_trade] can end in. *)
Lemma handle_trade_outcome (w : World) :
  (trade_is_open trade = false
   /\ handle_trade cpp cp slp cfg strat get_ticker get_order_book get_fee
        exchange_sell get_signal utcnow_at trade w = (inl ValueError, w))
  \/ (trade_is_open trade = true
      /\ exists pre t' res w',
           handle_trade cpp cp slp cfg strat get_ticker get_order_book get_fee
             exchange_sell get_signal utcnow_at trade w = (res, w')
           /\ forallb is_query pre = true
           /\ same_position trade t'
           /\ (forall j, j <> trade_id trade ->
                 lookup_row j (session w') = lookup_row j (session w))
           /\ (res = inl IndexError ->
               exists a, cfg_ask_strategy cfg = Some a /\ ask_use_book_order a = true)
           /\ ((exists r0,
                   res = inr true
                   /\ events w' = (events w ++ pre ++ sale_events trade r0)%list
                   /\ (lookup_row (trade_id trade) (session w) = Some trade ->
                       lookup_row (trade_id trade) (session w')
                       = Some (set_close_rate_requested
                                 (set_open_order_id t'
                                    (Some (exchange_sell (trade_pair trade) r0
                                             (trade_amount trade))))
                                 (Some r0))))
               \/ ((res = inr false \/ res = inl IndexError)
                   /\ events w' = (events w ++ pre)%list
                   /\ (lookup_row (trade_id trade) (session w) = Some trade ->
                       lookup_row (trade_id trade) (session w') = Some t')))).
Proof.
  destruct (trade_is_open trade) eqn:Hopen.
  2:{ left. split; [reflexivity|]. unfold handle_trade. now rewrite Hopen. }
  right. split; [reflexivity|].
  unfold handle_trade. rewrite Hopen. cbn [negb]. cbv iota. unfold bind at 1.
  destruct (sell_prelude_outcome w) as [p [pre [c [Hpre Hq]]]]. rewrite Hpre.
  cbv beta iota zeta.
  set (w1 := mkWorld (session w) (events w ++ pre) c).
  assert (Hsingle :
            exists t' res w',
              (r <- check_sell cpp cp slp cfg strat exchange_sell utcnow_at trade (fst p)
                      (fst (snd p)) (snd (snd p)) ;; ret (fst r)) w1 = (res, w')
              /\ same_position trade t'
              /\ (forall j, j <> trade_id trade ->
                    lookup_row j (session w') = lookup_row j (session w))
              /\ (res = inl IndexError ->
                  exists a, cfg_ask_strategy cfg = Some a /\ ask_use_book_order a = true)
              /\ ((exists r0,
                      res = inr true
                      /\ events w' = (events w ++ pre ++ sale_events trade r0)%list
                      /\ (lookup_row (trade_id trade) (session w) = Some trade ->
                          lookup_row (trade_id trade) (session w')
                          = Some (set_close_rate_requested
                                    (set_open_order_id t'
                                       (Some (exchange_sell (trade_pair trade) r0
                                                (trade_amount trade))))
                                    (Some r0))))
                  \/ ((res = inr false \/ res = inl IndexError)
                      /\ events w' = (events w ++ pre)%list
                      /\ (lookup_row (trade_id trade) (session w) = Some trade ->
                          lookup_row (trade_id trade) (session w') = Some t')))).
  { unfold bind.
    assert (Hs1 : session w1 = session w) by reflexivity.
    assert (He1 : events w1 = (events w ++ pre)%list) by reflexivity.
    clearbody w1.
    destruct (check_sell_outcome cpp cp slp cfg strat exchange_sell utcnow_at
                trade (fst p) (fst (snd p)) (snd (snd p)) w1)
      as [t1 [Hsame1 [Hrun|Hrun]]]; rewrite Hrun; cbn [fst snd ret];
      assert (Hid1 : trade_id t1 = trade_id trade) by (apply Hsame1).
    - eexists t1, (inr false), _. split; [reflexivity|]. split; [exact Hsame1|].
      cbn [session events]. rewrite Hs1, He1. split.
      { intros j Hj. apply lookup_row_replace_other. congruence. }
      split; [discriminate|]. right. split; [now left|]. split; [reflexivity|].
      intro H. rewrite <- Hid1. apply lookup_row_replace. rewrite Hid1. congruence.
    - eexists t1, (inr true), _. split; [reflexivity|]. split; [exact Hsame1|].
      cbn [session events]. rewrite Hs1, He1. split.
      { intros j Hj.
        rewrite lookup_row_replace_other by (cbn; congruence).
        apply lookup_row_replace_other. congruence. }
      split; [discriminate|]. left. exists (fst p). split; [reflexivity|].
      split; [now rewrite app_assoc|].
      intro H. set (sold := set_close_rate_requested _ _).
      assert (Hids : trade_id sold = trade_id trade) by (subst sold; cbn; exact Hid1).
      rewrite <- Hids. apply lookup_row_replace. rewrite Hids, <- Hid1.
      rewrite lookup_row_replace; [discriminate|]. rewrite Hid1. congruence. }
  destruct (cfg_ask_strategy cfg) as [a|] eqn:Hask.
  2:{ destruct Hsingle as [t' [res [w' H]]]. exists pre, t', res, w'.
      destruct H as [H1 [H2 [H3 [H4 H5]]]].
      split; [exact H1|]. split; [exact Hq|]. split; [exact H2|].
      split; [exact H3|]. split; [|exact H5].
      intro E. destruct (H4 E) as [a [Ha _]]. discriminate. }
  destruct (ask_use_book_order a) eqn:Hbook.
  2:{ destruct Hsingle as [t' [res [w' H]]]. exists pre, t', res, w'.
      destruct H as [H1 [H2 [H3 [H4 H5]]]].
      split; [exact H1|]. split; [exact Hq|]. split; [exact H2|].
      split; [exact H3|]. split; [|exact H5].
      intro E. destruct (H4 E) as [a' [Ha Hb]]. congruence. }
  clear Hsingle. subst w1. unfold bind, emit, modify. cbv beta iota.
  cbn [session events clock].
  match goal with
  | |- context [scan_asks cpp cp slp cfg strat exchange_sell utcnow_at ?bk ?b ?s ?ls ?r
                  trade ?w0] =>
      destruct (scan_asks_outcome bk b s ls r trade w0 (same_position_refl trade))
        as [t' [res [w' [Hscan [Hst' [Hother Hcases]]]]]];
      rewrite Hscan
  end.
  exists (pre ++ [EvGetOrderBook (trade_pair trade) (book_order_max a)])%list, t', res, w'.
  split; [reflexivity|].
  split; [rewrite forallb_app, Hq; reflexivity|].
  split; [exact Hst'|]. split; [exact Hother|].
  split; [intros _; exists a; split; [reflexivity | exact Hbook]|].
  cbn [session events] in Hcases.
  destruct Hcases as [[r0 [Hres [Hev Hlk]]]|[Hres [Hev Hlk]]].
  - left. exists r0. split; [exact Hres|]. split; [|exact Hlk].
    rewrite Hev. now rewrite <- !app_assoc.
  - right. split; [exact Hres|]. split; [|exact Hlk].
    rewrite Hev. now rewrite <- !app_assoc.
Qed.

End SellOutcome.

Section SellGuarantees.

Variable cpp : Trade -> Q -> Q.
Variable cp : Trade -> option Q -> Q.
Variable slp : Q -> option Q -> Q.
Variable cfg : Config.
Variable strat : Strategy.
Variable get_ticker : string -> Ticker.
Variable get_order_book : string -> Z -> OrderBook.
Variable get_fee : string -> Q.
Variable exchange_sell : string -> Q -> Q -> string.
Variable get_signal : string -> string -> bool * bool.
Variable utcnow_at : nat -> Q.

(** X9: [handle_trade] places a sell order exactly when it returns true,
    and then exactly one, for the trade's pair and its whole amount,
    followed by the ticker query, the message and the flush of
    [execute_sell]; every call before it, and every call of a run that
    does not return true, only asks for a ticker, signals, a fee or an
    order book. *)
Theorem X9_handle_trade_sells_once (trade : Trade) (w : World) :
  exists pre,
    forallb is_query pre = true
    /\ ((fst (handle_trade cpp cp slp cfg strat get_ticker get_order_book get_fee
                exchange_sell get_signal utcnow_at trade w) = inr true
         /\ exists r,
              events (snd (handle_trade cpp cp slp cfg strat get_ticker get_order_book
                             get_fee exchange_sell get_signal utcnow_at trade w))
              = (events w ++ pre ++ sale_events trade r)%list)
        \/ (fst (handle_trade cpp cp slp cfg strat get_ticker get_order_book get_fee
                   exchange_sell get_signal utcnow_at trade w) <> inr true
            /\ events (snd (handle_trade cpp cp slp cfg strat get_ticker get_order_book
                              get_fee exchange_sell get_signal utcnow_at trade w))
               = (events w ++ pre)%list)).
Proof.
  destruct (handle_trade_outcome cpp cp slp cfg strat get_ticker get_order_book get_fee
              exchange_sell get_signal utcnow_at trade w)
    as [[_ Hrun]|[_ [pre [t' [res [w' [Hrun [Hq [_ [_ [_ Hcases]]]]]]]]]]];
    rewrite Hrun; cbn [fst snd].
  - exists []. split; [reflexivity|]. right.
    split; [discriminate | now rewrite app_nil_r].
  - exists pre. split; [exact Hq|].
    destruct Hcases as [[r0 [Hres [Hev _]]]|[Hres [Hev _]]].
    + left. split; [exact Hres|]. now exists r0.
    + right. split; [|exact Hev]. destruct Hres as [-> | ->]; discriminate.
Qed.

(** X10: [handle_trade] never touches the row of another trade.  The
    trade's own row keeps every column but the stop-loss ones when no
    sale is made; after a sale it holds, besides, the id of the sell
    order and the rate asked for. *)
Theorem X10_handle_trade_rows (trade : Trade) (w : World) :
  (forall j, j <> trade_id trade ->
     lookup_row j (session (snd (handle_trade cpp cp slp cfg strat get_ticker
                                   get_order_book get_fee exchange_sell get_signal
                                   utcnow_at trade w)))
     = lookup_row j (session w))
  /\ (lookup_row (trade_id trade) (session w) = Some trade ->
      exists t',
        same_position trade t'
        /\ ((fst (handle_trade cpp cp slp cfg strat get_ticker get_order_book get_fee
                    exchange_sell get_signal utcnow_at trade w) = inr true
             /\ exists r,
                  lookup_row (trade_id trade)
                    (session (snd (handle_trade cpp cp slp cfg strat get_ticker
                                     get_order_book get_fee exchange_sell get_signal
                                     utcnow_at trade w)))
                  = Some (set_close_rate_requested
                            (set_open_order_id t'
                               (Some (exchange_sell (trade_pair trade) r
                                        (trade_amount trade))))
                            (Some r)))
            \/ (fst (handle_trade cpp cp slp cfg strat get_ticker get_order_book get_fee
                       exchange_sell get_signal utcnow_at trade w) <> inr true
                /\ lookup_row (trade_id trade)
                     (session (snd (handle_trade cpp cp slp cfg strat get_ticker
                                      get_order_book get_fee exchange_sell get_signal
                                      utcnow_at trade w)))
                   = Some t'))).
Proof.
  destruct (handle_trade_outcome cpp cp slp cfg strat get_ticker get_order_book get_fee
              exchange_sell get_signal utcnow_at trade w)
    as [[_ Hrun]|[_ [pre [t' [res [w' [Hrun [_ [Hsame [Hother [_ Hcases]]]]]]]]]]];
    rewrite Hrun; cbn [fst snd].
  - split; [reflexivity|]. intro H. exists trade.
    split; [apply same_position_refl|]. right. split; [discriminate | exact H].
  - split; [exact Hother|]. intro H. exists t'. split; [exact Hsame|].
    destruct Hcases as [[r0 [Hres [_ Hlk]]]|[Hres [_ Hlk]]].
    + left. split; [exact Hres|]. exists r0. now apply Hlk.
    + right. split; [|now apply Hlk]. destruct Hres as [-> | ->]; discriminate.
Qed.

(** X11: [handle_trade] raises nothing but ValueError, for a trade that
    is not open and before it does anything, and IndexError, for an open
    trade when the order-book scan is on (a scanned level that the book
    does not have). *)
Theorem X11_handle_trade_errors (trade : Trade) (w : World) (e : exn) :
  fst (handle_trade cpp cp slp cfg strat get_ticker get_order_book get_fee
         exchange_sell get_signal utcnow_at trade w) = inl e ->
  (e = ValueError /\ trade_is_open trade = false
   /\ snd (handle_trade cpp cp slp cfg strat get_ticker get_order_book get_fee
             exchange_sell get_signal utcnow_at trade w) = w)
  \/ (e = IndexError /\ trade_is_open trade = true
      /\ exists a, cfg_ask_strategy cfg = Some a /\ ask_use_book_order a = true).
Proof.
  destruct (handle_trade_outcome cpp cp slp cfg strat get_ticker get_order_book get_fee
              exchange_sell get_signal utcnow_at trade w)
    as [[Hclosed Hrun]|[Hopen [pre [t' [res [w' [Hrun [_ [_ [_ [Hidx Hcases]]]]]]]]]]];
    rewrite Hrun; cbn [fst snd]; intro H.
  - left. injection H as <-. repeat split. exact Hclosed.
  - right. subst res.
    assert (He : e = IndexError).
    { destruct Hcases as [[r0 [Hres _]]|[[Hres|Hres] _]];
        try discriminate; now injection Hres. }
    subst e. split; [reflexivity|]. split; [exact Hopen | now apply Hidx].
Qed.

End SellGuarantees.

Lemma X9_handle_trade_sells_once_witness :
  exists pre,
    forallb is_query pre = true
    /\ ((fst (handle_trade spec_profit_percent spec_profit spec_stop_loss_price
                book_exit_config half_percent_strategy falling_ticker sample_book
                flat_fee sell_order_id no_signal after_45_minutes sample_trade
                open_world) = inr true
         /\ exists r,
              events (snd (handle_trade spec_profit_percent spec_profit
                             spec_stop_loss_price book_exit_config half_percent_strategy
                             falling_ticker sample_book flat_fee sell_order_id no_signal
                             after_45_minutes sample_trade open_world))
              = (events open_world ++ pre ++ sale_events sample_trade r)%list)
        \/ (fst (handle_trade spec_profit_percent spec_profit spec_stop_loss_price
                   book_exit_config half_percent_strategy falling_ticker sample_book
                   flat_fee sell_order_id no_signal after_45_minutes sample_trade
                   open_world) <> inr true
            /\ events (snd (handle_trade spec_profit_percent spec_profit
                              spec_stop_loss_price book_exit_config half_percent_strategy
                              falling_ticker sample_book flat_fee sell_order_id no_signal
                              after_45_minutes sample_trade open_world))
               = (events open_world ++ pre)%list)).
Proof.
  exact (X9_handle_trade_sells_once spec_profit_percent spec_profit spec_stop_loss_price
           book_exit_config half_percent_strategy falling_ticker sample_book flat_fee
           sell_order_id no_signal after_45_minutes sample_trade open_world).
Defined.

Lemma X10_handle_trade_rows_witness :
  lookup_row 4 (session (snd (handle_trade spec_profit_percent spec_profit
                                spec_stop_loss_price book_exit_config
                                half_percent_strategy falling_ticker sample_book flat_fee
                                sell_order_id no_signal after_45_minutes sample_trade
                                history_world)))
  = Some closed_trade.
Proof.
  rewrite (proj1 (X10_handle_trade_rows spec_profit_percent spec_profit
                    spec_stop_loss_price book_exit_config half_percent_strategy
                    falling_ticker sample_book flat_fee sell_order_id no_signal
                    after_45_minutes sample_trade history_world) 4%Z).
  - reflexivity.
  - discriminate.
Defined.

Lemma X11_handle_trade_errors_witness :
  fst (handle_trade spec_profit_percent spec_profit spec_stop_loss_price
         book_exit_config five_percent_strategy falling_ticker thin_book flat_fee
         sell_order_id no_signal after_45_minutes sample_trade open_world)
  = inl IndexError
  /\ ((IndexError = ValueError /\ trade_is_open sample_trade = false
       /\ snd (handle_trade spec_profit_percent spec_profit spec_stop_loss_price
                 book_exit_config five_percent_strategy falling_ticker thin_book flat_fee
                 sell_order_id no_signal after_45_minutes sample_trade open_world)
          = open_world)
      \/ (IndexError = IndexError /\ trade_is_open sample_trade = true
          /\ exists a,
               cfg_ask_strategy book_exit_config = Some a
               /\ ask_use_book_order a = true)).
Proof.
  split; [reflexivity|].
  apply (X11_handle_trade_errors spec_profit_percent spec_profit spec_stop_loss_price
           book_exit_config five_percent_strategy falling_ticker thin_book flat_fee
           sell_order_id no_signal after_45_minutes sample_trade open_world IndexError).
  reflexivity.
Defined.

(** *** More on timed-out buy orders *)

(** X12: [handle_timedout_limit_buy] always answers; it cancels the
    order first and exactly once, whatever was filled, places no order,
    reads no clock, and leaves the rows of all other trades as they
    are. *)
Theorem X12_buy_timeout_effects (trade : Trade) (order : Order) (w : World) :
  (exists b, fst (handle_timedout_limit_buy trade order w) = inr b)
  /\ (exists rest,
         events (snd (handle_timedout_limit_buy trade order w)) =
         (events w ++ EvCancelOrder (trade_open_order_id trade) (trade_pair trade) :: rest)%list
         /\ forall e, In e rest -> e = EvFlush \/ exists m, e = EvSendMsg m)
  /\ clock (snd (handle_timedout_limit_buy trade order w)) = clock w
  /\ (forall j, j <> trade_id trade ->
        lookup_row j (session (snd (handle_timedout_limit_buy trade order w))) =
        lookup_row j (session w)).
Proof.
  unfold handle_timedout_limit_buy, save, bind, emit, modify, ret. cbv beta iota.
  destruct (Qeq_bool (order_remaining order) (order_amount order));
    cbn [fst snd session events clock].
  - split; [now exists true|]. split.
    + exists [EvFlush; EvSendMsg (MsgTimeoutUnfilledBuy (trade_pair trade))].
      split; [now rewrite <- !app_assoc|].
      intros e [<-|[<-|[]]]; [now left | right; eexists; reflexivity].
    + split; [reflexivity|]. intros j Hj. now apply lookup_row_delete_other.
  - split; [now exists false|]. split.
    + exists [EvSendMsg (MsgTimeoutRemainingBuy (trade_pair trade))].
      split; [now rewrite <- !app_assoc|].
      intros e [<-|[]]. right; eexists; reflexivity.
    + split; [reflexivity|]. intros j Hj. now apply lookup_row_replace_other.
Qed.

(** *** The whitelist refresh *)

Lemma py_in_In (x : string) (l : list string) : py_in x l = true <-> In x l.
Proof.
  unfold py_in. rewrite existsb_exists. split.
  - intros [y [Hy He]]. apply String.eqb_eq in He. now subst.
  - intro H. exists x. split; [exact H | apply String.eqb_refl].
Qed.

Lemma py_in_count (x : string) (l : list string) :
  py_in x l = (0 <? py_count x l)%nat.
Proof.
  unfold py_in, py_count. induction l as [|y l IH]; [reflexivity|].
  cbn [existsb filter]. destruct (String.eqb x y); [reflexivity | exact IH].
Qed.

Lemma py_in_set_add (x y : string) (s : list string) :
  py_in x (set_add y s) = String.eqb x y || py_in x s.
Proof.
  unfold set_add. destruct (py_in y s) eqn:Hy.
  - destruct (String.eqb x y) eqn:E; [|reflexivity].
    apply String.eqb_eq in E. subst. now rewrite Hy.
  - reflexivity.
Qed.

Lemma py_count_cons (p y : string) (l : list string) :
  py_count p (y :: l) = ((if String.eqb p y then 1 else 0) + py_count p l)%nat.
Proof. unfold py_count. cbn [filter]. now destruct (String.eqb p y). Qed.

Lemma kept_in_order_refl (l : list string) : kept_in_order l l.
Proof. induction l; [apply kept_nil | apply kept_keep; assumption]. Qed.

Lemma kept_in_order_trans (l1 l2 l3 : list string) :
  kept_in_order l1 l2 -> kept_in_order l2 l3 -> kept_in_order l1 l3.
Proof.
  intros H12 H23. revert l1 H12.
  induction H23 as [|x l2 l3 H IH|x l2 l3 H IH]; intros l1 H12.
  - exact H12.
  - constructor. now apply IH.
  - inversion H12; subst.
    + apply kept_skip. now apply IH.
    + apply kept_keep. now apply IH.
Qed.

Lemma kept_in_order_In (l1 l2 : list string) (p : string) :
  kept_in_order l1 l2 -> In p l1 -> In p l2.
Proof.
  induction 1 as [|x l1 l2 H IH|x l1 l2 H IH]; intro Hin.
  - exact Hin.
  - right. now apply IH.
  - destruct Hin as [->|Hin]; [now left | right; now apply IH].
Qed.

Lemma kept_in_order_filter (f : string -> bool) (l : list string) :
  kept_in_order (filter f l) l.
Proof.
  induction l as [|x l IH]; [constructor|].
  cbn [filter]. destruct (f x); [apply kept_keep | apply kept_skip]; exact IH.
Qed.

Lemma py_remove_present (x : string) (l : list string) :
  py_in x l = true ->
  exists l',
    py_remove x l = Some l'
    /\ kept_in_order l' l
    /\ forall p, py_count p l' =
                 if String.eqb p x then pred (py_count p l) else py_count p l.
Proof.
  induction l as [|y l IH]; [discriminate|].
  intro Hin. cbn [py_remove].
  destruct (String.eqb y x) eqn:E.
  - exists l. split; [reflexivity|]. split; [apply kept_skip; apply kept_in_order_refl|].
    intro p. rewrite py_count_cons. apply String.eqb_eq in E. subst y.
    now destruct (String.eqb p x).
  - unfold py_in in Hin. cbn [existsb] in Hin. rewrite String.eqb_sym, E in Hin.
    destruct (IH Hin) as [l' [Hr [Hk Hc]]]. rewrite Hr.
    exists (y :: l'). split; [reflexivity|]. split; [now apply kept_keep|].
    intro p. rewrite !py_count_cons, Hc.
    destruct (String.eqb p x) eqn:Epx; [|reflexivity].
    apply String.eqb_eq in Epx. subst p. rewrite String.eqb_sym, E.
    reflexivity.
Qed.

(** A sub-list in order of a list without repeats, holding each item
    according to [f], is the list filtered by [f]. *)
Lemma kept_in_order_filter_eq (f : string -> bool) (l' l : list string) :
  kept_in_order l' l ->
  NoDup l ->
  (forall p, py_count p l' = if f p then py_count p l else 0%nat) ->
  l' = filter f l.
Proof.
  induction 1 as [|x l1 l2 H IH|x l1 l2 H IH]; intros Hnd Hc.
  - reflexivity.
  - inversion Hnd as [|? ? Hx Hnd']; subst.
    assert (Hx1 : py_count x l1 = 0%nat).
    { destruct (py_count x l1) eqn:E; [reflexivity|].
      exfalso. apply Hx. apply (kept_in_order_In l1 l2 x H).
      apply py_in_In. rewrite py_in_count, E. reflexivity. }
    assert (Hfx : f x = false).
    { specialize (Hc x). rewrite Hx1, py_count_cons, String.eqb_refl in Hc.
      destruct (f x); [discriminate | reflexivity]. }
    cbn [filter]. rewrite Hfx. apply IH; [exact Hnd'|].
    intro p. specialize (Hc p). rewrite py_count_cons in Hc.
    destruct (String.eqb p x) eqn:E.
    + apply String.eqb_eq in E. subst p. rewrite Hx1, Hfx. reflexivity.
    + exact Hc.
  - inversion Hnd as [|? ? Hx Hnd']; subst.
    assert (Hx1 : py_count x l1 = 0%nat).
    { destruct (py_count x l1) eqn:E; [reflexivity|].
      exfalso. apply Hx. apply (kept_in_order_In l1 l2 x H).
      apply py_in_In. rewrite py_in_count, E. reflexivity. }
    assert (Hx2 : py_count x l2 = 0%nat).
    { destruct (py_count x l2) eqn:E; [reflexivity|].
      exfalso. apply Hx. apply py_in_In. rewrite py_in_count, E. reflexivity. }
    assert (Hfx : f x = true).
    { specialize (Hc x). rewrite !py_count_cons, String.eqb_refl in Hc.
      destruct (f x); [reflexivity | discriminate]. }
    cbn [filter]. rewrite Hfx. f_equal. apply IH; [exact Hnd'|].
    intro p. specialize (Hc p). rewrite !py_count_cons in Hc.
    destruct (String.eqb p x) eqn:E.
    + apply String.eqb_eq in E. subst p. rewrite Hx1, Hx2. now destruct (f x).
    + exact Hc.
Qed.

Lemma py_count_filter (f : string -> bool) (p : string) (l : list string) :
  py_count p (filter f l) = if f p then py_count p l else 0%nat.
Proof.
  induction l as [|y l IH].
  - now destruct (f p).
  - cbn [filter]. destruct (f y) eqn:Ey.
    + rewrite !py_count_cons, IH. destruct (String.eqb p y) eqn:E.
      * apply String.eqb_eq in E. subst. now rewrite Ey.
      * now destruct (f p).
    + rewrite py_count_cons, IH. destruct (String.eqb p y) eqn:E.
      * apply String.eqb_eq in E. subst. now rewrite Ey.
      * reflexivity.
Qed.

Lemma py_count_NoDup (p : string) (l : list string) :
  NoDup l -> (py_count p l <= 1)%nat.
Proof.
  induction 1 as [|x l Hx Hnd IH]; [cbn; lia|].
  rewrite py_count_cons. destruct (String.eqb p x) eqn:E; [|exact IH].
  apply String.eqb_eq in E. subst p.
  destruct (py_count x l) eqn:Ec; [lia|].
  exfalso. apply Hx. apply py_in_In. rewrite py_in_count, Ec. reflexivity.
Qed.

Section WhitelistRefresh.

Variable stake : string.
Variable blacklist : list string.
Variable markets : list Market.

(** What the loop leaves in the list object and in [known_pairs]. *)
Lemma refresh_loop_outcome (ms : list Market) :
  forall (known wl : list string),
  exists known' wl',
    refresh_loop blacklist ms known wl = (inr known', wl')
    /\ kept_in_order wl' wl
    /\ (forall p, py_count p wl' =
                  if py_in p blacklist then py_count p wl
                  else (py_count p wl - inactive_in p ms)%nat)
    /\ (forall p, py_in p known' =
                  py_in p known
                  || (negb (py_in p blacklist) && py_in p wl
                      && existsb (fun m => String.eqb (market_symbol m) p) ms)).
Proof.
  induction ms as [|m ms IH]; intros known wl.
  - exists known, wl. split; [reflexivity|]. split; [apply kept_in_order_refl|].
    split.
    + intro p. unfold inactive_in. cbn [filter List.length].
      rewrite Nat.sub_0_r. now destruct (py_in p blacklist).
    + intro p. cbn [existsb]. now rewrite andb_false_r, orb_false_r.
  - cbn [refresh_loop]. unfold bind at 1. unfold get at 1. cbv beta iota.
    destruct (py_in (market_symbol m) wl) eqn:Hw;
      [destruct (py_in (market_symbol m) blacklist) eqn:Hb|]; cbn [negb orb].
    + (* blacklisted *)
      destruct (IH known wl) as [k' [wl' [Hrun [Hk [Hc Hkn]]]]].
      exists k', wl'. split; [exact Hrun|]. split; [exact Hk|]. split.
      * intro p. rewrite Hc. destruct (py_in p blacklist) eqn:Hp; [reflexivity|].
        unfold inactive_in. cbn [filter].
        destruct (String.eqb (market_symbol m) p) eqn:E; [|reflexivity].
        apply String.eqb_eq in E. subst p. congruence.
      * intro p. rewrite Hkn. cbn [existsb].
        destruct (String.eqb (market_symbol m) p) eqn:E; [|reflexivity].
        apply String.eqb_eq in E. subst p. rewrite Hb. reflexivity.
    + (* a pair of the list that is not blacklisted *)
      destruct (market_active m) eqn:Ha; cbn [negb].
      * unfold bind at 1. unfold ret at 1. cbv beta iota.
        destruct (IH (set_add (market_symbol m) known) wl)
          as [k' [wl' [Hrun [Hk [Hc Hkn]]]]].
        exists k', wl'. split; [exact Hrun|]. split; [exact Hk|]. split.
        -- intro p. rewrite Hc. destruct (py_in p blacklist); [reflexivity|].
           unfold inactive_in. cbn [filter]. rewrite Ha. cbn [negb].
           now rewrite andb_false_r.
        -- intro p. rewrite Hkn, py_in_set_add. cbn [existsb].
           rewrite (String.eqb_sym (market_symbol m) p).
           destruct (String.eqb p (market_symbol m)) eqn:E; [|reflexivity].
           apply String.eqb_eq in E. subst p. rewrite Hb, Hw.
           now destruct (py_in (market_symbol m) known).
      * unfold bind at 1. unfold list_remove at 1.
        destruct (py_remove_present (market_symbol m) wl Hw) as [wl1 [Hr [Hk1 Hc1]]].
        rewrite Hr. cbv beta iota.
        destruct (IH (set_add (market_symbol m) known) wl1)
          as [k' [wl' [Hrun [Hk [Hc Hkn]]]]].
        exists k', wl'. split; [exact Hrun|].
        split; [exact (kept_in_order_trans _ _ _ Hk Hk1)|]. split.
        -- intro p. rewrite Hc, Hc1. destruct (py_in p blacklist) eqn:Hp.
           ++ destruct (String.eqb p (market_symbol m)) eqn:E; [|reflexivity].
              apply String.eqb_eq in E. subst p. congruence.
           ++ unfold inactive_in. cbn [filter]. rewrite Ha. cbn [negb].
              rewrite andb_true_r, (String.eqb_sym (market_symbol m) p).
              destruct (String.eqb p (market_symbol m)); cbn [List.length]; lia.
        -- intro p. rewrite Hkn, py_in_set_add. cbn [existsb].
           rewrite (String.eqb_sym (market_symbol m) p).
           destruct (String.eqb p (market_symbol m)) eqn:E.
           ++ apply String.eqb_eq in E. subst p. rewrite Hb, Hw.
              now destruct (py_in (market_symbol m) known).
           ++ cbn [orb]. rewrite !py_in_count, Hc1, E. reflexivity.
    + (* not in the list *)
      destruct (IH known wl) as [k' [wl' [Hrun [Hk [Hc Hkn]]]]].
      exists k', wl'. split; [exact Hrun|]. split; [exact Hk|]. split.
      * intro p. rewrite Hc. destruct (py_in p blacklist) eqn:Hp; [reflexivity|].
        unfold inactive_in. cbn [filter].
        destruct (String.eqb (market_symbol m) p) eqn:E; [|reflexivity].
        apply String.eqb_eq in E. subst p. cbn [andb].
        rewrite py_in_count in Hw.
        destruct (py_count (market_symbol m) wl); [|discriminate].
        now destruct (negb (market_active m)).
      * intro p. rewrite Hkn. cbn [existsb].
        destruct (String.eqb (market_symbol m) p) eqn:E; [|reflexivity].
        apply String.eqb_eq in E. subst p. rewrite Hw.
        now rewrite andb_false_r.
Qed.

End WhitelistRefresh.

Lemma filter_filter_agree (f g h : string -> bool) (l : list string) :
  (forall x, In x l -> g x && f x = h x) ->
  filter f (filter g l) = filter h l.
Proof.
  induction l as [|y l IH]; intro H; [reflexivity|].
  cbn [filter]. rewrite <- (H y (or_introl eq_refl)).
  assert (IH' := IH (fun x Hx => H x (or_intror Hx))).
  destruct (g y); cbn [andb filter]; [|exact IH'].
  destruct (f y); [f_equal|]; exact IH'.
Qed.

Section WhitelistResult.

Variable stake : string.
Variable blacklist : list string.
Variable markets : list Market.

Lemma inactive_in_stake (p : string) :
  inactive_in p (filter (fun m => String.eqb (market_quote m) stake) markets)
  = List.length (inactive_markets stake markets p).
Proof.
  unfold inactive_in, inactive_markets, stake_markets.
  induction markets as [|m ms IH]; [reflexivity|].
  cbn [filter]. destruct (String.eqb (market_quote m) stake); cbn [andb filter].
  - destruct (String.eqb (market_symbol m) p); cbn [andb filter].
    + destruct (negb (market_active m)); cbn [List.length]; now rewrite IH.
    + exact IH.
  - exact IH.
Qed.

Lemma has_stake_market_exists (p : string) :
  existsb (fun m => String.eqb (market_symbol m) p)
    (filter (fun m => String.eqb (market_quote m) stake) markets)
  = has_stake_market stake markets p.
Proof.
  unfold has_stake_market, stake_markets.
  induction markets as [|m ms IH]; [reflexivity|].
  cbn [filter]. destruct (String.eqb (market_quote m) stake); cbn [andb existsb].
  - destruct (String.eqb (market_symbol m) p); [reflexivity | exact IH].
  - exact IH.
Qed.

Lemma has_stake_market_In (p : string) :
  has_stake_market stake markets p = true ->
  exists m, In m markets /\ market_symbol m = p /\ market_quote m = stake.
Proof.
  unfold has_stake_market. destruct (stake_markets stake markets p) as [|m l] eqn:E;
    [discriminate|]. intros _.
  assert (Hin : In m (stake_markets stake markets p)) by (rewrite E; now left).
  unfold stake_markets in Hin. apply filter_In in Hin. destruct Hin as [Hin Hb].
  apply andb_true_iff in Hb. destruct Hb as [Hq Hs].
  apply String.eqb_eq in Hq. apply String.eqb_eq in Hs. now exists m.
Qed.

(** What [_refresh_whitelist] returns and leaves behind. *)
Lemma refresh_whitelist_outcome (wl : list string) :
  exists known wl',
    _refresh_whitelist stake blacklist markets wl
    = (inr (filter (fun x => py_in x known) wl'), wl')
    /\ kept_in_order wl' wl
    /\ (forall p, py_count p wl' =
                  if py_in p blacklist then py_count p wl
                  else (py_count p wl
                        - List.length (inactive_markets stake markets p))%nat)
    /\ (forall p, py_in p known =
                  negb (py_in p blacklist) && py_in p wl
                  && has_stake_market stake markets p).
Proof.
  unfold _refresh_whitelist, bind, get, ret.
  destruct (refresh_loop_outcome blacklist
              (filter (fun m => String.eqb (market_quote m) stake) markets) [] wl)
    as [known [wl' [Hrun [Hk [Hc Hkn]]]]].
  rewrite Hrun. exists known, wl'. split; [reflexivity|]. split; [exact Hk|]. split.
  - intro p. rewrite Hc, inactive_in_stake. reflexivity.
  - intro p. rewrite Hkn, has_stake_market_exists. reflexivity.
Qed.

(** X14: [_refresh_whitelist] never raises (the [remove] always finds
    its pair).  The list it returns and the list it leaves to the caller
    are the list passed in with some pairs left out, the others in their
    order; a pair it returns is not blacklisted and has a market quoted
    in the stake currency. *)
Theorem X14_refresh_whitelist_safe (wl : list string) :
  exists final wl',
    _refresh_whitelist stake blacklist markets wl = (inr final, wl')
    /\ kept_in_order final wl'
    /\ kept_in_order wl' wl
    /\ forall p, In p final ->
         In p wl
         /\ ~ In p blacklist
         /\ exists m, In m markets /\ market_symbol m = p /\ market_quote m = stake.
Proof.
  destruct (refresh_whitelist_outcome wl) as [known [wl' [Hrun [Hk [_ Hkn]]]]].
  exists (filter (fun x => py_in x known) wl'), wl'.
  split; [exact Hrun|]. split; [apply kept_in_order_filter|]. split; [exact Hk|].
  intros p Hin. apply filter_In in Hin. destruct Hin as [Hin Hp].
  rewrite Hkn in Hp. apply andb_true_iff in Hp. destruct Hp as [Hp Hm].
  apply andb_true_iff in Hp. destruct Hp as [Hb Hw].
  split; [now apply py_in_In|]. split.
  - intro Hbl. apply py_in_In in Hbl. rewrite Hbl in Hb. discriminate.
  - now apply has_stake_market_In.
Qed.

(** X15: how often a pair occurs afterwards.  In the list passed in, a
    blacklisted pair keeps its occurrences and any other pair loses one
    per inactive market of it quoted in the stake currency.  In the list
    returned, a pair that is not blacklisted and has such a market occurs
    as often as it is left in the list passed in, any other pair not at
    all; so a pair listed twice survives one inactive market. *)
Theorem X15_refresh_whitelist_counts (wl : list string) (p : string) :
  py_count p (snd (_refresh_whitelist stake blacklist markets wl))
  = (if py_in p blacklist then py_count p wl
     else (py_count p wl - List.length (inactive_markets stake markets p))%nat)
  /\ exists final,
       fst (_refresh_whitelist stake blacklist markets wl) = inr final
       /\ py_count p final
          = if negb (py_in p blacklist) && has_stake_market stake markets p
            then (py_count p wl - List.length (inactive_markets stake markets p))%nat
            else 0%nat.
Proof.
  destruct (refresh_whitelist_outcome wl) as [known [wl' [Hrun [_ [Hc Hkn]]]]].
  rewrite Hrun. cbn [fst snd]. split; [apply Hc|].
  eexists. split; [reflexivity|].
  rewrite py_count_filter, Hkn, Hc, (py_in_count p wl).
  destruct (py_in p blacklist); cbn [negb andb]; [reflexivity|].
  destruct (py_count p wl) eqn:E; cbn [Nat.ltb Nat.leb andb].
  - now destruct (has_stake_market stake markets p).
  - reflexivity.
Qed.

(** On a whitelist without repeats: what is left in the list passed
    in, and what comes back. *)
Lemma refresh_whitelist_left (wl : list string) :
  NoDup wl ->
  snd (_refresh_whitelist stake blacklist markets wl)
  = filter (retained stake blacklist markets) wl.
Proof.
  intro Hnd.
  destruct (refresh_whitelist_outcome wl) as [known [wl' [Hrun [Hk [Hc _]]]]].
  rewrite Hrun. cbn [snd].
  apply kept_in_order_filter_eq; [exact Hk | exact Hnd|].
  intro p. rewrite Hc. unfold retained.
  destruct (py_in p blacklist); cbn [orb]; [reflexivity|].
  assert (H1 := py_count_NoDup p wl Hnd).
  destruct (List.length (inactive_markets stake markets p)); cbn [Nat.eqb]; lia.
Qed.

Lemma refresh_whitelist_returned (wl : list string) :
  NoDup wl ->
  fst (_refresh_whitelist stake blacklist markets wl)
  = inr (filter (tradable stake blacklist markets) wl).
Proof.
  intro Hnd. assert (Hleft := refresh_whitelist_left wl Hnd).
  destruct (refresh_whitelist_outcome wl) as [known [wl' [Hrun [_ [_ Hkn]]]]].
  rewrite Hrun in Hleft |- *. cbn [fst snd] in Hleft |- *. subst wl'. f_equal.
  apply filter_filter_agree. intros x Hx.
  apply py_in_In in Hx. rewrite Hkn, Hx. unfold retained, tradable.
  destruct (py_in x blacklist), (has_stake_market stake markets x),
    (List.length (inactive_markets stake markets x) =? 0)%nat; reflexivity.
Qed.

(** X16: on a whitelist without repeats [_refresh_whitelist] returns
    exactly the pairs that are not blacklisted, have a market quoted in
    the stake currency and have no inactive one, in the order of the
    whitelist; and the list passed in has lost the pairs with an
    inactive market that are not blacklisted, and only those. *)
Theorem X16_refresh_whitelist_no_repeats (wl : list string) :
  NoDup wl ->
  _refresh_whitelist stake blacklist markets wl
  = (inr (filter (tradable stake blacklist markets) wl),
     filter (retained stake blacklist markets) wl).
Proof.
  intro Hnd.
  rewrite (surjective_pairing (_refresh_whitelist stake blacklist markets wl)).
  rewrite (refresh_whitelist_returned wl Hnd), (refresh_whitelist_left wl Hnd).
  reflexivity.
Qed.

(** X27: refreshing a refreshed list changes nothing.  For a whitelist
    without repeats and markets that stay as they are, the list
    [_refresh_whitelist] returned comes back unchanged when it is passed
    in again, and is itself left as it is. *)
Theorem X27_refresh_whitelist_idempotent (wl final : list string) :
  NoDup wl ->
  fst (_refresh_whitelist stake blacklist markets wl) = inr final ->
  _refresh_whitelist stake blacklist markets final = (inr final, final).
Proof.
  intros Hnd Hrun. rewrite (refresh_whitelist_returned wl Hnd) in Hrun.
  inversion Hrun as [Hf]. clear Hrun.
  assert (Hnd' : NoDup (filter (tradable stake blacklist markets) wl))
    by exact (NoDup_filter _ Hnd).
  rewrite (surjective_pairing
             (_refresh_whitelist stake blacklist markets
                (filter (tradable stake blacklist markets) wl))).
  rewrite (refresh_whitelist_returned _ Hnd'), (refresh_whitelist_left _ Hnd').
  assert (Hsame : forall f : string -> bool,
            (forall x, tradable stake blacklist markets x = true -> f x = true) ->
            filter f (filter (tradable stake blacklist markets) wl)
            = filter (tradable stake blacklist markets) wl).
  { intros f Hf'. apply filter_filter_agree. intros x _.
    destruct (tradable stake blacklist markets x) eqn:E; [|reflexivity].
    now rewrite (Hf' x E). }
  rewrite (Hsame (tradable stake blacklist markets) (fun x H => H)).
  rewrite (Hsame (retained stake blacklist markets)); [reflexivity|].
  intros x Hx. unfold tradable in Hx. unfold retained.
  apply andb_true_iff in Hx. destruct Hx as [_ Hx]. rewrite Hx.
  apply orb_true_r.
Qed.

End WhitelistResult.

Lemma X16_refresh_whitelist_no_repeats_witness :
  _refresh_whitelist "BTC" ["XRP/BTC"%string] sample_markets sample_whitelist
  = (inr ["ETH/BTC"%string], ["ETH/BTC"; "XRP/BTC"; "DOGE/BTC"]%string).
Proof.
  rewrite (X16_refresh_whitelist_no_repeats "BTC" ["XRP/BTC"%string] sample_markets
             sample_whitelist).
  - reflexivity.
  - repeat constructor; cbn; intuition discriminate.
Defined.

(** *** The generated whitelist *)

Lemma insert_reverse_perm (key : TickerInfo -> Q) (t : TickerInfo) (l : list TickerInfo) :
  Permutation (insert_reverse key t l) (t :: l).
Proof.
  induction l as [|u l IH]; [apply Permutation_refl|].
  cbn [insert_reverse]. destruct (Qltb (key t) (key u)).
  - apply perm_trans with (u :: t :: l); [now apply perm_skip | apply perm_swap].
  - apply Permutation_refl.
Qed.

Lemma py_sorted_reverse_perm (key : TickerInfo -> Q) (l : list TickerInfo) :
  Permutation (py_sorted_reverse key l) l.
Proof.
  induction l as [|t l IH]; [apply perm_nil|].
  cbn [py_sorted_reverse fold_right]. fold (py_sorted_reverse key l).
  apply perm_trans with (t :: py_sorted_reverse key l);
    [apply insert_reverse_perm | now apply perm_skip].
Qed.

Lemma insert_reverse_sorted (key : TickerInfo -> Q) (t : TickerInfo) (l : list TickerInfo) :
  StronglySorted (fun a b => key b <= key a) l ->
  StronglySorted (fun a b => key b <= key a) (insert_reverse key t l).
Proof.
  induction 1 as [|u l Hs IH Hall].
  - cbn. constructor; constructor.
  - cbn [insert_reverse]. destruct (Qltb (key t) (key u)) eqn:E.
    + constructor; [exact IH|].
      apply (Permutation_Forall (Permutation_sym (insert_reverse_perm key t l))).
      constructor; [|exact Hall].
      apply Qltb_lt in E. now apply Qlt_le_weak.
    + assert (Hut : key u <= key t).
      { apply Qnot_lt_le. intro Hlt. apply Qltb_lt in Hlt. congruence. }
      constructor; [now constructor|].
      constructor; [exact Hut|].
      apply (Forall_impl _ (P := fun b => key b <= key u)); [|exact Hall].
      intros b Hb. now apply Qle_trans with (key u).
Qed.

Lemma py_sorted_reverse_sorted (key : TickerInfo -> Q) (l : list TickerInfo) :
  StronglySorted (fun a b => key b <= key a) (py_sorted_reverse key l).
Proof.
  induction l as [|t l IH]; [constructor|].
  cbn [py_sorted_reverse fold_right]. now apply insert_reverse_sorted.
Qed.

Lemma insert_reverse_stable (key : TickerInfo -> Q) (v : Q) (t : TickerInfo)
    (l : list TickerInfo) :
  filter (fun u => Qeq_bool (key u) v) (insert_reverse key t l)
  = filter (fun u => Qeq_bool (key u) v) (t :: l).
Proof.
  induction l as [|u l IH]; [reflexivity|].
  cbn [insert_reverse]. destruct (Qltb (key t) (key u)) eqn:E; [|reflexivity].
  cbn [filter]. cbn [filter] in IH. rewrite IH.
  destruct (Qeq_bool (key t) v) eqn:Et; [|reflexivity].
  destruct (Qeq_bool (key u) v) eqn:Eu; [|reflexivity].
  exfalso. apply Qltb_lt in E. apply Qeq_bool_iff in Et. apply Qeq_bool_iff in Eu.
  rewrite Et, Eu in E. exact (Qlt_irrefl _ E).
Qed.

Lemma py_sorted_reverse_stable (key : TickerInfo -> Q) (v : Q) (l : list TickerInfo) :
  filter (fun u => Qeq_bool (key u) v) (py_sorted_reverse key l)
  = filter (fun u => Qeq_bool (key u) v) l.
Proof.
  induction l as [|t l IH]; [reflexivity|].
  cbn [py_sorted_reverse fold_right]. fold (py_sorted_reverse key l).
  rewrite insert_reverse_stable. cbn [filter]. now rewrite IH.
Qed.

(** X17: without [fetchTickers] on the exchange [_gen_pair_whitelist]
    raises OperationalException.  Otherwise it returns the symbols of
    exactly the tickers whose dict key passes the base-currency test,
    each once per ticker, by volume from high to low, tickers of equal
    volume in the order of the dict. *)
Theorem X17_gen_pair_whitelist_sorted
    (has : bool) (tickers : list (string * TickerInfo)) (base : string)
    (key : TickerInfo -> Q) :
  (has = false ->
   _gen_pair_whitelist has tickers base key = inl OperationalException)
  /\ (has = true ->
      exists sorted_tickers,
        _gen_pair_whitelist has tickers base key = inr (map tick_symbol sorted_tickers)
        /\ Permutation sorted_tickers
             (map snd (filter (fun kv => quoted_in base (fst kv)) tickers))
        /\ StronglySorted (fun a b => key b <= key a) sorted_tickers
        /\ forall v,
             filter (fun u => Qeq_bool (key u) v) sorted_tickers
             = filter (fun u => Qeq_bool (key u) v)
                 (map snd (filter (fun kv => quoted_in base (fst kv)) tickers))).
Proof.
  split; intro H; unfold _gen_pair_whitelist; rewrite H; cbn [negb].
  - reflexivity.
  - eexists. split; [reflexivity|].
    split; [apply py_sorted_reverse_perm|].
    split; [apply py_sorted_reverse_sorted|].
    intro v. apply py_sorted_reverse_stable.
Qed.

Lemma X17_gen_pair_whitelist_sorted_witness :
  exists sorted_tickers,
    _gen_pair_whitelist true sample_tickers "BTC" tick_quoteVolume
    = inr (map tick_symbol sorted_tickers)
    /\ Permutation sorted_tickers
         (map snd (filter (fun kv => quoted_in "BTC" (fst kv)) sample_tickers))
    /\ StronglySorted (fun a b => tick_quoteVolume b <= tick_quoteVolume a)
         sorted_tickers
    /\ forall v,
         filter (fun u => Qeq_bool (tick_quoteVolume u) v) sorted_tickers
         = filter (fun u => Qeq_bool (tick_quoteVolume u) v)
             (map snd (filter (fun kv => quoted_in "BTC" (fst kv)) sample_tickers)).
Proof.
  exact (proj2 (X17_gen_pair_whitelist_sorted true sample_tickers "BTC"
                  tick_quoteVolume) eq_refl).
Defined.

Lemma py_split_cases (c : ascii) (s : string) :
  (has_char c s = false /\ py_split c s = [s])
  \/ (exists a r, s = (a ++ String c r)%string
                  /\ has_char c a = false
                  /\ py_split c s = a :: py_split c r).
Proof.
  induction s as [|d rest IH]; [left; now split|].
  cbn [py_split has_char]. destruct (Ascii.eqb d c) eqn:E.
  - right. exists EmptyString, rest. apply Ascii.eqb_eq in E. subst d.
    repeat split; reflexivity.
  - destruct IH as [[Hn Hs]|[a [r [Hs [Hn Hsp]]]]].
    + left. rewrite Hs. now split.
    + right. exists (String d a), r. rewrite Hsp. subst rest.
      cbn [has_char String.append]. rewrite E, Hn. repeat split; reflexivity.
Qed.

Lemma py_split_plain (c : ascii) (s : string) :
  has_char c s = false -> py_split c s = [s].
Proof.
  induction s as [|d rest IH]; [reflexivity|].
  cbn [py_split has_char]. intro H. apply orb_false_iff in H. destruct H as [E Hn].
  rewrite E, (IH Hn). reflexivity.
Qed.

Lemma py_split_app (c : ascii) (a r : string) :
  has_char c a = false ->
  py_split c (a ++ String c r) = a :: py_split c r.
Proof.
  induction a as [|d a IH]; intro H.
  - cbn [String.append py_split]. now rewrite Ascii.eqb_refl.
  - cbn [has_char] in H. apply orb_false_iff in H. destruct H as [E Hn].
    cbn [String.append py_split]. rewrite E, (IH Hn). reflexivity.
Qed.

(** X18: the test [_gen_pair_whitelist] puts on a ticker's key holds
    exactly for the keys made of a part without a slash, one slash and
    the base currency; no key passes it when the base currency itself
    holds a slash. *)
Theorem X18_quoted_in_shape (base k : string) :
  quoted_in base k = true
  <-> exists b, k = (b ++ "/" ++ base)%string
                /\ has_char "/" b = false
                /\ has_char "/" base = false.
Proof.
  unfold quoted_in. split.
  - intro H. apply andb_true_iff in H. destruct H as [Hlen Hq].
    apply Nat.eqb_eq in Hlen.
    destruct (py_split_cases "/" k) as [[_ Hs]|[a [r [Hk [Ha Hs]]]]];
      rewrite Hs in Hlen, Hq; [discriminate|].
    destruct (py_split_cases "/" r) as [[Hr Hsr]|[a' [r' [_ [_ Hsr]]]]];
      rewrite Hsr in Hlen, Hq.
    + cbn [nth_error] in Hq. apply String.eqb_eq in Hq. subst r.
      exists a. repeat split; assumption.
    + exfalso. cbn [List.length] in Hlen.
      destruct (py_split_cases "/" r') as [[_ E]|[? [? [_ [_ E]]]]];
        rewrite E in Hlen; discriminate.
  - intros [b [Hk [Hb Hbase]]]. subst k.
    change ("/" ++ base)%string with (String "/" base).
    rewrite (py_split_app "/" b base Hb), (py_split_plain "/" base Hbase).
    cbn [List.length nth_error Nat.eqb andb]. apply String.eqb_refl.
Qed.

(** *** A round over one open trade *)

Section RoundOutcome.

Variable cpp : Trade -> Q -> Q.
Variable cp : Trade -> option Q -> Q.
Variable slp : Q -> option Q -> Q.
Variable cfg : Config.
Variable strat : Strategy.
Variable get_ticker : string -> Ticker.
Variable get_order_book : string -> Z -> OrderBook.
Variable get_fee : string -> Q.
Variable gtfo : option string -> string -> Q -> list ExecTrade.
Variable exchange_sell : string -> Q -> Q -> string.
Variable get_signal : string -> string -> bool * bool.
Variable utcnow_at : nat -> Q.
Variable get_order : option string -> string -> Order.
Variable trade_update : Trade -> Order -> Trade.

(** The end of the round: the trade is handled if it is open and has
    no order left, under the handler of DependencyException. *)
Lemma round_tail_outcome (t1 : Trade) (w1 : World) :
  exists pre res w',
    (let (s0, s') :=
       (if trade_is_open t1 && is_none (trade_open_order_id t1)
        then handle_trade cpp cp slp cfg strat get_ticker get_order_book get_fee
               exchange_sell get_signal utcnow_at t1
        else fun s : World => (inr false, s)) w1 in
     match s0 with
     | inl e => if exn_eqb e DependencyException then (inr false, s') else (inl e, s')
     | inr a => (inr a, s')
     end) = (res, w')
    /\ forallb is_query pre = true
    /\ (forall j, j <> trade_id t1 ->
          lookup_row j (session w') = lookup_row j (session w1))
    /\ (forall e, res = inl e ->
          e = IndexError
          /\ exists a, cfg_ask_strategy cfg = Some a /\ ask_use_book_order a = true)
    /\ ((exists r0,
           res = inr true
           /\ trade_is_open t1 = true
           /\ trade_open_order_id t1 = None
           /\ events w' = (events w1 ++ pre ++ sale_events t1 r0)%list)
        \/ (res <> inr true /\ events w' = (events w1 ++ pre)%list
            /\ (trade_is_open t1 && is_none (trade_open_order_id t1) = false ->
                res = inr false /\ pre = []))).
Proof.
  destruct (trade_is_open t1 && is_none (trade_open_order_id t1)) eqn:Hc.
  - apply andb_true_iff in Hc. destruct Hc as [Hopen Hnone].
    assert (Hid : trade_open_order_id t1 = None)
      by (destruct (trade_open_order_id t1); [discriminate | reflexivity]).
    destruct (handle_trade_outcome cpp cp slp cfg strat get_ticker get_order_book
                get_fee exchange_sell get_signal utcnow_at t1 w1)
      as [[Hcl _]|[_ [pre [t' [res [w' [Hrun [Hq [_ [Hrows [Hix Hcases]]]]]]]]]]];
      [congruence|].
    rewrite Hrun.
    destruct Hcases as [[r0 [Hres [Hev _]]]|[Hres [Hev _]]].
    + subst res. exists pre, (inr true), w'. split; [reflexivity|].
      split; [exact Hq|]. split; [exact Hrows|]. split; [discriminate|].
      left. exists r0. repeat split; assumption.
    + destruct Hres as [Hres|Hres]; subst res.
      * exists pre, (inr false), w'. split; [reflexivity|].
        split; [exact Hq|]. split; [exact Hrows|]. split; [discriminate|].
        right. split; [discriminate|]. split; [exact Hev | discriminate].
      * exists pre, (inl IndexError), w'. split; [reflexivity|].
        split; [exact Hq|]. split; [exact Hrows|].
        split; [intros e He; inversion He; subst; split; [reflexivity | now apply Hix]|].
        right. split; [discriminate|]. split; [exact Hev | discriminate].
  - exists [], (inr false), w1. split; [reflexivity|]. split; [reflexivity|].
    split; [reflexivity|]. split; [discriminate|].
    right. split; [discriminate|]. split; [now rewrite app_nil_r | now split].
Qed.

(** Everything [process_maybe_execute_sell] can end in: an error of
    [get_real_amount] other than OperationalException, which no handler
    of the round catches, or the round over the trade as booked. *)
Lemma process_sell_outcome (trade : Trade) (w : World) :
  let asked := EvGetTradesForOrder (trade_open_order_id trade) (trade_pair trade)
                 (trade_open_date trade) in
  exists pre res w',
    process_maybe_execute_sell cpp cp slp cfg strat get_ticker get_order_book get_fee
      gtfo exchange_sell get_signal utcnow_at get_order trade_update trade w
    = (res, w')
    /\ forallb is_query pre = true
    /\ ((forall t o, trade_id (trade_update t o) = trade_id t) ->
        forall j, j <> trade_id trade ->
          lookup_row j (session w') = lookup_row j (session w))
    /\ ((exists e,
           res = inl e
           /\ (e = AttributeError \/ e = TypeError)
           /\ py_truthy (trade_open_order_id trade) = true
           /\ fst (get_real_amount gtfo trade
                     (get_order (trade_open_order_id trade) (trade_pair trade)) w)
              = inl e
           /\ events w' = (events w ++ pre)%list
           /\ forall ev, In ev pre -> ev = asked)
        \/ exists t1,
             booked get_order trade_update trade t1
             /\ (forall e, res = inl e ->
                   e = IndexError
                   /\ exists a, cfg_ask_strategy cfg = Some a /\ ask_use_book_order a = true)
             /\ ((exists r0,
                    res = inr true
                    /\ trade_is_open t1 = true
                    /\ trade_open_order_id t1 = None
                    /\ events w' = (events w ++ pre ++ sale_events t1 r0)%list)
                 \/ (res <> inr true /\ events w' = (events w ++ pre)%list
                     /\ (trade_is_open t1 && is_none (trade_open_order_id t1) = false ->
                         res = inr false
                         /\ forall ev, In ev pre -> ev = asked)))).
Proof.
  intro asked.
  assert (Hfin :
    forall (t1 : Trade) (w1 : World) (pre0 : list event),
      events w1 = (events w ++ pre0)%list ->
      (pre0 = [] \/ pre0 = [asked]) ->
      booked get_order trade_update trade t1 ->
      ((forall t o, trade_id (trade_update t o) = trade_id t) ->
       trade_id t1 = trade_id trade
       /\ forall j, j <> trade_id trade ->
            lookup_row j (session w1) = lookup_row j (session w)) ->
      exists pre res w',
        (let (s0, s') :=
           (if trade_is_open t1 && is_none (trade_open_order_id t1)
            then handle_trade cpp cp slp cfg strat get_ticker get_order_book get_fee
                   exchange_sell get_signal utcnow_at t1
            else fun s : World => (inr false, s)) w1 in
         match s0 with
         | inl e => if exn_eqb e DependencyException then (inr false, s') else (inl e, s')
         | inr a => (inr a, s')
         end) = (res, w')
        /\ forallb is_query pre = true
        /\ ((forall t o, trade_id (trade_update t o) = trade_id t) ->
            forall j, j <> trade_id trade ->
              lookup_row j (session w') = lookup_row j (session w))
        /\ exists t1',
             booked get_order trade_update trade t1'
             /\ (forall e, res = inl e ->
                   e = IndexError
                   /\ exists a, cfg_ask_strategy cfg = Some a /\ ask_use_book_order a = true)
             /\ ((exists r0,
                    res = inr true
                    /\ trade_is_open t1' = true
                    /\ trade_open_order_id t1' = None
                    /\ events w' = (events w ++ pre ++ sale_events t1' r0)%list)
                 \/ (res <> inr true /\ events w' = (events w ++ pre)%list
                     /\ (trade_is_open t1' && is_none (trade_open_order_id t1') = false ->
                         res = inr false
                         /\ forall ev, In ev pre -> ev = asked)))).
  { intros t1 w1 pre0 Hev0 Hpre0 Ht1 Hrows0.
    destruct (round_tail_outcome t1 w1)
      as [pre1 [res [w' [Hrun [Hq [Hrows1 [Herr Hcases]]]]]]].
    exists (pre0 ++ pre1)%list, res, w'. split; [exact Hrun|].
    split.
    { rewrite forallb_app, Hq. destruct Hpre0 as [-> | ->]; reflexivity. }
    split.
    { intros Hidp j Hj. destruct (Hrows0 Hidp) as [Hid Hr0].
      rewrite Hrows1; [now apply Hr0 | now rewrite Hid]. }
    exists t1. split; [exact Ht1|]. split; [exact Herr|].
    destruct Hcases as [[r0 [Hres [Ho [Hn Hev]]]]|[Hres [Hev Hskip]]].
    - left. exists r0. repeat split; try assumption.
      now rewrite Hev, Hev0, <- !app_assoc.
    - right. split; [exact Hres|]. split; [now rewrite Hev, Hev0, <- app_assoc|].
      intro Hc. destruct (Hskip Hc) as [Hr Hp]. split; [exact Hr|].
      subst pre1. rewrite app_nil_r. intros e He.
      destruct Hpre0 as [-> | ->]; [destruct He|].
      destruct He as [<-|[]]. reflexivity. }
  cbv beta iota zeta
      delta [process_maybe_execute_sell try_except bind ret save modify].
  unfold booked in Hfin |- *.
  destruct (py_truthy (trade_open_order_id trade)) eqn:Ht.
  - destruct (get_real_amount_outcome gtfo trade
                (get_order (trade_open_order_id trade) (trade_pair trade)) w)
      as [res0 [pre0 [Hrun [Hpre0 He0]]]].
    assert (Hpre : pre0 = [] \/ pre0 = [asked]).
    { destruct Hpre0 as [->|[-> _]]; [now left | now right]. }
    rewrite Hrun.
    destruct res0 as [e|a].
    + destruct (He0 e eq_refl) as [[-> _]|Hescape].
      * cbv beta iota delta [exn_eqb fst snd].
        destruct (Hfin (trade_update trade
                          (get_order (trade_open_order_id trade) (trade_pair trade)))
                    (mkWorld
                       (replace_row
                          (trade_update trade
                             (get_order (trade_open_order_id trade) (trade_pair trade)))
                          (session w))
                       (events w ++ pre0) (clock w))
                    pre0 eq_refl Hpre)
          as [pre [res [w' [Hr [Hq [Hrows Hrest]]]]]].
        -- now left.
        -- intro Hidp. split; [apply Hidp|]. intros j Hj. cbn [session].
           apply lookup_row_replace_other. now rewrite Hidp.
        -- exists pre, res, w'. split; [exact Hr|]. split; [exact Hq|].
           split; [exact Hrows|]. right. exact Hrest.
      * assert (Hkind : e = AttributeError \/ e = TypeError).
        { destruct Hescape as [[-> _]|[-> _]]; [now left | now right]. }
        exists pre0, (inl e), (mkWorld (session w) (events w ++ pre0) (clock w)).
        split.
        { destruct Hkind as [-> | ->]; reflexivity. }
        split.
        { destruct Hpre as [-> | ->]; reflexivity. }
        split; [intros _ j _; reflexivity|].
        left. exists e. split; [reflexivity|]. split; [exact Hkind|].
        split; [reflexivity|]. split; [reflexivity|]. split; [reflexivity|].
        intros ev Hin. destruct Hpre as [-> | ->]; [destruct Hin|].
        destruct Hin as [<-|[]]. reflexivity.
    + cbv beta iota.
      destruct (negb (Qeq_bool (order_amount (get_order (trade_open_order_id trade)
                                                (trade_pair trade))) a)) eqn:Hne;
        cbv beta iota delta [fst snd].
      * destruct (Hfin (trade_update (set_fee_open trade 0)
                          (set_order_amount
                             (get_order (trade_open_order_id trade) (trade_pair trade)) a))
                    (mkWorld
                       (replace_row
                          (trade_update (set_fee_open trade 0)
                             (set_order_amount
                                (get_order (trade_open_order_id trade) (trade_pair trade))
                                a))
                          (replace_row (set_fee_open trade 0) (session w)))
                       (events w ++ pre0) (clock w))
                    pre0 eq_refl Hpre)
          as [pre [res [w' [Hr [Hq [Hrows Hrest]]]]]].
        -- right. exists a. split; [|reflexivity].
           intro Heq. apply Qeq_bool_iff in Heq. rewrite Heq in Hne. discriminate.
        -- intro Hidp. split; [now rewrite Hidp|]. intros j Hj. cbn [session].
           rewrite lookup_row_replace_other; [|now rewrite Hidp].
           now apply lookup_row_replace_other.
        -- exists pre, res, w'. split; [exact Hr|]. split; [exact Hq|].
           split; [exact Hrows|]. right. exact Hrest.
      * destruct (Hfin (trade_update trade
                          (get_order (trade_open_order_id trade) (trade_pair trade)))
                    (mkWorld
                       (replace_row
                          (trade_update trade
                             (get_order (trade_open_order_id trade) (trade_pair trade)))
                          (session w))
                       (events w ++ pre0) (clock w))
                    pre0 eq_refl Hpre)
          as [pre [res [w' [Hr [Hq [Hrows Hrest]]]]]].
        -- now left.
        -- intro Hidp. split; [apply Hidp|]. intros j Hj. cbn [session].
           apply lookup_row_replace_other. now rewrite Hidp.
        -- exists pre, res, w'. split; [exact Hr|]. split; [exact Hq|].
           split; [exact Hrows|]. right. exact Hrest.
  - destruct (Hfin trade w []) as [pre [res [w' [Hr [Hq [Hrows Hrest]]]]]].
    + now rewrite app_nil_r.
    + now left.
    + reflexivity.
    + intros _. split; reflexivity.
    + exists pre, res, w'. split; [exact Hr|]. split; [exact Hq|].
      split; [exact Hrows|]. right. exact Hrest.
Qed.

(** X19: [process_maybe_execute_sell] lets no ValueError, no
    OperationalException and no DependencyException out.  Whatever the
    trade, its order and [Trade.update] are, it can end in the IndexError
    of the order-book scan, only when [ask_strategy.use_book_order] is
    on, and in the AttributeError or TypeError that [get_real_amount]
    ends in over a fee that holds [None], which no handler catches; and
    in no other exception. *)
Theorem X19_round_errors (trade : Trade) (w : World) (e : exn) :
  fst (process_maybe_execute_sell cpp cp slp cfg strat get_ticker get_order_book
         get_fee gtfo exchange_sell get_signal utcnow_at get_order trade_update
         trade w) = inl e ->
  (e = IndexError
   /\ exists a, cfg_ask_strategy cfg = Some a /\ ask_use_book_order a = true)
  \/ ((e = AttributeError \/ e = TypeError)
      /\ py_truthy (trade_open_order_id trade) = true
      /\ fst (get_real_amount gtfo trade
                (get_order (trade_open_order_id trade) (trade_pair trade)) w)
         = inl e).
Proof.
  destruct (process_sell_outcome trade w)
    as [pre [res [w' [Hrun [_ [_ Hcases]]]]]].
  rewrite Hrun. cbn [fst]. intro He.
  destruct Hcases as [[e' [Hres [Hkind [Ht [Hamount _]]]]]|[t1 [_ [Herr _]]]].
  - right. rewrite Hres in He. injection He as <-. repeat split; assumption.
  - left. now apply Herr.
Qed.


(** X21: if [Trade.update] keeps the id of the row, a round over a
    trade leaves the rows of all other trades as they are. *)
Theorem X21_round_rows (trade : Trade) (w : World) :
  (forall t o, trade_id (trade_update t o) = trade_id t) ->
  forall j, j <> trade_id trade ->
    lookup_row j (session (snd (process_maybe_execute_sell cpp cp slp cfg strat
                                  get_ticker get_order_book get_fee gtfo exchange_sell
                                  get_signal utcnow_at get_order trade_update trade w)))
    = lookup_row j (session w).
Proof.
  destruct (process_sell_outcome trade w)
    as [pre [res [w' [Hrun [_ [Hrows _]]]]]].
  rewrite Hrun. cbn [snd]. exact Hrows.
Qed.

End RoundOutcome.

Lemma X19_round_errors_witness :
  (fst (process_maybe_execute_sell spec_profit_percent spec_profit spec_stop_loss_price
          book_exit_config five_percent_strategy falling_ticker thin_book flat_fee
          no_fills sell_order_id no_signal after_45_minutes closed_buy_order
          settle_update sample_trade open_world) = inl IndexError
   /\ exists a, cfg_ask_strategy book_exit_config = Some a /\ ask_use_book_order a = true)
  /\ fst (process_maybe_execute_sell spec_profit_percent spec_profit
            spec_stop_loss_price book_exit_config five_percent_strategy falling_ticker
            thin_book flat_fee none_fee_fills sell_order_id no_signal after_45_minutes
            bare_buy_order settle_update pending_trade pending_world)
     = inl AttributeError.
Proof.
  assert (Hix : fst (process_maybe_execute_sell spec_profit_percent spec_profit
                       spec_stop_loss_price book_exit_config five_percent_strategy
                       falling_ticker thin_book flat_fee no_fills sell_order_id
                       no_signal after_45_minutes closed_buy_order settle_update
                       sample_trade open_world) = inl IndexError)
    by reflexivity.
  assert (Hattr : fst (process_maybe_execute_sell spec_profit_percent spec_profit
                         spec_stop_loss_price book_exit_config five_percent_strategy
                         falling_ticker thin_book flat_fee none_fee_fills sell_order_id
                         no_signal after_45_minutes bare_buy_order settle_update
                         pending_trade pending_world) = inl AttributeError)
    by reflexivity.
  split; [|exact Hattr].
  split; [exact Hix|].
  destruct (X19_round_errors spec_profit_percent spec_profit spec_stop_loss_price
              book_exit_config five_percent_strategy falling_ticker thin_book flat_fee
              no_fills sell_order_id no_signal after_45_minutes closed_buy_order
              settle_update sample_trade open_world IndexError Hix)
    as [[_ Hbook]|[[Hkind|Hkind] _]]; [exact Hbook | discriminate | discriminate].
Defined.

Lemma X21_round_rows_witness :
  lookup_row 1 (session (snd (process_maybe_execute_sell spec_profit_percent spec_profit
                                spec_stop_loss_price book_exit_config
                                half_percent_strategy falling_ticker sample_book flat_fee
                                no_fills sell_order_id no_signal after_45_minutes
                                closed_buy_order settle_update pending_trade
                                pending_world)))
  = Some sample_trade.
Proof.
  rewrite (X21_round_rows spec_profit_percent spec_profit spec_stop_loss_price
             book_exit_config half_percent_strategy falling_ticker sample_book flat_fee
             no_fills sell_order_id no_signal after_45_minutes closed_buy_order
             settle_update pending_trade pending_world).
  - reflexivity.
  - intros t o. unfold settle_update.
    destruct (String.eqb (order_status o) "closed"); reflexivity.
  - discriminate.
Defined.

(** *** Looking for a pair to buy *)

Lemma drop_open_pairs_kept (trades : list Trade) :
  forall wl, kept_in_order (drop_open_pairs trades wl) wl.
Proof.
  induction trades as [|t rest IH]; intro wl; [apply kept_in_order_refl|].
  cbn [drop_open_pairs]. destruct (py_in (trade_pair t) wl) eqn:Hin; [|apply IH].
  destruct (py_remove_present _ _ Hin) as [wl' [Hr [Hk _]]]. rewrite Hr.
  exact (kept_in_order_trans _ _ _ (IH wl') Hk).
Qed.

Lemma drop_open_pairs_count (trades : list Trade) (p : string) :
  forall wl,
    py_count p (drop_open_pairs trades wl)
    = (py_count p wl
       - List.length (filter (fun t => String.eqb (trade_pair t) p) trades))%nat.
Proof.
  induction trades as [|t rest IH]; intro wl.
  - cbn [drop_open_pairs filter List.length]. now rewrite Nat.sub_0_r.
  - cbn [drop_open_pairs filter]. destruct (py_in (trade_pair t) wl) eqn:Hin.
    + destruct (py_remove_present _ _ Hin) as [wl' [Hr [_ Hc]]]. rewrite Hr, IH, Hc.
      rewrite (String.eqb_sym p (trade_pair t)).
      destruct (String.eqb (trade_pair t) p); cbn [List.length]; lia.
    + rewrite IH. destruct (String.eqb (trade_pair t) p) eqn:E; [|reflexivity].
      apply String.eqb_eq in E. subst p. rewrite py_in_count in Hin.
      destruct (py_count (trade_pair t) wl); [reflexivity | discriminate].
Qed.

Section BuyOutcome.

Variable cfg : Config.
Variable strat : Strategy.
Variable x : Experimental.
Variable stake_currency : string.
Variable pair_whitelist : list string.
Variable get_balance : string -> Q.
Variable get_signal : string -> string -> bool * bool.
Variable get_order_book : string -> Z -> OrderBook.
Variable depth_test : OrderBook -> Q -> exn + bool.

(** Everything the loop over the whitelist can end in. *)
Lemma pick_pair_outcome (interval : string) (wl : list string) :
  forall w,
  exists res w',
    pick_pair x get_signal get_order_book depth_test interval wl w = (res, w')
    /\ session w' = session w
    /\ clock w' = clock w
    /\ (exists pre,
          events w' = (events w ++ pre)%list
          /\ forallb is_query pre = true
          /\ (buy_price_below_24h_h_l x = false ->
              forall p, ~ In (EvGetTicker p) pre))
    /\ match res with
       | inr (Some p) =>
           exists before after,
             wl = (before ++ p :: after)%list
             /\ Forall (passed_over x get_signal get_order_book depth_test interval)
                  before
             /\ eligible x get_signal get_order_book depth_test interval p
       | inr None =>
           Forall (passed_over x get_signal get_order_book depth_test interval) wl
       | inl e =>
           exists before q after,
             wl = (before ++ q :: after)%list
             /\ Forall (passed_over x get_signal get_order_book depth_test interval)
                  before
             /\ get_signal q interval = (true, false)
             /\ check_depth_of_market x && Qltb 0 (dom_bids_asks_delta x) = true
             /\ depth_test (get_order_book q 1000) (dom_bids_asks_delta x) = inl e
       end.
Proof.
  induction wl as [|q rest IH]; intro w.
  - exists (inr None), w. split; [reflexivity|]. split; [reflexivity|].
    split; [reflexivity|]. split; [|constructor].
    exists []. split; [now rewrite app_nil_r|]. split; [reflexivity|].
    intros _ p [].
  - cbn [pick_pair]. unfold bind, emit, modify, ret, lift_exn. cbv beta iota.
    destruct (get_signal q interval) as [buy sell] eqn:Hs. cbn [fst snd].
    destruct (buy && negb sell) eqn:Hbs.
    + assert (Hpure : (buy, sell) = (true, false)).
      { apply andb_true_iff in Hbs. destruct Hbs as [-> Hn].
        destruct sell; [discriminate | reflexivity]. }
      destruct (check_depth_of_market x && Qltb 0 (dom_bids_asks_delta x)) eqn:Hdom.
      * destruct (depth_test (get_order_book q 1000) (dom_bids_asks_delta x))
          as [e|[|]] eqn:Hd; unfold raise; cbv beta iota.
        -- eexists (inl e), _. split; [reflexivity|]. cbn [session clock events].
           split; [reflexivity|]. split; [reflexivity|]. split.
           ++ exists [EvGetSignal q interval; EvGetOrderBook q 1000].
              split; [now rewrite <- app_assoc|]. split; [reflexivity|].
              intros _ p [H|[H|[]]]; discriminate.
           ++ exists [], q, rest. split; [reflexivity|]. split; [constructor|].
              split; [now rewrite Hs|]. split; [reflexivity | exact Hd].
        -- destruct (buy_price_below_24h_h_l x) eqn:H24; cbv beta iota;
             (eexists (inr (Some q)), _; split; [reflexivity|];
              cbn [session clock events];
              split; [reflexivity|]; split; [reflexivity|]; split;
              [|exists [], rest; split; [reflexivity|]; split; [constructor|];
                split; [now rewrite Hs | intros _; exact Hd]]).
           ++ exists [EvGetSignal q interval; EvGetOrderBook q 1000; EvGetTicker q].
              split; [now rewrite <- !app_assoc|]. split; [reflexivity|].
              discriminate.
           ++ exists [EvGetSignal q interval; EvGetOrderBook q 1000].
              split; [now rewrite <- !app_assoc|]. split; [reflexivity|].
              intros _ p [H|[H|[]]]; discriminate.
        -- destruct (IH (mkWorld (session w)
                           ((events w ++ [EvGetSignal q interval])
                            ++ [EvGetOrderBook q 1000]) (clock w)))
             as [res [w' [Hrun [Hse [Hcl [[pre [Hev [Hq H24]]] Hres]]]]]].
           exists res, w'. split; [exact Hrun|]. cbn [session clock events] in *.
           split; [exact Hse|]. split; [exact Hcl|]. split.
           ++ exists (EvGetSignal q interval :: EvGetOrderBook q 1000 :: pre).
              split; [now rewrite Hev, <- !app_assoc|]. split; [exact Hq|].
              intros Hoff p [H|[H|H]]; try discriminate. exact (H24 Hoff p H).
           ++ assert (Hpo : passed_over x get_signal get_order_book depth_test
                              interval q)
                by (right; now split).
              destruct res as [e|[p|]].
              ** destruct Hres as [before [q' [after [Hwl [Hb Hrest]]]]].
                 exists (q :: before), q', after. split; [now rewrite Hwl|].
                 split; [now constructor | exact Hrest].
              ** destruct Hres as [before [after [Hwl [Hb Hel]]]].
                 exists (q :: before), after. split; [now rewrite Hwl|].
                 split; [now constructor | exact Hel].
              ** now constructor.
      * eexists (inr (Some q)), _. split; [reflexivity|]. cbn [session clock events].
        split; [reflexivity|]. split; [reflexivity|]. split.
        -- exists [EvGetSignal q interval]. split; [reflexivity|].
           split; [reflexivity|]. intros _ p [H|[]]; discriminate.
        -- exists [], rest. split; [reflexivity|]. split; [constructor|].
           split; [now rewrite Hs | intro Hon; congruence].
    + destruct (IH (mkWorld (session w) (events w ++ [EvGetSignal q interval])
                      (clock w)))
        as [res [w' [Hrun [Hse [Hcl [[pre [Hev [Hq H24]]] Hres]]]]]].
      exists res, w'. split; [exact Hrun|]. cbn [session clock events] in *.
      split; [exact Hse|]. split; [exact Hcl|]. split.
      * exists (EvGetSignal q interval :: pre).
        split; [now rewrite Hev, <- !app_assoc|]. split; [exact Hq|].
        intros Hoff p [H|H]; try discriminate. exact (H24 Hoff p H).
      * assert (Hpo : passed_over x get_signal get_order_book depth_test interval q)
          by (left; now rewrite Hs).
        destruct res as [e|[p|]].
        -- destruct Hres as [before [q' [after [Hwl [Hb Hrest]]]]].
           exists (q :: before), q', after. split; [now rewrite Hwl|].
           split; [now constructor | exact Hrest].
        -- destruct Hres as [before [after [Hwl [Hb Hel]]]].
           exists (q :: before), after. split; [now rewrite Hwl|].
           split; [now constructor | exact Hel].
        -- now constructor.
Qed.

(** The answer of the loop does not depend on [buy_price_below_24h_h_l]
    nor on the log. *)
Lemma pick_pair_flag (b : bool) (interval : string) (wl : list string) :
  forall w v,
    fst (pick_pair x get_signal get_order_book depth_test interval wl w)
    = fst (pick_pair (set_buy_price_below_24h_h_l x b) get_signal get_order_book
             depth_test interval wl v).
Proof.
  induction wl as [|q rest IH]; intros w v; [reflexivity|].
  cbn [pick_pair]. unfold bind, emit, modify, ret, lift_exn, raise. cbv beta iota.
  cbn [set_buy_price_below_24h_h_l check_depth_of_market dom_bids_asks_delta
       buy_price_below_24h_h_l].
  destruct (fst (get_signal q interval) && negb (snd (get_signal q interval)));
    [|apply IH].
  destruct (check_depth_of_market x && Qltb 0 (dom_bids_asks_delta x));
    [|reflexivity].
  destruct (depth_test (get_order_book q 1000) (dom_bids_asks_delta x)) as [e|[|]];
    cbv beta iota; [reflexivity | | apply IH].
  destruct (buy_price_below_24h_h_l x), b; reflexivity.
Qed.

(** Everything [create_trade_pair] can end in. *)
Lemma create_trade_pair_outcome (stake : Q) (w : World) :
  exists res w',
    create_trade_pair cfg strat x stake_currency pair_whitelist get_balance get_signal
      get_order_book depth_test stake w = (res, w')
    /\ session w' = session w
    /\ clock w' = clock w
    /\ (exists pre,
          events w' = (events w ++ pre)%list
          /\ forallb is_query pre = true
          /\ (buy_price_below_24h_h_l x = false ->
              forall p, ~ In (EvGetTicker p) pre))
    /\ ((res = inl DependencyException
         /\ (get_balance stake_currency < stake
             \/ drop_open_pairs (filter trade_is_open (bot_rows cfg (session w)))
                  pair_whitelist = []))
        \/ (~ get_balance stake_currency < stake
            /\ match res with
               | inr (Some p) =>
                   exists before after,
                     drop_open_pairs (filter trade_is_open (bot_rows cfg (session w)))
                       pair_whitelist = (before ++ p :: after)%list
                     /\ Forall (passed_over x get_signal get_order_book depth_test
                                  (ticker_interval strat)) before
                     /\ eligible x get_signal get_order_book depth_test
                          (ticker_interval strat) p
               | inr None =>
                   drop_open_pairs (filter trade_is_open (bot_rows cfg (session w)))
                     pair_whitelist <> []
                   /\ Forall (passed_over x get_signal get_order_book depth_test
                                (ticker_interval strat))
                        (drop_open_pairs
                           (filter trade_is_open (bot_rows cfg (session w)))
                           pair_whitelist)
               | inl e =>
                   exists before q after,
                     drop_open_pairs (filter trade_is_open (bot_rows cfg (session w)))
                       pair_whitelist = (before ++ q :: after)%list
                     /\ Forall (passed_over x get_signal get_order_book depth_test
                                  (ticker_interval strat)) before
                     /\ get_signal q (ticker_interval strat) = (true, false)
                     /\ check_depth_of_market x && Qltb 0 (dom_bids_asks_delta x) = true
                     /\ depth_test (get_order_book q 1000) (dom_bids_asks_delta x)
                        = inl e
               end)).
Proof.
  unfold create_trade_pair.
  destruct (Qltb (get_balance stake_currency) stake) eqn:Hbal.
  - exists (inl DependencyException), w. split; [reflexivity|].
    split; [reflexivity|]. split; [reflexivity|]. split.
    + exists []. split; [now rewrite app_nil_r|]. split; [reflexivity|].
      intros _ p [].
    + left. split; [reflexivity|]. left. now apply Qltb_lt.
  - assert (Hnb : ~ get_balance stake_currency < stake).
    { intro H. apply Qltb_lt in H. congruence. }
    unfold bind, get. cbv beta iota.
    destruct (drop_open_pairs (filter trade_is_open (bot_rows cfg (session w)))
                pair_whitelist) as [|q rest] eqn:Hwl.
    + exists (inl DependencyException), w. split; [reflexivity|].
      split; [reflexivity|]. split; [reflexivity|]. split.
      * exists []. split; [now rewrite app_nil_r|]. split; [reflexivity|].
        intros _ p [].
      * left. split; [reflexivity|]. now right.
    + destruct (pick_pair_outcome (ticker_interval strat) (q :: rest) w)
        as [res [w' [Hrun [Hse [Hcl [Hev Hres]]]]]].
      exists res, w'. split; [exact Hrun|]. split; [exact Hse|].
      split; [exact Hcl|]. split; [exact Hev|].
      right. split; [exact Hnb|]. destruct res as [e|[p|]]; [exact Hres | exact Hres|].
      split; [discriminate | exact Hres].
Qed.

(** X22: [create_trade] up to the choice of the pair never writes a row
    and only queries the exchange.  It raises DependencyException when
    the balance is below the stake or when the whitelist, with one
    occurrence of its pair taken out per open trade of the bot, is empty;
    otherwise it stops at the first pair of what is left that has a buy
    signal without a sell signal and, if the depth of market is checked,
    passes that check; it returns no pair when all are passed over, and
    it raises what the depth check raises on the first pair with such a
    signal where it does. *)
Theorem X22_create_trade_pair_outcome (stake : Q) (w : World) :
  session (snd (create_trade_pair cfg strat x stake_currency pair_whitelist get_balance
                  get_signal get_order_book depth_test stake w)) = session w
  /\ (exists pre,
        events (snd (create_trade_pair cfg strat x stake_currency pair_whitelist
                       get_balance get_signal get_order_book depth_test stake w))
        = (events w ++ pre)%list
        /\ forallb is_query pre = true)
  /\ ((fst (create_trade_pair cfg strat x stake_currency pair_whitelist get_balance
              get_signal get_order_book depth_test stake w) = inl DependencyException
       /\ (get_balance stake_currency < stake
           \/ drop_open_pairs (filter trade_is_open (bot_rows cfg (session w)))
                pair_whitelist = []))
      \/ (~ get_balance stake_currency < stake
          /\ match fst (create_trade_pair cfg strat x stake_currency pair_whitelist
                          get_balance get_signal get_order_book depth_test stake w) with
             | inr (Some p) =>
                 exists before after,
                   drop_open_pairs (filter trade_is_open (bot_rows cfg (session w)))
                     pair_whitelist = (before ++ p :: after)%list
                   /\ Forall (passed_over x get_signal get_order_book depth_test
                                (ticker_interval strat)) before
                   /\ eligible x get_signal get_order_book depth_test
                        (ticker_interval strat) p
             | inr None =>
                 drop_open_pairs (filter trade_is_open (bot_rows cfg (session w)))
                   pair_whitelist <> []
                 /\ Forall (passed_over x get_signal get_order_book depth_test
                              (ticker_interval strat))
                      (drop_open_pairs
                         (filter trade_is_open (bot_rows cfg (session w)))
                         pair_whitelist)
             | inl e =>
                 exists before q after,
                   drop_open_pairs (filter trade_is_open (bot_rows cfg (session w)))
                     pair_whitelist = (before ++ q :: after)%list
                   /\ Forall (passed_over x get_signal get_order_book depth_test
                                (ticker_interval strat)) before
                   /\ get_signal q (ticker_interval strat) = (true, false)
                   /\ check_depth_of_market x && Qltb 0 (dom_bids_asks_delta x) = true
                   /\ depth_test (get_order_book q 1000) (dom_bids_asks_delta x)
                      = inl e
             end)).
Proof.
  destruct (create_trade_pair_outcome stake w)
    as [res [w' [Hrun [Hse [_ [[pre [Hev [Hq _]]] Hres]]]]]].
  rewrite Hrun. cbn [fst snd]. split; [exact Hse|].
  split; [now exists pre | exact Hres].
Qed.

(** X23: the pair [create_trade] settles on is on the whitelist and
    occurs there more often than the bot has open trades in it; so with
    a whitelist without repeats it is never the pair of an open trade of
    the bot. *)
Theorem X23_create_trade_pair_not_open (stake : Q) (w : World) (p : string) :
  fst (create_trade_pair cfg strat x stake_currency pair_whitelist get_balance
         get_signal get_order_book depth_test stake w) = inr (Some p) ->
  In p pair_whitelist
  /\ (List.length (filter (fun t => String.eqb (trade_pair t) p)
                     (filter trade_is_open (bot_rows cfg (session w))))
      < py_count p pair_whitelist)%nat
  /\ (NoDup pair_whitelist ->
      forall t, In t (filter trade_is_open (bot_rows cfg (session w))) ->
        trade_pair t <> p).
Proof.
  destruct (create_trade_pair_outcome stake w)
    as [res [w' [Hrun [_ [_ [_ Hres]]]]]].
  rewrite Hrun. cbn [fst]. intro Hp. subst res.
  destruct Hres as [[Hd _]|[_ [before [after [Hwl _]]]]]; [discriminate|].
  assert (Hin : In p (drop_open_pairs (filter trade_is_open (bot_rows cfg (session w)))
                        pair_whitelist))
    by (rewrite Hwl; apply in_or_app; right; now left).
  assert (Hc : (0 < py_count p (drop_open_pairs
                                  (filter trade_is_open (bot_rows cfg (session w)))
                                  pair_whitelist))%nat).
  { apply py_in_In in Hin. rewrite py_in_count in Hin. now apply Nat.ltb_lt in Hin. }
  rewrite drop_open_pairs_count in Hc.
  split; [exact (kept_in_order_In _ _ _ (drop_open_pairs_kept _ _) Hin)|].
  split; [lia|].
  intros Hnd t Ht Hpair.
  assert (H1 := py_count_NoDup p pair_whitelist Hnd).
  assert (Ht' : In t (filter (fun t => String.eqb (trade_pair t) p)
                        (filter trade_is_open (bot_rows cfg (session w))))).
  { apply filter_In. split; [exact Ht|]. subst p. apply String.eqb_refl. }
  destruct (filter (fun t => String.eqb (trade_pair t) p)
              (filter trade_is_open (bot_rows cfg (session w)))); [destruct Ht'|].
  cbn [List.length] in Hc. lia.
Qed.

(** X24: [experimental.buy_price_below_24h_h_l] never changes what
    [create_trade] settles on: with the option on or off the same pair,
    no pair or the same exception comes out.  All it adds is the fetch of
    a ticker; with the option off no ticker is fetched. *)
Theorem X24_create_trade_pair_24h_idle (b : bool) (stake : Q) (w : World) :
  fst (create_trade_pair cfg strat x stake_currency pair_whitelist get_balance
         get_signal get_order_book depth_test stake w)
  = fst (create_trade_pair cfg strat (set_buy_price_below_24h_h_l x b) stake_currency
           pair_whitelist get_balance get_signal get_order_book depth_test stake w)
  /\ (buy_price_below_24h_h_l x = false ->
      exists pre,
        events (snd (create_trade_pair cfg strat x stake_currency pair_whitelist
                       get_balance get_signal get_order_book depth_test stake w))
        = (events w ++ pre)%list
        /\ forall p, ~ In (EvGetTicker p) pre).
Proof.
  split.
  - unfold create_trade_pair.
    destruct (Qltb (get_balance stake_currency) stake); [reflexivity|].
    unfold bind, get. cbv beta iota.
    destruct (drop_open_pairs (filter trade_is_open (bot_rows cfg (session w)))
                pair_whitelist) as [|q rest]; [reflexivity|].
    apply pick_pair_flag.
  - intro Hoff.
    destruct (create_trade_pair_outcome stake w)
      as [res [w' [Hrun [_ [_ [[pre [Hev [_ H24]]] _]]]]]].
    rewrite Hrun. cbn [snd]. exists pre. split; [exact Hev | exact (H24 Hoff)].
Qed.

End BuyOutcome.

Lemma X23_create_trade_pair_not_open_witness :
  fst (create_trade_pair sample_config sample_strategy depth_checks "BTC"
         sample_whitelist rich_balance two_buy_signals sample_book deep_enough 1000
         open_world) = inr (Some "XRP/BTC"%string)
  /\ In "XRP/BTC"%string sample_whitelist
  /\ forall t, In t (filter trade_is_open (bot_rows sample_config (session open_world))) ->
       trade_pair t <> "XRP/BTC"%string.
Proof.
  split; [reflexivity|].
  destruct (X23_create_trade_pair_not_open sample_config sample_strategy depth_checks
              "BTC" sample_whitelist rich_balance two_buy_signals sample_book
              deep_enough 1000 open_world "XRP/BTC" eq_refl) as [Hin [_ Hnot]].
  split; [exact Hin|]. apply Hnot.
  repeat constructor; cbn; intuition discriminate.
Defined.

(** *** The whitelist of a round *)

Lemma In_py_slice_to (l : list string) (n : Z) (x : string) :
  In x (py_slice_to l n) -> In x l.
Proof.
  unfold py_slice_to. destruct (n <? 0)%Z; intro H.
  - rewrite <- (firstn_skipn (Z.to_nat (Z.of_nat (List.length l) + n)) l).
    apply in_or_app. now left.
  - rewrite <- (firstn_skipn (Z.to_nat n) l). apply in_or_app. now left.
Qed.

Section RoundWhitelistFacts.

Variable stake : string.
Variable blacklist : list string.

(** A call with a number of assets that finds a living cache entry. *)
Lemma process_whitelist_hit
    (has : bool) (tickers : list (string * TickerInfo)) (markets : list Market)
    (nb : Z) (s : Pairs) (l : list string) :
  nb <> 0%Z ->
  cache_slot s = Some (stake, l) ->
  exists final l',
    process_whitelist stake blacklist false has tickers markets nb s
    = (inr tt, mkPairs (Some (stake, l')) (py_slice_to final nb))
    /\ _refresh_whitelist stake blacklist markets l = (inr final, l').
Proof.
  intros Hnb Hslot.
  destruct (refresh_whitelist_outcome stake blacklist markets l)
    as [known [l' [Hrun _]]].
  exists (filter (fun x => py_in x known) l'), l'. split; [|exact Hrun].
  unfold process_whitelist, cached_gen_pair_whitelist, on_cached_list, bind, get, ret,
    modify.
  apply Z.eqb_neq in Hnb. rewrite Hnb. cbn [negb]. cbv beta iota.
  rewrite Hslot. cbv beta iota. cbn [negb andb]. rewrite String.eqb_refl.
  cbn [cache_slot config_whitelist]. rewrite Hslot, Hrun. reflexivity.
Qed.

(** A call with a number of assets that finds no living entry. *)
Lemma process_whitelist_miss
    (expired : bool) (tickers : list (string * TickerInfo)) (markets : list Market)
    (nb : Z) (s : Pairs) (l : list string) :
  nb <> 0%Z ->
  cache_slot s = None \/ expired = true ->
  _gen_pair_whitelist true tickers stake tick_quoteVolume = inr l ->
  exists final l',
    process_whitelist stake blacklist expired true tickers markets nb s
    = (inr tt, mkPairs (Some (stake, l')) (py_slice_to final nb))
    /\ _refresh_whitelist stake blacklist markets l = (inr final, l').
Proof.
  intros Hnb Hmiss Hgen.
  destruct (refresh_whitelist_outcome stake blacklist markets l)
    as [known [l' [Hrun _]]].
  exists (filter (fun x => py_in x known) l'), l'. split; [|exact Hrun].
  unfold process_whitelist, cached_gen_pair_whitelist, on_cached_list, bind, get, ret,
    modify, lift_exn.
  apply Z.eqb_neq in Hnb. rewrite Hnb. cbn [negb]. cbv beta iota.
  rewrite Hgen. unfold ret.
  destruct Hmiss as [Hnone|Hexp].
  - rewrite Hnone. cbv beta iota. cbn [cache_slot config_whitelist].
    rewrite Hrun. reflexivity.
  - subst expired. cbn [negb andb].
    destruct (cache_slot s) as [[k l0]|]; cbv beta iota;
      cbn [cache_slot config_whitelist]; rewrite Hrun; reflexivity.
Qed.

(** X25: with a number of assets, a pair dropped because its market was
    inactive stays out for as long as the cache entry lives.  The list
    the cache hands out is the list [_refresh_whitelist] removes from;
    so after a call that filled the cache while the pair had an inactive
    market, a later call served from the cache cannot put the pair on the
    whitelist, whatever the markets and tickers are by then. *)
Theorem X25_inactive_pair_stays_out
    (nb1 nb2 : Z) (expired1 has2 : bool)
    (tickers1 tickers2 : list (string * TickerInfo))
    (markets1 markets2 : list Market) (s0 : Pairs) (generated : list string)
    (p : string) :
  nb1 <> 0%Z ->
  nb2 <> 0%Z ->
  cache_slot s0 = None \/ expired1 = true ->
  _gen_pair_whitelist true tickers1 stake tick_quoteVolume = inr generated ->
  (py_count p generated <= 1)%nat ->
  py_in p blacklist = false ->
  inactive_markets stake markets1 p <> [] ->
  fst (process_whitelist stake blacklist expired1 true tickers1 markets1 nb1 s0)
  = inr tt
  /\ fst (process_whitelist stake blacklist false has2 tickers2 markets2 nb2
            (snd (process_whitelist stake blacklist expired1 true tickers1 markets1
                    nb1 s0)))
     = inr tt
  /\ ~ In p (config_whitelist
               (snd (process_whitelist stake blacklist false has2 tickers2 markets2 nb2
                       (snd (process_whitelist stake blacklist expired1 true tickers1
                               markets1 nb1 s0))))).
Proof.
  intros Hnb1 Hnb2 Hmiss Hgen Hone Hbl Hin.
  destruct (process_whitelist_miss expired1 tickers1 markets1 nb1 s0 generated
              Hnb1 Hmiss Hgen) as [final1 [l1 [Hrun1 Href1]]].
  rewrite Hrun1. cbn [fst snd].
  destruct (process_whitelist_hit has2 tickers2 markets2 nb2
              (mkPairs (Some (stake, l1)) (py_slice_to final1 nb1)) l1 Hnb2 eq_refl)
    as [final2 [l2 [Hrun2 Href2]]].
  rewrite Hrun2. cbn [fst snd config_whitelist].
  split; [reflexivity|]. split; [reflexivity|].
  intro Hp. apply In_py_slice_to in Hp.
  destruct (refresh_whitelist_outcome stake blacklist markets1 generated)
    as [known1 [l1' [Hr1 [_ [Hc1 _]]]]].
  rewrite Href1 in Hr1. inversion Hr1; subst l1'. clear Hr1.
  destruct (refresh_whitelist_outcome stake blacklist markets2 l1)
    as [known2 [l2' [Hr2 [Hk2 _]]]].
  rewrite Href2 in Hr2. inversion Hr2; subst. clear Hr2.
  apply filter_In in Hp. destruct Hp as [Hp _].
  apply (kept_in_order_In _ _ _ Hk2) in Hp.
  apply py_in_In in Hp. rewrite py_in_count, Hc1, Hbl in Hp.
  destruct (inactive_markets stake markets1 p) as [|m ms]; [now apply Hin|].
  cbn [List.length] in Hp. apply Nat.ltb_lt in Hp. lia.
Qed.

End RoundWhitelistFacts.

Lemma X25_inactive_pair_stays_out_witness :
  config_whitelist
    (snd (process_whitelist "BTC" [] false true sample_tickers active_markets 3
            (snd (process_whitelist "BTC" [] false true sample_tickers sample_markets 3
                    fresh_pairs))))
  = ["XRP/BTC"; "ETH/BTC"]%string
  /\ ~ In "LTC/BTC"%string
         (config_whitelist
            (snd (process_whitelist "BTC" [] false true sample_tickers active_markets 3
                    (snd (process_whitelist "BTC" [] false true sample_tickers
                            sample_markets 3 fresh_pairs))))).
Proof.
  split; [reflexivity|].
  apply (X25_inactive_pair_stays_out "BTC" [] 3 3 false true sample_tickers
           sample_tickers sample_markets active_markets fresh_pairs
           ["LTC/BTC"; "XRP/BTC"; "ETH/BTC"]%string "LTC/BTC").
  - discriminate.
  - discriminate.
  - now left.
  - reflexivity.
  - cbn. lia.
  - reflexivity.
  - discriminate.
Defined.

(** *** The sell answer over time *)

Lemma roi_walk_mono (roi : list (Z * Q)) (td1 td2 p1 p2 : Q) :
  td1 <= td2 -> p1 <= p2 ->
  roi_walk roi td1 p1 = true -> roi_walk roi td2 p2 = true.
Proof.
  intros Htd Hp. induction roi as [|[d th] rest IH]; [discriminate|].
  cbn [roi_walk].
  destruct (Qle_bool td1 (inject_Z d)) eqn:E1; [discriminate|].
  assert (E2 : Qle_bool td2 (inject_Z d) = false).
  { destruct (Qle_bool td2 (inject_Z d)) eqn:E; [|reflexivity].
    apply Qle_bool_iff in E.
    assert (H1 : Qle_bool td1 (inject_Z d) = true)
      by (apply Qle_bool_iff; now apply Qle_trans with td2).
    congruence. }
  rewrite E2.
  destruct (Qltb th p1) eqn:L1.
  - intros _. apply Qltb_lt in L1.
    assert (L2 : Qltb th p2 = true)
      by (apply Qltb_lt; now apply Qlt_le_trans with p1).
    now rewrite L2.
  - intro H. destruct (Qltb th p2); [reflexivity | now apply IH].
Qed.

Section SellOverTime.

Variable cpp : Trade -> Q -> Q.
Variable cp : Trade -> option Q -> Q.
Variable slp : Q -> option Q -> Q.
Variable cfg : Config.
Variable strat : Strategy.

(** At two times [min_roi_reached] leaves the same trade behind, and a
    sell answer at the earlier one is a sell answer at the later one. *)
Lemma min_roi_reached_later (rate now1 now2 : Q) (t : Trade) :
  now1 <= now2 ->
  exists b1 b2 t',
    min_roi_reached cpp slp cfg strat rate now1 t = (inr b1, t')
    /\ min_roi_reached cpp slp cfg strat rate now2 t = (inr b2, t')
    /\ (b1 = true -> b2 = true).
Proof.
  intro Hnow.
  assert (Htd : (now1 - trade_open_date t) / 60 <= (now2 - trade_open_date t) / 60).
  { unfold Qdiv. apply Qmult_le_compat_r; [lra|].
    apply Qlt_le_weak. apply Qinv_lt_0_compat. reflexivity. }
  destruct (trade_stop_loss t) as [sl|] eqn:Hsl.
  - rewrite !(min_roi_reached_stored cpp slp cfg strat rate _ t sl Hsl).
    destruct (match stoploss strat with None => false | Some _ => Qle_bool rate sl end).
    + now exists true, true, t.
    + eexists _, _, _. split; [reflexivity|]. split; [reflexivity|].
      apply roi_walk_mono; [exact Htd | apply Qle_refl].
  - assert (E1 := min_roi_reached_first cpp slp cfg strat rate now1 t Hsl).
    assert (E2 := min_roi_reached_first cpp slp cfg strat rate now2 t Hsl).
    cbv zeta in E1, E2. rewrite E1, E2.
    destruct (match stoploss strat with
              | None => false
              | Some _ => Qle_bool rate (slp (trade_open_rate t) (stoploss strat))
              end).
    + eexists true, true, _. split; [reflexivity|]. split; [reflexivity|]. trivial.
    + eexists _, _, _. split; [reflexivity|]. split; [reflexivity|].
      apply roi_walk_mono; [exact Htd | apply Qle_refl].
Qed.

(** X26: a sell answer does not go away by waiting or by a better
    price.  The walk over the minimal-ROI table that answers "sell" for
    some elapsed time and profit answers "sell" for any longer time and
    any higher profit; and for a trade, a rate and signals that stay as
    they are, [should_sell] answering True at one time answers True at
    any later time. *)
Theorem X26_sell_answer_persists :
  (forall roi td1 td2 p1 p2,
      td1 <= td2 -> p1 <= p2 ->
      roi_walk roi td1 p1 = true -> roi_walk roi td2 p2 = true)
  /\ (forall rate now1 now2 buy sell t,
        now1 <= now2 ->
        fst (should_sell cpp cp slp cfg strat rate now1 buy sell t) = inr true ->
        fst (should_sell cpp cp slp cfg strat rate now2 buy sell t) = inr true).
Proof.
  split; [exact roi_walk_mono|].
  intros rate now1 now2 buy sell t Hnow.
  destruct (min_roi_reached_later rate now1 now2 t Hnow)
    as [b1 [b2 [t' [H1 [H2 Hb]]]]].
  unfold should_sell, bind, get, ret. rewrite H1, H2.
  destruct b1.
  - rewrite (Hb eq_refl). trivial.
  - destruct b2; [reflexivity | trivial].
Qed.

End SellOverTime.

Lemma X26_sell_answer_persists_witness :
  fst (should_sell spec_profit_percent spec_profit spec_stop_loss_price sample_config
         sample_strategy 106 3600 false false sample_trade) = inr true.
Proof.
  apply (proj2 (X26_sell_answer_persists spec_profit_percent spec_profit
                  spec_stop_loss_price sample_config sample_strategy)
           106 2700 3600 false false sample_trade).
  - apply Qle_bool_iff. reflexivity.
  - reflexivity.
Defined.

Lemma X27_refresh_whitelist_idempotent_witness :
  _refresh_whitelist "BTC" ["XRP/BTC"%string] sample_markets ["ETH/BTC"%string]
  = (inr ["ETH/BTC"%string], ["ETH/BTC"%string]).
Proof.
  apply (X27_refresh_whitelist_idempotent "BTC" ["XRP/BTC"%string] sample_markets
           sample_whitelist).
  - repeat constructor; cbn; intuition discriminate.
  - reflexivity.
Defined.
